(** * Kineto: the query orchestration and result-composition layer

    A shallow embedding of [streamlit_app.py]: the form validators, the
    builder of the flattened movie list, the catalog resolver and the
    session-state transitions of the pages, followed by the properties
    the specification states about them.

    Conventions.
    - A Python [str] is a [string]; its characters are the code points
      below 256.  Code points above are outside every character class of
      the e-mail pattern and are not representable here.
    - A Python [int] is a [Z]; a Python [float] is a primitive [float],
      so that NaN is the IEEE NaN.  A [numpy.float32], which is no
      [float], and objects of other types are the values of [other].
    - A call that may raise returns an [outcome]. *)

From Corelib Require Import PrimFloat.
From Stdlib Require Import ZArith Lia Bool List String Ascii.
From stdpp Require Import base option list gmap strings pretty.
Import ListNotations.

(* ===================================================================== *)
(** * Python values shared by all components *)
(* ===================================================================== *)

(** The exceptions the modelled code can meet.  [EngineFailure] stands for
    whatever subclass of [Exception] the external engine raises, with the
    text [str(e)] gives. *)
Inductive exn : Type :=
| AttributeError (attribute : string)
| TypeError (what : string)
| KeyError (key : string)
| ReError (pattern : string)
| EngineFailure (message : string).

Inductive outcome (A : Type) : Type :=
| Raised (e : exn)
| Returned (a : A).
Arguments Raised {A} e.
Arguments Returned {A} a.

(** [outcome] is the error monad; stdpp's [x ← o; k] sequences two calls
    and lets the first exception through. *)
#[global] Instance outcome_ret : MRet outcome := fun A a => Returned a.
#[global] Instance outcome_bind : MBind outcome := fun A B k o =>
  match o with
  | Raised e => Raised e
  | Returned a => k a
  end.

#[global] Instance outcome_fmap : FMap outcome := fun A B f o =>
  match o with
  | Raised e => Raised e
  | Returned a => Returned (f a)
  end.

(** Truth value of a [str]: the empty string is false. *)
Definition truthy_str (s : string) : bool := negb (String.eqb s "").

(** Truth value of a [list]. *)
Definition truthy_list {A : Type} (l : list A) : bool :=
  match l with
  | [] => false
  | _ :: _ => true
  end.

(** [len(s)] *)
Definition len_str (s : string) : Z := Z.of_nat (String.length s).

(** Characters by code point. *)
Definition code (c : ascii) : N := N_of_ascii c.

Definition between (lo hi c : ascii) : bool :=
  (code lo <=? code c)%N && (code c <=? code hi)%N.

(* ===================================================================== *)
(** * Regular expressions, as far as [validate_email] needs them *)
(* ===================================================================== *)

Module Re.

Inductive regex : Type :=
| Void
| Eps
| Cls (p : ascii -> bool)
| Seq (r1 r2 : regex)
| Alt (r1 r2 : regex)
| Star (r : regex).

(** [r+] and [r{2,}] *)
Definition Plus (r : regex) : regex := Seq r (Star r).
Definition AtLeast2 (r : regex) : regex := Seq r (Seq r (Star r)).

(** The words a pattern denotes. *)
Inductive lang : regex -> list ascii -> Prop :=
| lang_eps : lang Eps []
| lang_cls p c : p c = true -> lang (Cls p) [c]
| lang_seq r1 r2 u v : lang r1 u -> lang r2 v -> lang (Seq r1 r2) (u ++ v)
| lang_alt_l r1 r2 u : lang r1 u -> lang (Alt r1 r2) u
| lang_alt_r r1 r2 u : lang r2 u -> lang (Alt r1 r2) u
| lang_star_nil r : lang (Star r) []
| lang_star_app r u v : lang r u -> lang (Star r) v -> lang (Star r) (u ++ v).

Fixpoint nullable (r : regex) : bool :=
  match r with
  | Void => false
  | Eps => true
  | Cls _ => false
  | Seq r1 r2 => nullable r1 && nullable r2
  | Alt r1 r2 => nullable r1 || nullable r2
  | Star _ => true
  end.

Fixpoint deriv (c : ascii) (r : regex) : regex :=
  match r with
  | Void => Void
  | Eps => Void
  | Cls p => if p c then Eps else Void
  | Seq r1 r2 =>
      if nullable r1
      then Alt (Seq (deriv c r1) r2) (deriv c r2)
      else Seq (deriv c r1) r2
  | Alt r1 r2 => Alt (deriv c r1) (deriv c r2)
  | Star r1 => Seq (deriv c r1) (Star r1)
  end.

(** Does the whole word match? *)
Fixpoint matches (r : regex) (w : list ascii) : bool :=
  match w with
  | [] => nullable r
  | c :: w' => matches (deriv c r) w'
  end.

End Re.

(* ===================================================================== *)
(** * AuthFormValidator *)
(* ===================================================================== *)

Definition is_alpha (c : ascii) : bool :=
  between "a" "z" c || between "A" "Z" c.

Definition is_digit (c : ascii) : bool := between "0" "9" c.

Definition one_of (s : string) (c : ascii) : bool :=
  existsb (Ascii.eqb c) (list_ascii_of_string s).

(** [[a-zA-Z0-9._%+-]] *)
Definition local_char (c : ascii) : bool :=
  is_alpha c || is_digit c || one_of "._%+-" c.

(** [[a-zA-Z0-9.-]] *)
Definition domain_char (c : ascii) : bool :=
  is_alpha c || is_digit c || one_of ".-" c.

Definition newline : ascii := ascii_of_nat 10.

(** A final [$] of a pattern: the end of the string, or the position before
    a newline that is the last character. *)
Definition dollar : Re.regex := Re.Alt Re.Eps (Re.Cls (Ascii.eqb newline)).

(** [^[a-zA-Z0-9._%+-]+@[a-zA-Z0-9.-]+\.[a-zA-Z]{2,}$] without its anchors *)
Definition email_body : Re.regex :=
  Re.Seq (Re.Plus (Re.Cls local_char))
    (Re.Seq (Re.Cls (Ascii.eqb "@"))
       (Re.Seq (Re.Plus (Re.Cls domain_char))
          (Re.Seq (Re.Cls (Ascii.eqb "."))
             (Re.AtLeast2 (Re.Cls is_alpha))))).

(** [re.match('^' body '$', s) is not None] *)
Definition re_match_anchored (body : Re.regex) (s : string) : bool :=
  Re.matches (Re.Seq body dollar) (list_ascii_of_string s).

Definition validate_email (email : string) : bool :=
  re_match_anchored email_body email.

Definition msg_invalid_email : string := "Please enter a valid email address.".
Definition msg_mismatch : string := "Passwords do not match.".
Definition msg_too_short : string := "Password must be at least 6 characters.".

(** The [if]/[elif] chain of [page_signup] that computes [error_msg];
    [None] is Python's [None]. *)
Definition signup_error_msg (email password verify_password : string)
  : option string :=
  if truthy_str email && negb (validate_email email) then
    Some msg_invalid_email
  else if truthy_str password && truthy_str verify_password
          && negb (String.eqb password verify_password) then
    Some msg_mismatch
  else if truthy_str password && (len_str password <? 6)%Z then
    Some msg_too_short
  else None.

(** [can_create] of [page_signup], as a truth value *)
Definition can_create (email password verify_password : string) : bool :=
  truthy_str email && truthy_str password && truthy_str verify_password
  && negb (match signup_error_msg email password verify_password with
           | Some m => truthy_str m
           | None => false
           end).

(** The chain of [page_login]. *)
Definition login_error_msg (email : string) : option string :=
  if truthy_str email && negb (validate_email email) then
    Some msg_invalid_email
  else None.

Definition can_login (email password : string) : bool :=
  truthy_str email && truthy_str password
  && negb (match login_error_msg email with
           | Some m => truthy_str m
           | None => false
           end).

(* ===================================================================== *)
(** * The engine's result objects *)
(* ===================================================================== *)

(** An attribute of a duck-typed object: not there at all ([hasattr] is
    false), there and [None], or there with a value. *)
Inductive attr (A : Type) : Type :=
| Absent
| IsNone
| Has (a : A).
Arguments Absent {A}.
Arguments IsNone {A}.
Arguments Has {A} a.

Definition hasattr {A : Type} (a : attr A) : bool :=
  match a with
  | Absent => false
  | _ => true
  end.

(** [obj.name]: the attribute's value, [None] for Python's [None]. *)
Definition getattr {A : Type} (name : string) (a : attr A) : outcome (option A) :=
  match a with
  | Absent => Raised (AttributeError name)
  | IsNone => Returned None
  | Has v => Returned (Some v)
  end.

(** Truth value of an attribute that is there: [None], [False] and the
    empty list are false. *)
Definition truthy_flag (a : attr bool) : bool :=
  match a with
  | Has b => b
  | _ => false
  end.

Definition truthy_seq {A : Type} (a : attr (list A)) : bool :=
  match a with
  | Has l => truthy_list l
  | _ => false
  end.

Record MovieRecommendation : Type := {
  movie_title : string;
  final_score : float;
  year : option Z;
  overview : option string
}.

Record QueryInterpretation : Type := {
  genres : attr (list string);
  decades : attr (list string);
  actors : attr (list string);
  moods : attr (list string)
}.

Record RecommendationResult : Type := {
  recommendations : attr (list MovieRecommendation);
  parsed_query : attr QueryInterpretation;
  dual_track_mode : attr bool;
  entity_track : attr (list MovieRecommendation);
  mood_track : attr (list MovieRecommendation)
}.

(* ===================================================================== *)
(** * ResultComposer: the movie list built after a search *)
(* ===================================================================== *)

(** [l[:n]], also for a negative [n]. *)
Definition slice_to {A : Type} (l : list A) (n : Z) : list A :=
  if (0 <=? n)%Z then take (Z.to_nat n) l
  else take (length l - Z.to_nat (- n)) l.

(** [enumerate(l, start)] *)
Fixpoint enumerate {A : Type} (l : list A) (start : Z) : list (Z * A) :=
  match l with
  | [] => []
  | x :: l' => (start, x) :: enumerate l' (start + 1)
  end.

(** [obj.name[:n]] *)
Definition attr_slice {A : Type} (name : string) (a : attr (list A)) (n : Z)
  : outcome (list A) :=
  v ← getattr name a;
  match v with
  | None => Raised (TypeError "'NoneType' object is not subscriptable")
  | Some l => Returned (slice_to l n)
  end.

(** One element of [all_movies_list]: [(i, m.movie_title, m)] *)
Definition entry : Type := Z * string * MovieRecommendation.

Definition rank (e : entry) : Z := e.1.1.
Definition title (e : entry) : string := e.1.2.
Definition record (e : entry) : MovieRecommendation := e.2.

Definition mk_entry (p : Z * MovieRecommendation) : entry :=
  (p.1, movie_title p.2, p.2).

(** The condition [is_dual] of [page_search], as a truth value. *)
Definition is_dual (result : RecommendationResult) : bool :=
  hasattr (dual_track_mode result) && truthy_flag (dual_track_mode result)
  && hasattr (entity_track result) && truthy_seq (entity_track result)
  && hasattr (mood_track result) && truthy_seq (mood_track result).

(** The block "Build movie list for dropdown" of [page_search]. *)
Definition build_all_movies (result : RecommendationResult) (top_n : Z)
  : outcome (list entry) :=
  if is_dual result then
    e ← attr_slice "entity_track" (entity_track result) top_n;
    let all_movies := map mk_entry (enumerate e 1) in
    e' ← attr_slice "entity_track" (entity_track result) top_n;
    let start_idx := (Z.of_nat (length e') + 1)%Z in
    m ← attr_slice "mood_track" (mood_track result) top_n;
    Returned (all_movies ++ map mk_entry (enumerate m start_idx))
  else
    r ← attr_slice "recommendations" (recommendations result) top_n;
    Returned (map mk_entry (enumerate r 1)).

(* ===================================================================== *)
(** * MovieResolver *)
(* ===================================================================== *)

(** A value of another type than the ones the code tests for: a
    [numpy.float32], which is no instance of [float], or an object known
    by what the code observes of it, its truth value and the truth value
    of [obj != 'N/A'], each of which may raise ([pandas.NA], [NaT], a
    numpy array). *)
Inductive other : Type :=
| Float32 (f : float)
| Object (truth differs_from_NA : outcome bool).

(** The values a catalog cell or a detail field can hold.  [VFloat] is
    Python's [float] with its subclass [numpy.float64]. *)
#[warnings="-register-all"]
Inductive value : Type :=
| VNone
| VFloat (f : float)
| VInt (z : Z)
| VStr (s : string)
| VList (l : list value)
| VTuple (l : list value)
| VOther (x : other).

Definition NaN : value := VFloat nan.

(** [pd.isna] on a float *)
Definition isna (f : float) : bool := PrimFloat.is_nan f.

(** The catalog: a frame has named columns and rows; a row stores the
    cells it has, and a cell of a column of the frame that a row does
    not store reads as NaN. *)
Record DataFrame : Type := {
  df_columns : list string;
  df_rows : list (gmap string value)
}.

(** A row taken out of a frame, with the frame's columns as its index. *)
Record Series : Type := {
  s_index : list string;
  s_cells : gmap string value
}.

Definition cell (row : gmap string value) (key : string) : value :=
  default NaN (row !! key).

(** [series.get(key, default)] *)
Definition series_get (movie : Series) (key : string) (dflt : value) : value :=
  if bool_decide (key ∈ s_index movie) then cell (s_cells movie) key else dflt.

(** [str.lower] on the code points below 256: the letters A-Z and the
    capital letters of Latin-1 (C0-DE without D7) move up by 32. *)
Definition lower_char (c : ascii) : ascii :=
  if between "A" "Z" c
     || ((192 <=? code c)%N && (code c <=? 222)%N && negb (code c =? 215)%N)
  then ascii_of_N (code c + 32)
  else c.

Fixpoint lower (s : string) : string :=
  match s with
  | EmptyString => EmptyString
  | String c s' => String (lower_char c) (lower s')
  end.

(** One element of [series.str.lower()]: [None] stands for the NaN a cell
    that is no [str] gives. *)
Definition str_lower (v : value) : option string :=
  match v with
  | VStr s => Some (lower s)
  | _ => None
  end.

(** [isinstance(v, str)] *)
Definition is_str (v : value) : bool :=
  match v with
  | VStr _ => true
  | _ => false
  end.

(** What the model needs of pandas' string methods.
    [Series.str.contains(pat, na=False)] reads [pat] as a regular
    expression and searches it in every string: [str_contains pat] is
    the compiled search, or the exception an ill-formed [pat] raises.
    [str_accessor column] tells whether a column has the accessor [.str]:
    it has when it holds a string; whether a column without any string
    has it depends on its dtype, and [column.str] raises an attribute
    error when it has not. *)
Class Pandas : Type := {
  str_contains : string -> outcome (string -> bool);
  str_accessor : list value -> bool;
  str_accessor_of_str :
    forall column, existsb is_str column = true -> str_accessor column = true
}.

(** Plain substring search: what the regular-expression search does for a
    pattern without metacharacters. *)
Fixpoint is_substring (pat s : string) : bool :=
  String.prefix pat s
  || match s with
     | EmptyString => false
     | String _ s' => is_substring pat s'
     end.

(** [None] or a NaN, as a column of dtype object holds them *)
Definition null_cell (v : value) : bool :=
  match v with
  | VNone => true
  | VFloat f => PrimFloat.is_nan f
  | _ => false
  end.

(** A sample instance: the plain substring search, and the accessor of a
    column of dtype object, which is there when the column holds a string
    or nothing but nulls. *)
Definition literal_pandas : Pandas :=
  {| str_contains := fun pat => Returned (is_substring pat);
     str_accessor := fun column =>
       existsb is_str column || forallb null_cell column;
     str_accessor_of_str := fun column Hstr =>
       @eq_ind_r bool true (fun b => b || forallb null_cell column = true)
         eq_refl (existsb is_str column) Hstr |}.

(** The nine fields of the dictionary [get_movie_details] returns. *)
Record MovieDetails : Type := {
  d_title : value;
  d_year : value;
  d_directors : value;
  d_cast : value;
  d_production_companies : value;
  d_overview : value;
  d_genres : value;
  d_runtime : value;
  d_vote_average : value
}.

(** [len(val) > 0] decides for lists and tuples. *)
Definition safe_get (movie : Series) (key : string) (dflt : value) : value :=
  let val := series_get movie key dflt in
  match val with
  | VNone => dflt
  | VList l | VTuple l => if truthy_list l then val else dflt
  | VFloat f => if isna f then dflt else val
  | _ => val
  end.

(** [movies_df[mask]] for the mask [movies_df['title'].str.lower() == t] *)
Definition exact_rows (t : string) (rows : list (gmap string value))
  : list (gmap string value) :=
  List.filter (fun row => match str_lower (cell row "title") with
                          | Some s => String.eqb s t
                          | None => false
                          end) rows.

(** ... and for the mask [....str.lower().str.contains(t, na=False)] *)
Definition containing_rows (found : string -> bool) (rows : list (gmap string value))
  : list (gmap string value) :=
  List.filter (fun row => match str_lower (cell row "title") with
                          | Some s => found s
                          | None => false
                          end) rows.

(** The dictionary [get_movie_details] returns for the row [movie]. *)
Definition movie_details (movie : Series) (movie_title : string) : MovieDetails :=
  {| d_title := safe_get movie "title" (VStr movie_title);
     d_year := safe_get movie "year" (VStr "N/A");
     d_directors := safe_get movie "directors" (VList []);
     d_cast := safe_get movie "cast" (VList []);
     d_production_companies := safe_get movie "production_companies" (VList []);
     d_overview := safe_get movie "overview" (VStr "No overview available.");
     d_genres := safe_get movie "genres" (VList []);
     d_runtime := safe_get movie "runtime" (VStr "N/A");
     d_vote_average := safe_get movie "vote_average" (VStr "N/A") |}.

(** [movies_df['title']] as the list of its cells *)
Definition title_column (movies_df : DataFrame) : list value :=
  map (λ row, cell row "title") (df_rows movies_df).

Section Resolver.
Context `{Pandas}.

(** [movies_df['title']] raises when the frame has no such column, and
    [movies_df['title'].str] when the column has no string accessor.  The
    lowered column holds strings and NaN only, so its [.str] is there. *)
Definition find_matches (movies_df : DataFrame) (movie_title : string)
  : outcome (list (gmap string value)) :=
  if bool_decide ("title" ∈ df_columns movies_df) then
    if str_accessor (title_column movies_df) then
      let exact := exact_rows (lower movie_title) (df_rows movies_df) in
      if negb (truthy_list exact) then
        found ← str_contains (lower movie_title);
        Returned (containing_rows found (df_rows movies_df))
      else Returned exact
    else Raised (AttributeError "str")
  else Raised (KeyError "title").

Definition get_movie_details (movies_df : DataFrame) (movie_title : string)
  : outcome (option MovieDetails) :=
  rows ← find_matches movies_df movie_title;
  match rows with
  | [] => Returned None
  | first :: _ =>
      let movie := {| s_index := df_columns movies_df; s_cells := first |} in
      Returned (Some (movie_details movie movie_title))
  end.

End Resolver.

(* ===================================================================== *)
(** * SessionStore *)
(* ===================================================================== *)

(** [st.session_state].  The seven keys [init_session_state] sets are
    always there; [query_input], [search_time] and [top_n] are set by
    [page_search] only, so they may be missing ([None]).  For
    [search_results], [None] is Python's [None]. *)
Record SessionState : Type := {
  page : string;
  search_results : option RecommendationResult;
  all_movies_list : list entry;
  last_query : string;
  user_info : gmap string value;
  logged_in : bool;
  appearance : string;
  query_input : option string;
  search_time : option float;
  top_n : option Z
}.

(** The state [init_session_state] leaves in a fresh session; in a session
    that has the keys it changes nothing. *)
Definition init_session_state : SessionState :=
  {| page := "welcome";
     search_results := None;
     all_movies_list := [];
     last_query := "";
     user_info := ∅;
     logged_in := false;
     appearance := "dark";
     query_input := None;
     search_time := None;
     top_n := None |}.

Definition set_page (v : string) (s : SessionState) : SessionState :=
  {| page := v; search_results := search_results s;
     all_movies_list := all_movies_list s; last_query := last_query s;
     user_info := user_info s; logged_in := logged_in s;
     appearance := appearance s; query_input := query_input s;
     search_time := search_time s; top_n := top_n s |}.

Definition set_search_results (v : option RecommendationResult) (s : SessionState)
  : SessionState :=
  {| page := page s; search_results := v;
     all_movies_list := all_movies_list s; last_query := last_query s;
     user_info := user_info s; logged_in := logged_in s;
     appearance := appearance s; query_input := query_input s;
     search_time := search_time s; top_n := top_n s |}.

Definition set_all_movies_list (v : list entry) (s : SessionState) : SessionState :=
  {| page := page s; search_results := search_results s;
     all_movies_list := v; last_query := last_query s;
     user_info := user_info s; logged_in := logged_in s;
     appearance := appearance s; query_input := query_input s;
     search_time := search_time s; top_n := top_n s |}.

Definition set_last_query (v : string) (s : SessionState) : SessionState :=
  {| page := page s; search_results := search_results s;
     all_movies_list := all_movies_list s; last_query := v;
     user_info := user_info s; logged_in := logged_in s;
     appearance := appearance s; query_input := query_input s;
     search_time := search_time s; top_n := top_n s |}.

Definition set_user_info (v : gmap string value) (s : SessionState) : SessionState :=
  {| page := page s; search_results := search_results s;
     all_movies_list := all_movies_list s; last_query := last_query s;
     user_info := v; logged_in := logged_in s;
     appearance := appearance s; query_input := query_input s;
     search_time := search_time s; top_n := top_n s |}.

Definition set_logged_in (v : bool) (s : SessionState) : SessionState :=
  {| page := page s; search_results := search_results s;
     all_movies_list := all_movies_list s; last_query := last_query s;
     user_info := user_info s; logged_in := v;
     appearance := appearance s; query_input := query_input s;
     search_time := search_time s; top_n := top_n s |}.

Definition set_appearance (v : string) (s : SessionState) : SessionState :=
  {| page := page s; search_results := search_results s;
     all_movies_list := all_movies_list s; last_query := last_query s;
     user_info := user_info s; logged_in := logged_in s;
     appearance := v; query_input := query_input s;
     search_time := search_time s; top_n := top_n s |}.

Definition set_query_input (v : string) (s : SessionState) : SessionState :=
  {| page := page s; search_results := search_results s;
     all_movies_list := all_movies_list s; last_query := last_query s;
     user_info := user_info s; logged_in := logged_in s;
     appearance := appearance s; query_input := Some v;
     search_time := search_time s; top_n := top_n s |}.

Definition set_search_time (v : float) (s : SessionState) : SessionState :=
  {| page := page s; search_results := search_results s;
     all_movies_list := all_movies_list s; last_query := last_query s;
     user_info := user_info s; logged_in := logged_in s;
     appearance := appearance s; query_input := query_input s;
     search_time := Some v; top_n := top_n s |}.

Definition set_top_n (v : Z) (s : SessionState) : SessionState :=
  {| page := page s; search_results := search_results s;
     all_movies_list := all_movies_list s; last_query := last_query s;
     user_info := user_info s; logged_in := logged_in s;
     appearance := appearance s; query_input := query_input s;
     search_time := search_time s; top_n := Some v |}.

(* ===================================================================== *)
(** * One run of the script *)
(* ===================================================================== *)

(** The buttons of all pages.  At most one is pressed in a run. *)
Inductive button : Type :=
| BtnGetStarted
| BtnMenuLogIn
| BtnMenuCreateAccount
| BtnBack
| BtnCreateAccount
| BtnLogIn
| BtnNext
| BtnExample (eq : string)
| BtnLogOut
| BtnSearch
| BtnRandom.

#[global] Instance button_eq_dec : EqDecision button.
Proof. solve_decision. Defined.

(** What a run reads from the browser and from its environment: the
    values of the widgets, the pressed button, the seconds the clock
    measures around the engine call and the index [random.choice] draws. *)
Record Inputs : Type := {
  pressed : option button;
  w_email : string;
  w_password : string;
  w_verify_password : string;
  w_profile : gmap string value;
  w_appearance : string;
  w_preference_mode : string;
  w_top_n : Z;
  w_query : string;
  w_movie_detail_select : nat;
  clock_elapsed : float;
  random_index : nat
}.

Definition st_button (inp : Inputs) (b : button) : bool :=
  bool_decide (pressed inp = Some b).

(** The three columns rows are drawn in. *)
Inductive column : Type := MainColumn | EntityColumn | MoodColumn.

(** What a run shows, without the static markup. *)
Inductive ui : Type :=
| UiError (text : string)
| UiException (e : exn)
| UiTraceback (e : exn)
| UiSuccess (seconds : float) (query : string)
| UiInterpretation (genres decades actors moods : list string)
| UiDualTrackHeading
| UiTopHeading (n : Z)
| UiRow (col : column) (index : Z) (movie : MovieRecommendation)
| UiSelect (options : list string)
| UiDetails (details : MovieDetails)
| UiWarning (text : string)
| UiInfo (text : string).

(** How a run ends before its last line: an uncaught exception, or
    [st.rerun()], which [except Exception] does not catch. *)
Inductive stop : Type :=
| Crashed (e : exn)
| Rerun.

(** A piece of the script: it reads and writes the session state, adds to
    what is shown, and either goes on with a value or stops. *)
Definition script (A : Type) : Type :=
  SessionState -> list ui -> SessionState * list ui * (stop + A).

#[global] Instance script_ret : MRet script := fun A a s out => (s, out, inr a).
#[global] Instance script_bind : MBind script := fun A B k m s out =>
  match m s out with
  | (s', out', inl st) => (s', out', inl st)
  | (s', out', inr a) => k a s' out'
  end.

Definition get_state : script SessionState := fun s out => (s, out, inr s).

Definition modify (f : SessionState -> SessionState) : script () :=
  fun s out => (f s, out, inr ()).

Definition emit (u : ui) : script () := fun s out => (s, out ++ [u], inr ()).

Definition st_rerun : script () := fun s out => (s, out, inl Rerun).

Definition lift {A : Type} (o : outcome A) : script A := fun s out =>
  match o with
  | Raised e => (s, out, inl (Crashed e))
  | Returned a => (s, out, inr a)
  end.

(** [try: body  except Exception as e: handler e] *)
Definition try_except (body : script ()) (handler : exn -> script ()) : script () :=
  fun s out =>
    match body s out with
    | (s', out', inl (Crashed e)) => handler e s' out'
    | r => r
    end.

Definition when (b : bool) (body : script ()) : script () :=
  if b then body else mret ().

Fixpoint for_each {A : Type} (l : list A) (body : A -> script ()) : script () :=
  match l with
  | [] => mret ()
  | x :: l' => body x;; for_each l' body
  end.

Definition navigate_to (p : string) : script () :=
  modify (set_page p);; st_rerun.

(* ===================================================================== *)
(** * NavigationStateMachine: the pages before the search page *)
(* ===================================================================== *)

Definition page_welcome (inp : Inputs) : script () :=
  when (st_button inp BtnGetStarted) (navigate_to "auth_menu").

Definition page_auth_menu (inp : Inputs) : script () :=
  when (st_button inp BtnMenuLogIn) (navigate_to "login");;
  when (st_button inp BtnMenuCreateAccount) (navigate_to "signup");;
  when (st_button inp BtnBack) (navigate_to "welcome").

(** [if error_msg: st.error(error_msg)] *)
Definition show_error_msg (error_msg : option string) : script () :=
  match error_msg with
  | Some m => when (truthy_str m) (emit (UiError m))
  | None => mret ()
  end.

(** A disabled button is never pressed. *)
Definition page_signup (inp : Inputs) : script () :=
  let email := w_email inp in
  let password := w_password inp in
  let verify_password := w_verify_password inp in
  show_error_msg (signup_error_msg email password verify_password);;
  when (st_button inp BtnBack) (navigate_to "auth_menu");;
  when (st_button inp BtnCreateAccount && can_create email password verify_password)
    (modify (fun s => set_user_info (<["email" := VStr email]> (user_info s)) s);;
     modify (set_logged_in true);;
     navigate_to "profile").

Definition page_login (inp : Inputs) : script () :=
  let email := w_email inp in
  let password := w_password inp in
  show_error_msg (login_error_msg email);;
  when (st_button inp BtnBack) (navigate_to "auth_menu");;
  when (st_button inp BtnLogIn && can_login email password)
    (modify (fun s => set_user_info (<["email" := VStr email]> (user_info s)) s);;
     modify (set_logged_in true);;
     navigate_to "profile").

(** [user_info.update(d)]: the keys of [d] win. *)
Definition page_profile (inp : Inputs) : script () :=
  when (st_button inp BtnBack) (navigate_to "auth_menu");;
  when (st_button inp BtnNext)
    (modify (fun s => set_user_info (w_profile inp ∪ user_info s) s);;
     navigate_to "search").

(* ===================================================================== *)
(** * Rendering one movie *)
(* ===================================================================== *)

(** [s[:n]] on a string *)
Definition str_slice_to (s : string) (n : nat) : string := String.substring 0 n s.

(** The caption [display_movie_row] puts under the title of a row: the
    overview, cut after 150 characters; no caption without an overview. *)
Definition row_caption (movie : MovieRecommendation) : option string :=
  match overview movie with
  | Some o =>
      if truthy_str o then
        Some (if (150 <? len_str o)%Z then str_slice_to o 150 +:+ "..." else o)
      else None
  | None => None
  end.

(** What the model needs of Python's built-in [str] on catalog values: on a
    string it is the string itself. *)
Class Builtins : Type := {
  py_str : value → string;
  py_str_of_str : ∀ s, py_str (VStr s) = s
}.

(** Truth value of a catalog value: [None], zero, the empty string and the
    empty sequences are false; a NaN is true; an object has the truth
    value it has, or raises. *)
Definition truthy_value (v : value) : outcome bool :=
  match v with
  | VNone => Returned false
  | VFloat f | VOther (Float32 f) => Returned (negb (PrimFloat.eqb f 0))
  | VInt z => Returned (negb (z =? 0)%Z)
  | VStr s => Returned (truthy_str s)
  | VList l | VTuple l => Returned (truthy_list l)
  | VOther (Object truth _) => truth
  end.

(** Truth value of [v != 'N/A'] *)
Definition ne_NA (v : value) : outcome bool :=
  match v with
  | VStr s => Returned (negb (String.eqb s "N/A"))
  | VOther (Object _ differs) => differs
  | _ => Returned true
  end.

(** The condition [v and v != 'N/A'] of an [if]: the comparison is
    evaluated when [v] is true only. *)
Definition true_and_not_NA (v : value) : outcome bool :=
  t ← truthy_value v;
  if (t : bool) then ne_NA v else Returned false.

(** The lines [display_movie_details] writes.  A line of names holds the
    values whose [str] the code joins with commas; a raw line holds the
    value it formats as it is. *)
Inductive detail_line : Type :=
| DHeader (title year : value)
| DDirectors (names : list value)
| DDirectorsRaw (v : value)
| DCast (names : list value)
| DCastRaw (v : value)
| DStudio (names : list value)
| DGenres (names : list value)
| DRuntime (minutes : value)
| DRating (vote : value)
| DOverview (text : string).

(** What a piece of [display_movie_details] leaves: the lines it has
    written, and the exception that has ended it, if one has. *)
Definition rendering : Type := list detail_line * option exn.

Definition written (lines : list detail_line) : rendering := (lines, None).

(** One piece after the other; nothing is written after an exception. *)
Definition and_then (r1 r2 : rendering) : rendering :=
  match r1 with
  | (lines, Some e) => (lines, Some e)
  | (lines, None) => (lines ++ r2.1, r2.2)
  end.

Infix "+++" := and_then (at level 60, right associativity).

(** [if test: write line] *)
Definition write_if (test : outcome bool) (line : detail_line) : rendering :=
  match test with
  | Raised e => ([], Some e)
  | Returned true => written [line]
  | Returned false => written []
  end.

(** [if isinstance(v, list) and v: ... v[:n] ... elif v and v != 'N/A': ...] *)
Definition names_or_raw (names : list value → detail_line)
    (raw : value → detail_line) (n : nat) (v : value) : rendering :=
  match v with
  | VList (x :: l) => written [names (take n (x :: l))]
  | _ => write_if (true_and_not_NA v) (raw v)
  end.

(** [if isinstance(v, list) and v: ...] *)
Definition names_only (names : list value → detail_line) (v : value)
  : rendering :=
  match v with
  | VList (x :: l) => written [names (x :: l)]
  | _ => written []
  end.

(** [if v and v != 'N/A': ...] *)
Definition unless_NA (line : value → detail_line) (v : value) : rendering :=
  write_if (true_and_not_NA v) (line v).

(** The two columns of [display_movie_details]: the header and the lines
    of the fields, up to the overview. *)
Definition detail_columns (details : MovieDetails) : rendering :=
  written [DHeader (d_title details) (d_year details)]
  +++ names_or_raw DDirectors DDirectorsRaw 3 (d_directors details)
  +++ names_or_raw DCast DCastRaw 6 (d_cast details)
  +++ names_only (λ l, DStudio (take 3 l)) (d_production_companies details)
  +++ names_only DGenres (d_genres details)
  +++ unless_NA DRuntime (d_runtime details)
  +++ unless_NA DRating (d_vote_average details).

Definition display_movie_details `{Builtins} (details : MovieDetails)
  : rendering :=
  detail_columns details
  +++ written
        [DOverview
           (let overview := py_str (d_overview details) in
            if (600 <? len_str overview)%Z
            then str_slice_to overview 600 +:+ "..."
            else overview)].

(** How a call that has left the rendering [r] ends. *)
Definition ended (r : rendering) : outcome () :=
  match r.2 with
  | Some e => Raised e
  | None => Returned ()
  end.

(* ===================================================================== *)
(** * QueryOrchestrator and the display pass: the search page *)
(* ===================================================================== *)

(** The engine, as far as this layer uses it.  What [recommend] returns
    is a result object, or [None]. *)
Record Recommender : Type := {
  recommend : string -> string -> Z -> outcome (option RecommendationResult);
  movies : DataFrame
}.

(** The block "Build movie list for dropdown" on what the engine has
    returned: [None] has none of the attributes, so the list is to be
    built from [None.recommendations]. *)
Definition build_for (result : option RecommendationResult) (top_n : Z)
  : outcome (list entry) :=
  match result with
  | Some r => build_all_movies r top_n
  | None => Raised (AttributeError "recommendations")
  end.

Definition example_queries : list string :=
  [ "Julia Roberts romances from the 90s";
    "Dark psychological thrillers with a strong female lead";
    "My girlfriend broke up with me - something to cheer me up";
    "Epic war movies set in ancient times";
    "90s action movies with Arnold Schwarzenegger";
    "Coming-of-age movies from the 2010s" ].

Definition msg_no_movies : string :=
  "No movies found matching your query. Try a different search!".
Definition msg_enter_query : string :=
  "Enter a query above and click Search to get movie recommendations!".
Definition select_placeholder : string := "Select a movie...".

(** [getattr(pq, name, []) or []] *)
Definition or_empty (a : attr (list string)) : list string :=
  match a with
  | Has l => l
  | _ => []
  end.

(** [s.split(sep, 1)] when [sep] is in [s]: the parts before and after
    its first occurrence. *)
Fixpoint split_once (sep s : string) : option (string * string) :=
  if String.prefix sep s then
    Some (EmptyString, String.substring (String.length sep)
                         (String.length s - String.length sep) s)
  else
    match s with
    | EmptyString => None
    | String c s' =>
        match split_once sep s' with
        | Some (before, after) => Some (String c before, after)
        | None => None
        end
    end.

(** [selected.split(". ", 1)[1] if ". " in selected else selected] *)
Definition selected_title (selected : string) : string :=
  match split_once ". " selected with
  | Some (_, after) => after
  | None => selected
  end.

(** [f"{idx}. {title}"] *)
Definition movie_option (e : entry) : string :=
  pretty (rank e) +:+ ". " +:+ title e.

Section SearchPage.
Context `{Pandas}.
Variable recommender : Recommender.
Variable inp : Inputs.

(** The sidebar up to the log-out button. *)
Definition sidebar : script () :=
  s ← get_state;
  when (negb (String.eqb (w_appearance inp) (appearance s)))
    (modify (set_appearance (w_appearance inp));; st_rerun);;
  for_each example_queries (fun eq =>
    when (st_button inp (BtnExample eq))
      (modify (set_query_input eq);;
       modify (set_search_results None);;
       modify (set_all_movies_list [])));;
  when (st_button inp BtnLogOut)
    (modify (set_logged_in false);;
     modify (set_user_info ∅);;
     modify (set_page "welcome");;
     modify (set_search_results None);;
     st_rerun).

(** [random.choice(example_queries)] *)
Definition random_choice : string :=
  nth (random_index inp `mod` length example_queries) example_queries "".

Definition random_button : script () :=
  when (st_button inp BtnRandom)
    (let query := random_choice in
     modify (set_query_input query);;
     modify (set_search_results None);;
     modify (set_all_movies_list []);;
     st_rerun).

(** The block "Run search". *)
Definition run_search (search_clicked : bool) (query : string) : script () :=
  when (search_clicked && truthy_str query)
    (try_except
       (let top_n := w_top_n inp in
        result ← lift (recommend recommender query (w_preference_mode inp) top_n);
        let elapsed := clock_elapsed inp in
        modify (set_search_results result);;
        modify (set_last_query query);;
        modify (set_search_time elapsed);;
        modify (set_top_n top_n);;
        all_movies ← lift (build_for result top_n);
        modify (set_all_movies_list all_movies))
       (fun e => emit (UiException e);; emit (UiTraceback e))).

Definition show_interpretation (result : RecommendationResult) : script () :=
  match parsed_query result with
  | Has pq =>
      emit (UiInterpretation (or_empty (genres pq)) (or_empty (decades pq))
              (or_empty (actors pq)) (or_empty (moods pq)))
  | _ => mret ()
  end.

Definition show_rows (col : column) (rows : list (Z * MovieRecommendation))
  : script () :=
  for_each rows (fun r => emit (UiRow col r.1 r.2)).

(** The section "Learn More About a Movie".  [UiDetails d] is the call
    [display_movie_details(details)]: what it writes is
    [display_movie_details d], and the run ends where it raises, which it
    can in its two columns only. *)
Definition show_details : script () :=
  s ← get_state;
  when (truthy_list (all_movies_list s))
    (let movie_options :=
       select_placeholder :: map movie_option (all_movies_list s) in
     let selected :=
       nth (w_movie_detail_select inp) movie_options select_placeholder in
     emit (UiSelect movie_options);;
     when (negb (String.eqb selected select_placeholder))
       (let t := selected_title selected in
        details ← lift (get_movie_details (movies recommender) t);
        match details with
        | Some d => emit (UiDetails d);; lift (ended (detail_columns d))
        | None => emit (UiWarning ("Could not find details for '" +:+ t +:+ "'"))
        end)).

(** The block "Display results". *)
Definition display_results (search_clicked : bool) : script () :=
  s ← get_state;
  match search_results s with
  | Some result =>
      let top_n := default 10%Z (top_n s) in
      recs ← lift (getattr "recommendations" (recommendations result));
      match recs with
      | Some (r :: rs) =>
          emit (UiSuccess (default 0%float (search_time s)) (last_query s));;
          show_interpretation result;;
          (if is_dual result then
             emit UiDualTrackHeading;;
             e ← lift (attr_slice "entity_track" (entity_track result) top_n);
             show_rows EntityColumn (enumerate e 1);;
             e' ← lift (attr_slice "entity_track" (entity_track result) top_n);
             let start_idx := (Z.of_nat (length e') + 1)%Z in
             m ← lift (attr_slice "mood_track" (mood_track result) top_n);
             show_rows MoodColumn (enumerate m start_idx)
           else
             emit (UiTopHeading (Z.min top_n (Z.of_nat (length (r :: rs)))));;
             show_rows MainColumn (enumerate (slice_to (r :: rs) top_n) 1));;
          show_details
      | _ => emit (UiWarning msg_no_movies)
      end
  | None =>
      when (negb search_clicked) (emit (UiInfo msg_enter_query))
  end.

Definition page_search : script () :=
  sidebar;;
  let query := w_query inp in
  let search_clicked := st_button inp BtnSearch in
  random_button;;
  run_search search_clicked query;;
  display_results search_clicked.

(** The router. *)
Definition main : script () :=
  s ← get_state;
  let page := page s in
  if String.eqb page "welcome" then page_welcome inp
  else if String.eqb page "auth_menu" then page_auth_menu inp
  else if String.eqb page "signup" then page_signup inp
  else if String.eqb page "login" then page_login inp
  else if String.eqb page "profile" then page_profile inp
  else if String.eqb page "search" then page_search
  else page_welcome inp.

(** The session state a run leaves, what it shows, and how it ends. *)
Definition run (s : SessionState) : SessionState * list ui * (stop + ()) :=
  main s [].

End SearchPage.

(** The states a session can be in: the fresh one, and what any run of
    the script makes of a reachable state. *)
Inductive reachable `{Pandas} (recommender : Recommender) : SessionState -> Prop :=
| reachable_init : reachable recommender init_session_state
| reachable_run inp s :
    reachable recommender s -> reachable recommender (run recommender inp s).1.1.

(* ===================================================================== *)
(** * Vocabulary of the specification *)
(* ===================================================================== *)

Definition all_chars (p : ascii -> bool) (s : string) : bool :=
  forallb p (list_ascii_of_string s).

(** The shape [local@domain.tld]: a non-empty local part, a non-empty
    domain, a top-level domain of at least two letters, and, since the
    final [$] allows it, possibly one newline at the very end. *)
Definition email_shape (s : string) : Prop :=
  ∃ loc dom tld nl : string,
    s = loc +:+ "@" +:+ dom +:+ "." +:+ tld +:+ nl
    ∧ loc ≠ "" ∧ all_chars local_char loc = true
    ∧ dom ≠ "" ∧ all_chars domain_char dom = true
    ∧ 2 ≤ String.length tld ∧ all_chars is_alpha tld = true
    ∧ (nl = "" ∨ nl = String newline "").

(** The entries made of a slice of a track, ranked from [start] on. *)
Definition entries (l : list MovieRecommendation) (start : Z) : list entry :=
  map mk_entry (enumerate l start).

(** The ranks of a list are [1, 2, ..., n]. *)
Definition ranks_from_1 (all : list entry) : Prop :=
  map rank all = seqZ 1 (Z.of_nat (length all)).

(** The same movies with other scores: [f] gives each movie its new
    [final_score]. *)
Definition rescore (f : MovieRecommendation → float) (m : MovieRecommendation)
  : MovieRecommendation :=
  {| movie_title := movie_title m; final_score := f m;
     year := year m; overview := overview m |}.

Definition rescore_track (f : MovieRecommendation → float)
    (a : attr (list MovieRecommendation)) : attr (list MovieRecommendation) :=
  match a with
  | Has l => Has (map (rescore f) l)
  | Absent => Absent
  | IsNone => IsNone
  end.

Definition rescore_result (f : MovieRecommendation → float)
    (r : RecommendationResult) : RecommendationResult :=
  {| recommendations := rescore_track f (recommendations r);
     parsed_query := parsed_query r;
     dual_track_mode := dual_track_mode r;
     entity_track := rescore_track f (entity_track r);
     mood_track := rescore_track f (mood_track r) |}.

(** The title of a catalog row equals the input, ignoring case. *)
Definition title_matches (movie_title : string) (row : gmap string value) : Prop :=
  str_lower (cell row "title") = Some (lower movie_title).

(** The value the catalog has for a field is missing (the frame has no
    such column), [None], a NaN of Python's type [float], or an empty list
    or tuple. *)
Definition is_missing (movie : Series) (key : string) : bool :=
  negb (bool_decide (key ∈ s_index movie))
  || match cell (s_cells movie) key with
     | VNone => true
     | VFloat f => isna f
     | VList [] | VTuple [] => true
     | _ => false
     end.

(** [None], or a NaN of Python's type [float] *)
Definition none_or_float_nan (v : value) : bool :=
  match v with
  | VNone => true
  | VFloat f => isna f
  | _ => false
  end.

(** A NaN of any floating-point type *)
Definition floating_nan (v : value) : bool :=
  match v with
  | VFloat f | VOther (Float32 f) => PrimFloat.is_nan f
  | _ => false
  end.


(** The nine projected fields with the defaults the specification names:
    ['N/A'] for the scalar fields, the empty sequence for the list-valued
    ones, ['No overview available.'] for the overview. *)
Definition detail_fields : list (string * (MovieDetails → value) * value) :=
  [ ("title", d_title, VStr "N/A");
    ("year", d_year, VStr "N/A");
    ("directors", d_directors, VList []);
    ("cast", d_cast, VList []);
    ("production_companies", d_production_companies, VList []);
    ("overview", d_overview, VStr "No overview available.");
    ("genres", d_genres, VList []);
    ("runtime", d_runtime, VStr "N/A");
    ("vote_average", d_vote_average, VStr "N/A") ].

(** The rows a run shows, in order, with their columns and ranks. *)
Definition rows_of (shown : list ui) : list (column * Z * MovieRecommendation) :=
  omap (λ u, match u with
             | UiRow col i m => Some (col, i, m)
             | _ => None
             end) shown.

Definition is_row (u : ui) : Prop :=
  match u with
  | UiRow _ _ _ => True
  | _ => False
  end.

(** The heading of the dual-track panel, or of the single list. *)
Definition is_panel_heading (u : ui) : Prop :=
  match u with
  | UiDualTrackHeading | UiTopHeading _ => True
  | _ => False
  end.

(** What is shown around the panel of the movies. *)
Definition outside_panel (u : ui) : Prop := ¬ is_row u ∧ ¬ is_panel_heading u.

(** The result has recommendations to show: the attribute is there and
    holds a non-empty sequence. *)
Definition has_recommendations (result : RecommendationResult) : Prop :=
  ∃ l, recommendations result = Has l ∧ l ≠ [].

(** The rows of a track slice in a column. *)
Definition track_rows (col : column) (l : list MovieRecommendation) (start : Z)
  : list (column * Z * MovieRecommendation) :=
  map (λ p, (col, p.1, p.2)) (enumerate l start).

(** A piece of the script that leaves the session state alone and only
    adds elements satisfying [P] to what is shown, however it ends. *)
Definition appends {A : Type} (P : ui → Prop) (m : script A) : Prop :=
  ∀ s shown, ∃ more ending,
    m s shown = (s, shown ++ more, ending) ∧ Forall P more.

(** The session invariant of the specification: no movie list without
    search results. *)
Definition list_empty_without_results (s : SessionState) : Prop :=
  search_results s = None → all_movies_list s = [].

(** A piece of the script that writes neither [search_results] nor
    [all_movies_list], however it ends. *)
Definition keeps_results {A : Type} (m : script A) : Prop :=
  ∀ s shown,
    search_results (m s shown).1.1 = search_results s
    ∧ all_movies_list (m s shown).1.1 = all_movies_list s.

(** A piece of the script that ends, in whatever way, in a state
    satisfying [I] when it starts in one. *)
Definition preserves {A : Type} (I : SessionState → Prop) (m : script A) : Prop :=
  ∀ s shown, I s → I (m s shown).1.1.

(** The state after a sequence of runs. *)
Fixpoint run_all `{Pandas} (recommender : Recommender) (inps : list Inputs)
    (s : SessionState) : SessionState :=
  match inps with
  | [] => s
  | inp :: inps' => run_all recommender inps' (run recommender inp s).1.1
  end.

(** ** The page flow *)

Definition known_pages : list string :=
  ["welcome"; "auth_menu"; "signup"; "login"; "profile"; "search"].

(** The pages one run can lead to from page [p], besides [p] itself. *)
Definition next_pages (p : string) : list string :=
  if String.eqb p "welcome" then ["auth_menu"]
  else if String.eqb p "auth_menu" then ["login"; "signup"; "welcome"]
  else if String.eqb p "signup" then ["auth_menu"; "profile"]
  else if String.eqb p "login" then ["auth_menu"; "profile"]
  else if String.eqb p "profile" then ["auth_menu"; "search"]
  else if String.eqb p "search" then ["welcome"]
  else ["auth_menu"].

(** The page stays, or becomes one of [targets]. *)
Definition step_to (targets : list string) (s s' : SessionState) : Prop :=
  page s' = page s ∨ page s' ∈ targets.

(** A piece of the script that relates the state it starts in to the state
    it ends in, however it ends. *)
Definition moves {A : Type} (R : SessionState → SessionState → Prop)
    (m : script A) : Prop :=
  ∀ s shown, R s (m s shown).1.1.

(** The user is logged in and an e-mail address is stored. *)
Definition signed_in (s : SessionState) : Prop :=
  logged_in s = true ∧ is_Some (user_info s !! "email").

(** The pages behind the login are shown to a signed-in user only. *)
Definition account_ok (s : SessionState) : Prop :=
  page s = "profile" ∨ page s = "search" → signed_in s.

(** The account part of the state is untouched, or the page is the
    welcome page. *)
Definition account_kept (s s' : SessionState) : Prop :=
  (page s' = page s ∧ logged_in s' = logged_in s ∧ user_info s' = user_info s)
  ∨ page s' = "welcome".

(** What a search has stored when the engine has answered and the movie
    list is not built yet, and what it has stored in the end. *)
Definition stored_result (inp : Inputs) (result : RecommendationResult)
    (s : SessionState) : SessionState :=
  set_top_n (w_top_n inp)
    (set_search_time (clock_elapsed inp)
       (set_last_query (w_query inp)
          (set_search_results (Some result) s))).

Definition stored_search (inp : Inputs) (result : RecommendationResult)
    (all : list entry) (s : SessionState) : SessionState :=
  set_all_movies_list all (stored_result inp result s).

(** A shown row without its column. *)
Definition rank_and_movie (r : column * Z * MovieRecommendation)
  : Z * MovieRecommendation := (r.1.2, r.2).

(** A character that is not a full stop. *)
Definition not_dot (c : ascii) : bool := negb (Ascii.eqb c ".").

(** How often a character occurs in a string. *)
Definition count_char (c : ascii) (s : string) : nat :=
  length (List.filter (Ascii.eqb c) (list_ascii_of_string s)).

(** The same engine with another [recommend]. *)
Definition with_recommend
    (f : string → string → Z → outcome (option RecommendationResult))
    (recommender : Recommender) : Recommender :=
  {| recommend := f; movies := movies recommender |}.

Definition is_directors (d : detail_line) : bool :=
  match d with DDirectors _ | DDirectorsRaw _ => true | _ => false end.
Definition is_cast (d : detail_line) : bool :=
  match d with DCast _ | DCastRaw _ => true | _ => false end.
Definition is_studio (d : detail_line) : bool :=
  match d with DStudio _ => true | _ => false end.
Definition is_genres (d : detail_line) : bool :=
  match d with DGenres _ => true | _ => false end.
Definition is_runtime (d : detail_line) : bool :=
  match d with DRuntime _ => true | _ => false end.
Definition is_rating (d : detail_line) : bool :=
  match d with DRating _ => true | _ => false end.

(** The catalog fields that get a line of their own, with the test for
    their line. *)
Definition optional_lines : list (string * (detail_line → bool)) :=
  [ ("directors", is_directors); ("cast", is_cast);
    ("production_companies", is_studio); ("genres", is_genres);
    ("runtime", is_runtime); ("vote_average", is_rating) ].

(** The number of names a line lists, and the length of an overview. *)
Definition line_size (d : detail_line) : nat :=
  match d with
  | DDirectors l | DCast l | DStudio l | DGenres l => length l
  | DOverview t => String.length t
  | _ => 0
  end.

(** ** Sample data *)

Definition movie (t : string) (score : float) : MovieRecommendation :=
  {| movie_title := t; final_score := score; year := None; overview := None |}.

Definition seven_movies : list MovieRecommendation :=
  [ movie "Alien" 0.25; movie "Brazil" 0.875; movie "Casablanca" 0.5;
    movie "Dune" 0.75; movie "Eraserhead" 0.125; movie "Fargo" 0.625;
    movie "Gattaca" 0.375 ].

Definition two_movies : list MovieRecommendation :=
  [ movie "Heat" 0.9375; movie "Ikiru" 0.96875 ].

(** A dual-track result: seven entity entries with low scores in front,
    two mood entries with the highest scores. *)
Definition dual_result : RecommendationResult :=
  {| recommendations := Has seven_movies;
     parsed_query := IsNone;
     dual_track_mode := Has true;
     entity_track := Has seven_movies;
     mood_track := Has two_movies |}.

(** The flag is set and the mood track is empty. *)
Definition flagged_single_result : RecommendationResult :=
  {| recommendations := Has two_movies;
     parsed_query := IsNone;
     dual_track_mode := Has true;
     entity_track := Has seven_movies;
     mood_track := Has [] |}.

(** Both tracks are there, the recommendations are empty. *)
Definition dual_without_recommendations : RecommendationResult :=
  {| recommendations := Has [];
     parsed_query := IsNone;
     dual_track_mode := Has true;
     entity_track := Has seven_movies;
     mood_track := Has two_movies |}.

(** A result object that has no attribute [recommendations]. *)
Definition result_without_attribute : RecommendationResult :=
  {| recommendations := Absent;
     parsed_query := Absent;
     dual_track_mode := Has true;
     entity_track := Has seven_movies;
     mood_track := Has two_movies |}.

Definition catalog_columns : list string :=
  [ "title"; "year"; "directors"; "cast"; "production_companies";
    "overview"; "genres"; "runtime"; "vote_average" ].

(** "Heat": no runtime stored, a null overview, no genres. *)
Definition heat_row : gmap string value :=
  list_to_map
    [ ("title", VStr "Heat"); ("year", VInt 1995);
      ("directors", VList [VStr "Michael Mann"]);
      ("cast", VList [VStr "Al Pacino"; VStr "Robert De Niro"]);
      ("production_companies", VList []);
      ("overview", VNone); ("genres", VTuple []);
      ("vote_average", VFloat 7.75) ].

Definition heat_wave_row : gmap string value :=
  list_to_map
    [ ("title", VStr "Heat Wave"); ("year", VInt 1990);
      ("directors", VList [VStr "Kevin Hooks"]);
      ("overview", VStr "A reporter in Watts."); ("runtime", VFloat nan) ].

(** "Dune": the runtime is a NaN of type [numpy.float32]. *)
Definition dune_row : gmap string value :=
  list_to_map
    [ ("title", VStr "Dune"); ("year", VInt 1984);
      ("directors", VTuple [VStr "David Lynch"]);
      ("runtime", VOther (Float32 nan)); ("vote_average", VFloat 6.25) ].

Definition dune_catalog : DataFrame :=
  {| df_columns := catalog_columns; df_rows := [dune_row] |}.

(** A row whose title is not a string. *)
Definition untitled_row : gmap string value :=
  list_to_map [ ("year", VInt 2001) ].

Definition heat_catalog : DataFrame :=
  {| df_columns := catalog_columns;
     df_rows := [untitled_row; heat_wave_row; heat_row] |}.

(** An engine that answers every query with the dual-track sample. *)
Definition sample_recommender : Recommender :=
  {| recommend := λ _ _ _, Returned (Some dual_result); movies := heat_catalog |}.

(** An engine that answers every query with [None]. *)
Definition silent_recommender : Recommender :=
  {| recommend := λ _ _ _, Returned None; movies := heat_catalog |}.

(** An engine that fails on every query. *)
Definition failing_recommender : Recommender :=
  {| recommend := λ _ _ _, Raised (EngineFailure "index not loaded");
     movies := heat_catalog |}.

(** No button pressed, the widgets as a fresh search page shows them. *)
Definition idle : Inputs :=
  {| pressed := None; w_email := ""; w_password := "";
     w_verify_password := ""; w_profile := ∅; w_appearance := "dark";
     w_preference_mode := "balanced"; w_top_n := 10; w_query := "";
     w_movie_detail_select := 0; clock_elapsed := 0.5; random_index := 0 |}.

Definition press (b : button) (inp : Inputs) : Inputs :=
  {| pressed := Some b; w_email := w_email inp; w_password := w_password inp;
     w_verify_password := w_verify_password inp; w_profile := w_profile inp;
     w_appearance := w_appearance inp;
     w_preference_mode := w_preference_mode inp; w_top_n := w_top_n inp;
     w_query := w_query inp;
     w_movie_detail_select := w_movie_detail_select inp;
     clock_elapsed := clock_elapsed inp; random_index := random_index inp |}.

Definition typing (email password query : string) (inp : Inputs) : Inputs :=
  {| pressed := pressed inp; w_email := email; w_password := password;
     w_verify_password := w_verify_password inp; w_profile := w_profile inp;
     w_appearance := w_appearance inp;
     w_preference_mode := w_preference_mode inp; w_top_n := w_top_n inp;
     w_query := query;
     w_movie_detail_select := w_movie_detail_select inp;
     clock_elapsed := clock_elapsed inp; random_index := random_index inp |}.

(** From the first visit to the results of a search. *)
Definition visit_and_search : list Inputs :=
  [ press BtnGetStarted idle;
    press BtnMenuLogIn idle;
    press BtnLogIn (typing "ann@example.org" "secret" "" idle);
    press BtnNext idle;
    press BtnSearch (typing "" "" "heist movies" idle) ].

(** The search page with results stored by an earlier search. *)
Definition searched_state : SessionState :=
  {| page := "search";
     search_results := Some dual_result;
     all_movies_list := entries seven_movies 1 ++ entries two_movies 8;
     last_query := "heist movies";
     user_info := {[ "email" := VStr "ann@example.org" ]};
     logged_in := true;
     appearance := "dark";
     query_input := None;
     search_time := Some 0.5%float;
     top_n := Some 10%Z |}.

(** A [str] that leaves strings as they are and writes a question mark
    for every other value. *)
Definition sample_builtins : Builtins :=
  {| py_str := λ v, match v with VStr s => s | _ => "?" end;
     py_str_of_str := λ s, eq_refl |}.

(** A movie with an overview of 160 characters. *)
Definition long_overview : string :=
  "0123456789012345678901234567890123456789"
  +:+ "0123456789012345678901234567890123456789"
  +:+ "0123456789012345678901234567890123456789"
  +:+ "0123456789012345678901234567890123456789".

Definition movie_with_overview : MovieRecommendation :=
  {| movie_title := "Jaws"; final_score := 0.5; year := Some 1975%Z;
     overview := Some long_overview |}.

(** A single-track result of two movies. *)
Definition single_result : RecommendationResult :=
  {| recommendations := Has two_movies;
     parsed_query := Absent;
     dual_track_mode := Absent;
     entity_track := Absent;
     mood_track := Absent |}.

Definition single_recommender : Recommender :=
  {| recommend := λ _ _ _, Returned (Some single_result); movies := heat_catalog |}.

(** An engine whose results have no attribute [recommendations]. *)
Definition bare_result : RecommendationResult :=
  {| recommendations := Absent;
     parsed_query := Absent;
     dual_track_mode := Absent;
     entity_track := Absent;
     mood_track := Absent |}.

Definition bare_recommender : Recommender :=
  {| recommend := λ _ _ _, Returned (Some bare_result); movies := heat_catalog |}.

(** The search page of a signed-in user before the first search. *)
Definition fresh_search_state : SessionState :=
  {| page := "search";
     search_results := None;
     all_movies_list := [];
     last_query := "";
     user_info := {[ "email" := VStr "ann@example.org" ]};
     logged_in := true;
     appearance := "dark";
     query_input := None;
     search_time := None;
     top_n := None |}.

Definition select (i : nat) (inp : Inputs) : Inputs :=
  {| pressed := pressed inp; w_email := w_email inp;
     w_password := w_password inp;
     w_verify_password := w_verify_password inp; w_profile := w_profile inp;
     w_appearance := w_appearance inp;
     w_preference_mode := w_preference_mode inp; w_top_n := w_top_n inp;
     w_query := w_query inp;
     w_movie_detail_select := i;
     clock_elapsed := clock_elapsed inp; random_index := random_index inp |}.

(** The sign-up form filled in, with Create Account pressed. *)
Definition signup_form : Inputs :=
  {| pressed := Some BtnCreateAccount; w_email := "ann@example.org";
     w_password := "secret"; w_verify_password := "secret"; w_profile := ∅;
     w_appearance := "dark"; w_preference_mode := "balanced"; w_top_n := 10;
     w_query := ""; w_movie_detail_select := 0; clock_elapsed := 0.5;
     random_index := 0 |}.

(* ===================================================================== *)
(** * The matcher decides the language of a pattern *)
(* ===================================================================== *)

Module ReFacts.
Import Re.

Lemma nullable_lang r : nullable r = true ↔ lang r [].
Proof.
  split.
  - induction r as [| |p|r1 IH1 r2 IH2|r1 IH1 r2 IH2|r IH]; simpl; intros Hn;
      try discriminate.
    + constructor.
    + apply andb_true_iff in Hn as [H1 H2].
      change (@nil ascii) with (@nil ascii ++ []). constructor; auto.
    + apply orb_true_iff in Hn as [H1|H2];
        [apply lang_alt_l | apply lang_alt_r]; auto.
    + constructor.
  - intros Hl. remember [] as w eqn:Hw.
    induction Hl as [|p c Hp|r1 r2 u v H1 IH1 H2 IH2|r1 r2 u H1 IH1
                     |r1 r2 u H2 IH2|r|r u v H1 IH1 H2 IH2]; simpl; auto.
    + discriminate.
    + apply app_eq_nil in Hw as [-> ->]. rewrite IH1, IH2; auto.
    + rewrite IH1; auto.
    + rewrite IH2, orb_true_r; auto.
Qed.

Lemma lang_seq_inv r1 r2 w :
  lang (Seq r1 r2) w ↔ ∃ u v, w = u ++ v ∧ lang r1 u ∧ lang r2 v.
Proof.
  split.
  - inversion 1; subst; eauto.
  - intros (u & v & -> & Hu & Hv). by constructor.
Qed.

Lemma lang_alt_inv r1 r2 w : lang (Alt r1 r2) w ↔ lang r1 w ∨ lang r2 w.
Proof.
  split.
  - inversion 1; subst; auto.
  - intros [Hl|Hl]; [apply lang_alt_l | apply lang_alt_r]; done.
Qed.

Lemma lang_cons_seq c r1 r2 u v :
  lang r1 (c :: u) → lang r2 v → lang (Seq r1 r2) (c :: u ++ v).
Proof. intros Hu Hv. change (c :: u ++ v) with ((c :: u) ++ v). by constructor. Qed.

Lemma deriv_sound c r : ∀ w, lang (deriv c r) w → lang r (c :: w).
Proof.
  induction r as [| |p|r1 IH1 r2 IH2|r1 IH1 r2 IH2|r IH]; simpl; intros w Hl.
  - inversion Hl.
  - inversion Hl.
  - destruct (p c) eqn:Hp; inversion Hl; subst. by constructor.
  - destruct (nullable r1) eqn:Hn.
    + apply lang_alt_inv in Hl as [Hl|Hl].
      * apply lang_seq_inv in Hl as (u & v & -> & Hu & Hv).
        apply lang_cons_seq; auto.
      * change (c :: w) with ([] ++ c :: w). constructor; auto.
        by apply nullable_lang.
    + apply lang_seq_inv in Hl as (u & v & -> & Hu & Hv).
      apply lang_cons_seq; auto.
  - apply lang_alt_inv in Hl as [Hl|Hl];
      [apply lang_alt_l | apply lang_alt_r]; auto.
  - apply lang_seq_inv in Hl as (u & v & -> & Hu & Hv).
    change (c :: u ++ v) with ((c :: u) ++ v). constructor; auto.
Qed.

Lemma deriv_complete c r cw :
  lang r cw → ∀ w, cw = c :: w → lang (deriv c r) w.
Proof.
  induction 1 as [|p c' Hp|r1 r2 u v H1 IH1 H2 IH2|r1 r2 u H1 IH1
                  |r1 r2 u H2 IH2|r|r u v H1 IH1 H2 IH2]; intros w Hw; simpl.
  - discriminate.
  - injection Hw as -> <-. rewrite Hp. constructor.
  - destruct u as [|c' u']; simpl in Hw.
    + apply nullable_lang in H1. rewrite H1. apply lang_alt_r; auto.
    + injection Hw as -> <-.
      destruct (nullable r1); [apply lang_alt_l|]; constructor; auto.
  - apply lang_alt_l; auto.
  - apply lang_alt_r; auto.
  - discriminate.
  - destruct u as [|c' u']; simpl in Hw.
    + apply (IH2 w Hw).
    + injection Hw as -> <-. constructor; auto.
Qed.

Lemma deriv_lang c r w : lang (deriv c r) w ↔ lang r (c :: w).
Proof.
  split; [apply deriv_sound | intros Hl; by eapply deriv_complete].
Qed.

Lemma matches_lang w : ∀ r, matches r w = true ↔ lang r w.
Proof.
  induction w as [|c w IH]; intros r; simpl.
  - apply nullable_lang.
  - rewrite IH. apply deriv_lang.
Qed.

(** ** The words of the shapes the e-mail pattern is made of *)

Lemma lang_cls_inv p w : lang (Cls p) w ↔ ∃ c, w = [c] ∧ p c = true.
Proof.
  split.
  - inversion 1; subst; eauto.
  - intros (c & -> & Hp). by constructor.
Qed.

Lemma lang_star_cls p w : lang (Star (Cls p)) w ↔ forallb p w = true.
Proof.
  split.
  - intros Hl. remember (Star (Cls p)) as r eqn:Hr.
    induction Hl as [| | | | | |r u v H1 IH1 H2 IH2]; try discriminate; auto.
    injection Hr as ->. apply lang_cls_inv in H1 as (c & -> & Hp).
    simpl. rewrite Hp. auto.
  - induction w as [|c w IH]; simpl; intros Hall.
    + constructor.
    + apply andb_true_iff in Hall as [Hp Hw].
      change (c :: w) with ([c] ++ w). constructor; auto. by constructor.
Qed.

Lemma lang_plus_cls p w :
  lang (Plus (Cls p)) w ↔ w ≠ [] ∧ forallb p w = true.
Proof.
  unfold Plus. rewrite lang_seq_inv. split.
  - intros (u & v & -> & Hu & Hv).
    apply lang_cls_inv in Hu as (c & -> & Hp). apply lang_star_cls in Hv.
    simpl. rewrite Hp. auto.
  - intros [Hne Hall]. destruct w as [|c w]; [done|]. simpl in Hall.
    apply andb_true_iff in Hall as [Hp Hw].
    exists [c], w. split; [done|]. split; [by constructor|].
    by apply lang_star_cls.
Qed.

Lemma lang_atleast2_cls p w :
  lang (AtLeast2 (Cls p)) w ↔ 2 ≤ length w ∧ forallb p w = true.
Proof.
  unfold AtLeast2. rewrite lang_seq_inv. split.
  - intros (u & v & -> & Hu & Hv).
    apply lang_cls_inv in Hu as (c & -> & Hp).
    apply lang_plus_cls in Hv as [Hne Hall].
    destruct v as [|c' v]; [done|]. simpl in *. rewrite Hp. split; [lia|done].
  - intros [Hlen Hall]. destruct w as [|c [|c' w]]; simpl in Hlen; try lia.
    simpl in Hall. apply andb_true_iff in Hall as [Hp Hw].
    exists [c], (c' :: w). split; [done|]. split; [by constructor|].
    apply lang_plus_cls. split; [done|]. exact Hw.
Qed.

Lemma lang_char c w : lang (Cls (Ascii.eqb c)) w ↔ w = [c].
Proof.
  rewrite lang_cls_inv. split.
  - intros (c' & -> & Hc). apply Ascii.eqb_eq in Hc. by subst.
  - intros ->. exists c. split; [done|]. apply Ascii.eqb_refl.
Qed.

Lemma lang_dollar w : lang dollar w ↔ w = [] ∨ w = [newline].
Proof.
  unfold dollar. split.
  - inversion 1 as [| | |? ? ? Hl|? ? ? Hl| |]; subst.
    + inversion Hl. by left.
    + apply lang_char in Hl. by right.
  - intros [-> | ->]; [apply lang_alt_l; constructor|].
    apply lang_alt_r. by apply lang_char.
Qed.

End ReFacts.

(** ** Strings and their lists of characters *)

Lemma list_ascii_app (s1 s2 : string) :
  list_ascii_of_string (s1 +:+ s2)
  = list_ascii_of_string s1 ++ list_ascii_of_string s2.
Proof. induction s1 as [|c s1 IH]; simpl; [done|]. by rewrite IH. Qed.

Lemma string_of_list_app (l1 l2 : list ascii) :
  string_of_list_ascii (l1 ++ l2)
  = string_of_list_ascii l1 +:+ string_of_list_ascii l2.
Proof. induction l1 as [|c l1 IH]; simpl; [done|]. by rewrite IH. Qed.

Lemma list_ascii_length (s : string) :
  length (list_ascii_of_string s) = String.length s.
Proof. induction s as [|c s IH]; simpl; [done|]. by rewrite IH. Qed.

Lemma list_ascii_nil (s : string) : list_ascii_of_string s = [] ↔ s = "".
Proof. destruct s; simpl; split; intros; congruence. Qed.

Lemma truthy_str_true (s : string) : s ≠ "" → truthy_str s = true.
Proof.
  intros Hs. unfold truthy_str. destruct (String.eqb_spec s ""); [done|auto].
Qed.

(* ===================================================================== *)
(** * AuthFormValidator: properties *)
(* ===================================================================== *)

Lemma email_body_lang (w : list ascii) :
  Re.lang email_body w ↔
  ∃ l d t, w = l ++ ["@"%char] ++ d ++ ["."%char] ++ t
    ∧ (l ≠ [] ∧ forallb local_char l = true)
    ∧ (d ≠ [] ∧ forallb domain_char d = true)
    ∧ (2 ≤ length t ∧ forallb is_alpha t = true).
Proof.
  unfold email_body. split.
  - intros Hl.
    apply ReFacts.lang_seq_inv in Hl as (l & w1 & -> & Hloc & Hl).
    apply ReFacts.lang_seq_inv in Hl as (a & w2 & -> & Hat & Hl).
    apply ReFacts.lang_seq_inv in Hl as (d & w3 & -> & Hdom & Hl).
    apply ReFacts.lang_seq_inv in Hl as (p & t & -> & Hdot & Htld).
    apply ReFacts.lang_char in Hat as ->. apply ReFacts.lang_char in Hdot as ->.
    apply ReFacts.lang_plus_cls in Hloc. apply ReFacts.lang_plus_cls in Hdom.
    apply ReFacts.lang_atleast2_cls in Htld.
    by exists l, d, t.
  - intros (l & d & t & -> & Hloc & Hdom & Htld).
    constructor; [by apply ReFacts.lang_plus_cls|].
    constructor; [by apply ReFacts.lang_char|].
    constructor; [by apply ReFacts.lang_plus_cls|].
    constructor; [by apply ReFacts.lang_char|].
    by apply ReFacts.lang_atleast2_cls.
Qed.

Lemma all_chars_of_list (p : ascii → bool) (l : list ascii) :
  all_chars p (string_of_list_ascii l) = forallb p l.
Proof. unfold all_chars. by rewrite list_ascii_of_string_of_list_ascii. Qed.

Lemma validate_email_shape (s : string) :
  validate_email s = true ↔ email_shape s.
Proof.
  unfold validate_email, re_match_anchored, email_shape.
  rewrite ReFacts.matches_lang, ReFacts.lang_seq_inv. split.
  - intros (u & v & Hs & Hbody & Hend).
    apply email_body_lang in Hbody
      as (l & d & t & -> & [Hl1 Hl2] & [Hd1 Hd2] & [Ht1 Ht2]).
    exists (string_of_list_ascii l), (string_of_list_ascii d),
      (string_of_list_ascii t), (string_of_list_ascii v).
    split.
    { rewrite <- (string_of_list_ascii_of_string s), Hs.
      rewrite <- !app_assoc. by rewrite !string_of_list_app. }
    rewrite !all_chars_of_list.
    repeat split; auto.
    + intros Hnil. apply Hl1.
      by rewrite <- (list_ascii_of_string_of_list_ascii l), Hnil.
    + intros Hnil. apply Hd1.
      by rewrite <- (list_ascii_of_string_of_list_ascii d), Hnil.
    + by rewrite <- list_ascii_length, list_ascii_of_string_of_list_ascii.
    + apply ReFacts.lang_dollar in Hend as [-> | ->]; auto.
  - intros (loc & dom & tld & nl & -> & Hl1 & Hl2 & Hd1 & Hd2 & Ht1 & Ht2 & Hnl).
    exists (list_ascii_of_string (loc +:+ "@" +:+ dom +:+ "." +:+ tld)),
      (list_ascii_of_string nl).
    split.
    { rewrite !list_ascii_app. by rewrite <- !app_assoc. }
    split.
    + apply email_body_lang.
      exists (list_ascii_of_string loc), (list_ascii_of_string dom),
        (list_ascii_of_string tld).
      split; [by rewrite !list_ascii_app|].
      rewrite !list_ascii_nil, list_ascii_length. by repeat split.
    + apply ReFacts.lang_dollar. destruct Hnl as [-> | ->]; auto.
Qed.

(** C8, as the code has it.  [validate_email] accepts exactly the strings
    of the shape [local@domain.tld]: a non-empty local part over
    [a-zA-Z0-9._%+-], a non-empty domain over [a-zA-Z0-9.-], a top-level
    domain of at least two letters, and possibly one final newline.  So
    ["a@b.c"], whose top-level domain has one letter, is rejected, while
    ["a@b.co"] is accepted; ["not-an-email"] and the empty string are
    rejected. *)
Theorem C8_validate_email_exact :
  (∀ s : string, validate_email s = true ↔ email_shape s)
  ∧ validate_email "a@b.c" = false
  ∧ validate_email "a@b.co" = true
  ∧ validate_email "not-an-email" = false
  ∧ validate_email "" = false.
Proof.
  split; [apply validate_email_shape|]. by repeat split.
Qed.

(** C8 as stated fails: [validate_email("a@b.c")] is not true. *)
Lemma C8_a_b_c_rejected : validate_email "a@b.c" ≠ true.
Proof. vm_compute. discriminate. Qed.

(** C9.  For non-empty e-mail, password and confirmation the sign-up
    validator reports the first violation in the order invalid e-mail,
    password mismatch, password too short, and none when all three rules
    hold; with a valid e-mail, password ["abc"] confirmed by ["abc"] is
    too short, and ["abcdef"] against ["abcdeg"] is a mismatch. *)
Theorem C9_signup_first_violation (email password verify_password : string) :
  email ≠ "" → password ≠ "" → verify_password ≠ "" →
  (validate_email email = false →
     signup_error_msg email password verify_password = Some msg_invalid_email)
  ∧ (validate_email email = true → password ≠ verify_password →
     signup_error_msg email password verify_password = Some msg_mismatch)
  ∧ (validate_email email = true → password = verify_password →
     (String.length password < 6)%nat →
     signup_error_msg email password verify_password = Some msg_too_short)
  ∧ (validate_email email = true → password = verify_password →
     (6 ≤ String.length password)%nat →
     signup_error_msg email password verify_password = None)
  ∧ (validate_email email = true →
     signup_error_msg email "abc" "abc" = Some msg_too_short
     ∧ signup_error_msg email "abcdef" "abcdeg" = Some msg_mismatch).
Proof.
  intros He Hp Hv. unfold signup_error_msg, len_str.
  rewrite !truthy_str_true by done. simpl.
  split; [|split; [|split; [|split]]].
  - intros Hval. by rewrite Hval.
  - intros Hval Hne. rewrite Hval. simpl.
    destruct (String.eqb_spec password verify_password); done.
  - intros Hval <- Hlen. rewrite Hval, String.eqb_refl. simpl.
    destruct (Z.ltb_spec (Z.of_nat (String.length password)) 6); [done|lia].
  - intros Hval <- Hlen. rewrite Hval, String.eqb_refl. simpl.
    destruct (Z.ltb_spec (Z.of_nat (String.length password)) 6); [lia|done].
  - intros Hval. by rewrite Hval.
Qed.

Lemma C9_signup_first_violation_witness :
  signup_error_msg "ann@example.org" "abc" "abc" = Some msg_too_short
  ∧ signup_error_msg "ann@example.org" "abcdef" "abcdeg" = Some msg_mismatch.
Proof.
  destruct (C9_signup_first_violation "ann@example.org" "abcdef" "abcdeg")
    as (_ & Hmismatch & _ & _ & Hboth); [done|done|done|].
  split.
  - apply Hboth. reflexivity.
  - apply Hmismatch; [reflexivity|done].
Defined.

(* ===================================================================== *)
(** * ResultComposer: properties *)
(* ===================================================================== *)

Section Composer.
Implicit Types (l : list MovieRecommendation) (start n : Z).

Lemma enumerate_length {A} (xs : list A) start :
  length (enumerate xs start) = length xs.
Proof. revert start. induction xs as [|x xs IH]; intros; simpl; [done|]. by rewrite IH. Qed.

Lemma enumerate_indices {A} (xs : list A) start :
  map fst (enumerate xs start) = seqZ start (Z.of_nat (length xs)).
Proof.
  revert start. induction xs as [|x xs IH]; intros start; [done|].
  cbn [enumerate map fst length]. rewrite IH, (seqZ_cons start) by lia.
  do 2 f_equal; lia.
Qed.

Lemma enumerate_values {A} (xs : list A) start :
  map snd (enumerate xs start) = xs.
Proof. revert start. induction xs as [|x xs IH]; intros; simpl; [done|]. by rewrite IH. Qed.

Lemma enumerate_map {A B} (g : A → B) (xs : list A) start :
  enumerate (map g xs) start = map (λ p, (p.1, g p.2)) (enumerate xs start).
Proof. revert start. induction xs as [|x xs IH]; intros; simpl; [done|]. by rewrite IH. Qed.

Lemma rank_mk_entry (ps : list (Z * MovieRecommendation)) :
  map rank (map mk_entry ps) = map fst ps.
Proof. rewrite map_map. by apply map_ext. Qed.

Lemma record_mk_entry (ps : list (Z * MovieRecommendation)) :
  map record (map mk_entry ps) = map snd ps.
Proof. rewrite map_map. by apply map_ext. Qed.

Lemma title_mk_entry (ps : list (Z * MovieRecommendation)) :
  map title (map mk_entry ps) = map movie_title (map snd ps).
Proof. rewrite !map_map. by apply map_ext. Qed.

Lemma entries_length l start : length (entries l start) = length l.
Proof. unfold entries. by rewrite length_map, enumerate_length. Qed.

Lemma entries_rank l start :
  map rank (entries l start) = seqZ start (Z.of_nat (length l)).
Proof. unfold entries. by rewrite rank_mk_entry, enumerate_indices. Qed.

Lemma entries_record l start : map record (entries l start) = l.
Proof. unfold entries. by rewrite record_mk_entry, enumerate_values. Qed.

Lemma entries_title l start : map title (entries l start) = map movie_title l.
Proof. unfold entries. by rewrite title_mk_entry, enumerate_values. Qed.

Lemma slice_to_nonneg {A} (xs : list A) n :
  (0 ≤ n)%Z → slice_to xs n = take (Z.to_nat n) xs.
Proof. intros Hn. unfold slice_to. destruct (Z.leb_spec 0 n); [done|lia]. Qed.

Lemma slice_to_length {A} (xs : list A) n :
  (0 ≤ n)%Z → Z.of_nat (length (slice_to xs n)) = Z.min n (Z.of_nat (length xs)).
Proof. intros Hn. rewrite slice_to_nonneg, length_take by done. lia. Qed.

Lemma slice_to_map {A B} (g : A → B) (xs : list A) n :
  slice_to (map g xs) n = map g (slice_to xs n).
Proof.
  unfold slice_to. rewrite length_map.
  destruct (0 <=? n)%Z; symmetry; apply (fmap_take g).
Qed.

(** ** The variant *)

Lemma is_dual_spec (result : RecommendationResult) :
  is_dual result = true ↔
  dual_track_mode result = Has true
  ∧ (∃ e, entity_track result = Has e ∧ e ≠ [])
  ∧ (∃ m, mood_track result = Has m ∧ m ≠ []).
Proof.
  unfold is_dual. split.
  - intros Hd. repeat (apply andb_true_iff in Hd as [Hd ?]).
    destruct (dual_track_mode result) as [| |[]]; try done.
    destruct (entity_track result) as [| |[|x e]]; try done.
    destruct (mood_track result) as [| |[|y m]]; try done.
    split; [done|]. split; eauto.
  - intros (-> & (e & -> & He) & (m & -> & Hm)).
    by destruct e, m.
Qed.

Lemma build_dual (result : RecommendationResult) n e m :
  is_dual result = true →
  entity_track result = Has e → mood_track result = Has m →
  build_all_movies result n
  = Returned (entries (slice_to e n) 1
              ++ entries (slice_to m n)
                   (Z.of_nat (length (slice_to e n)) + 1)).
Proof. intros Hd He Hm. unfold build_all_movies. by rewrite Hd, He, Hm. Qed.

Lemma build_single (result : RecommendationResult) n :
  is_dual result = false →
  build_all_movies result n
  = match recommendations result with
    | Absent => Raised (AttributeError "recommendations")
    | IsNone => Raised (TypeError "'NoneType' object is not subscriptable")
    | Has l => Returned (entries (slice_to l n) 1)
    end.
Proof.
  intros Hd. unfold build_all_movies. rewrite Hd.
  by destruct (recommendations result).
Qed.

Lemma is_dual_rescore f (result : RecommendationResult) :
  is_dual (rescore_result f result) = is_dual result.
Proof.
  unfold is_dual. simpl.
  destruct (dual_track_mode result) as [| |[]]; try done.
  destruct (entity_track result) as [| |[|x e]]; try done.
  by destruct (mood_track result) as [| |[|y m]].
Qed.

Lemma rank_in_entries l start (x : entry) :
  x ∈ entries l start →
  (start ≤ rank x < start + Z.of_nat (length l))%Z.
Proof.
  intros Hx. apply elem_of_seqZ. rewrite <- entries_rank.
  apply list_elem_of_In, in_map. by apply list_elem_of_In.
Qed.

Lemma two_tracks_ranks a b :
  ranks_from_1 (entries a 1 ++ entries b (Z.of_nat (length a) + 1)).
Proof.
  unfold ranks_from_1.
  rewrite map_app, !entries_rank, length_app, !entries_length.
  rewrite Nat2Z.inj_add, seqZ_app by lia. do 2 f_equal. lia.
Qed.

Lemma one_track_ranks a : ranks_from_1 (entries a 1).
Proof. unfold ranks_from_1. by rewrite entries_rank, entries_length. Qed.

End Composer.

(** C1.  For every result and every [top_n] from 5 to 20: a dual-track
    result gives the first [top_n] entity entries with the ranks [1..k1],
    [k1 = min(top_n, len(entity_track))], followed by the first [top_n]
    mood entries with the ranks from [k1 + 1] on; a single-track result
    with a list of recommendations gives its first [top_n] entries with
    the ranks [1..k]; and every list that is built has the ranks
    [1, 2, ..., n] and at most [top_n] entries of each track. *)
Theorem C1_flatten_bounds_and_ranks (result : RecommendationResult) (top_n : Z) :
  (5 ≤ top_n ≤ 20)%Z →
  (is_dual result = true →
     ∃ e m ent mood,
       entity_track result = Has e ∧ mood_track result = Has m
       ∧ build_all_movies result top_n = Returned (ent ++ mood)
       ∧ map record ent = take (Z.to_nat top_n) e
       ∧ map record mood = take (Z.to_nat top_n) m
       ∧ let k1 := Z.min top_n (Z.of_nat (length e)) in
         let k2 := Z.min top_n (Z.of_nat (length m)) in
         map rank ent = seqZ 1 k1 ∧ map rank mood = seqZ (k1 + 1) k2)
  ∧ (is_dual result = false → ∀ l, recommendations result = Has l →
       ∃ all, build_all_movies result top_n = Returned all
         ∧ map record all = take (Z.to_nat top_n) l
         ∧ map rank all = seqZ 1 (Z.min top_n (Z.of_nat (length l))))
  ∧ (∀ all, build_all_movies result top_n = Returned all →
       ranks_from_1 all
       ∧ ∃ first second, all = first ++ second
           ∧ (Z.of_nat (length first) ≤ top_n)%Z
           ∧ (Z.of_nat (length second) ≤ top_n)%Z
           ∧ (is_dual result = false → second = [])).
Proof.
  intros Hn. assert (0 ≤ top_n)%Z as H0 by lia.
  split; [|split].
  - intros Hd. pose proof Hd as Hspec.
    apply is_dual_spec in Hspec as (_ & (e & He & _) & (m & Hm & _)).
    exists e, m, (entries (slice_to e top_n) 1),
      (entries (slice_to m top_n) (Z.of_nat (length (slice_to e top_n)) + 1)).
    rewrite (build_dual result top_n e m Hd He Hm).
    rewrite !entries_record, !entries_rank, !slice_to_length by done.
    rewrite !slice_to_nonneg by done. done.
  - intros Hd l Hl. exists (entries (slice_to l top_n) 1).
    rewrite build_single, Hl by done.
    rewrite entries_record, entries_rank, slice_to_length by done.
    by rewrite slice_to_nonneg.
  - intros all Hb. destruct (is_dual result) eqn:Hd.
    + pose proof Hd as Hspec.
      apply is_dual_spec in Hspec as (_ & (e & He & _) & (m & Hm & _)).
      rewrite (build_dual result top_n e m Hd He Hm) in Hb.
      injection Hb as <-. split; [apply two_tracks_ranks|].
      eexists _, _. split; [done|].
      rewrite !entries_length, !slice_to_length by done.
      repeat split; [lia|lia|done].
    + rewrite build_single in Hb by done.
      destruct (recommendations result) as [| |l]; try done.
      injection Hb as <-. split; [apply one_track_ranks|].
      exists (entries (slice_to l top_n) 1), [].
      rewrite app_nil_r, entries_length, slice_to_length by done.
      repeat split; simpl; lia.
Qed.

Lemma C1_flatten_bounds_and_ranks_witness :
  ranks_from_1
    (entries (take 5 seven_movies) 1 ++ entries two_movies 6).
Proof.
  destruct (C1_flatten_bounds_and_ranks dual_result 5) as (_ & _ & Hall);
    [lia|].
  destruct (Hall (entries (take 5 seven_movies) 1 ++ entries two_movies 6))
    as [Hranks _]; [reflexivity|].
  exact Hranks.
Defined.

(** C3.  For a dual-track result the list is the slice of the entity
    track followed by the slice of the mood track, each in the engine's
    order; the ranks count up through both, so every entity entry has a
    smaller rank than every mood entry; and the titles and ranks do not
    depend on the scores: with any other scores the same titles get the
    same ranks. *)
Theorem C3_dual_order_preserved (result : RecommendationResult) (top_n : Z) :
  is_dual result = true →
  ∃ e m ent mood,
    entity_track result = Has e ∧ mood_track result = Has m
    ∧ build_all_movies result top_n = Returned (ent ++ mood)
    ∧ map record ent = slice_to e top_n
    ∧ map record mood = slice_to m top_n
    ∧ ranks_from_1 (ent ++ mood)
    ∧ (∀ x y, x ∈ ent → y ∈ mood → (rank x < rank y)%Z)
    ∧ (∀ f, ∃ all',
          build_all_movies (rescore_result f result) top_n = Returned all'
          ∧ map rank all' = map rank (ent ++ mood)
          ∧ map title all' = map title (ent ++ mood)).
Proof.
  intros Hd. pose proof Hd as Hspec.
  apply is_dual_spec in Hspec as (_ & (e & He & _) & (m & Hm & _)).
  exists e, m, (entries (slice_to e top_n) 1),
    (entries (slice_to m top_n) (Z.of_nat (length (slice_to e top_n)) + 1)).
  rewrite (build_dual result top_n e m Hd He Hm), !entries_record.
  do 5 (split; [done|]). split; [apply two_tracks_ranks|]. split.
  - intros x y Hx Hy. apply rank_in_entries in Hx, Hy. lia.
  - intros f. eexists. split.
    + apply build_dual; [by rewrite is_dual_rescore| |]; simpl.
      * by rewrite He.
      * by rewrite Hm.
    + rewrite !slice_to_map, !length_map, !map_app, !entries_rank, !entries_title.
      rewrite !length_map, !map_map. done.
Qed.

Lemma C3_dual_order_preserved_witness :
  is_dual dual_result = true
  ∧ ∃ e m ent mood,
      entity_track dual_result = Has e ∧ mood_track dual_result = Has m
      ∧ build_all_movies dual_result 5 = Returned (ent ++ mood)
      ∧ map record ent = slice_to e 5
      ∧ map record mood = slice_to m 5
      ∧ ranks_from_1 (ent ++ mood)
      ∧ (∀ x y, x ∈ ent → y ∈ mood → (rank x < rank y)%Z)
      ∧ (∀ f, ∃ all',
            build_all_movies (rescore_result f dual_result) 5 = Returned all'
            ∧ map rank all' = map rank (ent ++ mood)
            ∧ map title all' = map title (ent ++ mood)).
Proof.
  split; [reflexivity|]. apply (C3_dual_order_preserved dual_result 5).
  reflexivity.
Defined.

Example dual_result_flattened :
  (λ all, (map rank all, map title all)) <$> build_all_movies dual_result 5
  = Returned ([1; 2; 3; 4; 5; 6; 7]%Z,
              ["Alien"; "Brazil"; "Casablanca"; "Dune"; "Eraserhead";
               "Heat"; "Ikiru"]).
Proof. reflexivity. Qed.

(* ===================================================================== *)
(** * MovieResolver: properties *)
(* ===================================================================== *)

Section ResolverFacts.
Context `{Pandas}.
Implicit Types (row : gmap string value) (rows : list (gmap string value)).

(** The test of the exact mask, on one row. *)
Lemma exact_test_spec (movie_title : string) row :
  match str_lower (cell row "title") with
  | Some s => String.eqb s (lower movie_title)
  | None => false
  end = true ↔ title_matches movie_title row.
Proof.
  unfold title_matches. destruct (str_lower (cell row "title")) as [s|].
  - rewrite String.eqb_eq. split; congruence.
  - split; discriminate.
Qed.

Lemma exact_rows_none (movie_title : string) rows :
  (∀ r, r ∈ rows → ¬ title_matches movie_title r) →
  exact_rows (lower movie_title) rows = [].
Proof.
  induction rows as [|r rows IH]; intros Hno; [done|]. simpl.
  destruct (match str_lower (cell r "title") with
            | Some s => String.eqb s (lower movie_title)
            | None => false
            end) eqn:Ht.
  - apply exact_test_spec in Ht. destruct (Hno r); [left|done].
  - apply IH. intros r' Hr'. apply Hno. by right.
Qed.

Lemma exact_rows_first (movie_title : string) before row after :
  title_matches movie_title row →
  (∀ r, r ∈ before → ¬ title_matches movie_title r) →
  exact_rows (lower movie_title) (before ++ row :: after)
  = row :: exact_rows (lower movie_title) after.
Proof.
  intros Hrow Hbefore. unfold exact_rows. rewrite List.filter_app.
  fold (exact_rows (lower movie_title) before).
  rewrite exact_rows_none by done. simpl.
  apply exact_test_spec in Hrow. by rewrite Hrow.
Qed.

Lemma exact_rows_match (t : string) rows row :
  row ∈ exact_rows t rows → str_lower (cell row "title") = Some t.
Proof.
  intros Hin. apply list_elem_of_In, filter_In in Hin as [_ Ht].
  destruct (str_lower (cell row "title")) as [s|]; [|done].
  apply String.eqb_eq in Ht. by subst.
Qed.

Lemma containing_rows_match found rows row :
  row ∈ containing_rows found rows → ∃ s, str_lower (cell row "title") = Some s.
Proof.
  intros Hin. apply list_elem_of_In, filter_In in Hin as [_ Ht].
  destruct (str_lower (cell row "title")) as [s|]; [eauto|done].
Qed.

(** A column that holds a matching title has the string accessor. *)
Lemma title_column_has_str (movies_df : DataFrame) (movie_title : string) row :
  row ∈ df_rows movies_df → title_matches movie_title row →
  str_accessor (title_column movies_df) = true.
Proof.
  intros Hin Hm. apply str_accessor_of_str, existsb_exists.
  exists (cell row "title"). split.
  - apply in_map_iff. exists row. split; [done|]. by apply list_elem_of_In.
  - unfold title_matches in Hm. by destruct (cell row "title").
Qed.

(** Every row [find_matches] returns has a string as its title, and the
    frame has the column. *)
Lemma find_matches_titled (movies_df : DataFrame) (movie_title : string) rows row :
  find_matches movies_df movie_title = Returned rows → row ∈ rows →
  "title" ∈ df_columns movies_df ∧ ∃ s, cell row "title" = VStr s.
Proof.
  unfold find_matches. case_bool_decide as Hcol; [|done].
  destruct (str_accessor (title_column movies_df)); [|done].
  intros Hfind Hin. split; [done|].
  assert (∃ s, str_lower (cell row "title") = Some s) as [s Hs].
  { destruct (truthy_list _) eqn:Hex; simpl in Hfind.
    - injection Hfind as <-. eexists. by eapply exact_rows_match.
    - destruct (str_contains (lower movie_title)) as [e|found]; [done|].
      simpl in Hfind. injection Hfind as <-. by eapply containing_rows_match. }
  destruct (cell row "title"); try done. eauto.
Qed.

(** ** What [safe_get] returns *)

Lemma safe_get_missing (movie : Series) key dflt :
  is_missing movie key = true → safe_get movie key dflt = dflt.
Proof.
  unfold is_missing, safe_get, series_get.
  case_bool_decide; simpl;
    [|by destruct dflt as [|f| | |[]|[]|]; try destruct (isna f)].
  destruct (cell (s_cells movie) key) as [|f| | |[]|[]|]; try done.
  by intros ->.
Qed.

Lemma safe_get_present (movie : Series) key dflt :
  is_missing movie key = false →
  safe_get movie key dflt = cell (s_cells movie) key.
Proof.
  unfold is_missing, safe_get, series_get.
  case_bool_decide; simpl; [|done].
  destruct (cell (s_cells movie) key) as [|f| | |[]|[]|]; try done.
  by intros ->.
Qed.

Lemma safe_get_clean (movie : Series) key dflt :
  none_or_float_nan dflt = false →
  none_or_float_nan (safe_get movie key dflt) = false.
Proof.
  intros Hd. destruct (is_missing movie key) eqn:Hm.
  - by rewrite safe_get_missing.
  - rewrite safe_get_present by done. unfold is_missing in Hm.
    apply orb_false_iff in Hm as [_ Hm].
    by destruct (cell (s_cells movie) key).
Qed.

Lemma safe_get_floating_nan (movie : Series) key dflt :
  floating_nan dflt = false →
  floating_nan (safe_get movie key dflt) = true →
  ∃ f, cell (s_cells movie) key = VOther (Float32 f)
       ∧ safe_get movie key dflt = cell (s_cells movie) key.
Proof.
  intros Hd. destruct (is_missing movie key) eqn:Hm.
  - rewrite safe_get_missing by done. congruence.
  - rewrite safe_get_present by done. unfold is_missing in Hm.
    apply orb_false_iff in Hm as [_ Hm].
    destruct (cell (s_cells movie) key) as [|f| | | | |[f|]]; try done.
    + simpl in *. unfold isna in Hm. congruence.
    + by exists f.
Qed.

End ResolverFacts.

(** C4.  Resolution compares lower-cased titles and prefers the exact
    match: when some row's title equals the input ignoring case, the
    details are those of the first such row, whatever the fallback search
    would find or raise; inputs that differ in case only select the same
    rows; when no row matches exactly, the fallback search runs if the
    title column has its string accessor, and the lookup raises an
    attribute error if it has not; and in a catalog that lists "Heat Wave"
    before "Heat", the inputs "Heat", "heat" and "HEAT" resolve to
    "Heat". *)
Theorem C4_exact_match_precedes `{Pandas} :
  (∀ movies_df movie_title before row after,
     "title" ∈ df_columns movies_df →
     df_rows movies_df = before ++ row :: after →
     title_matches movie_title row →
     (∀ r, r ∈ before → ¬ title_matches movie_title r) →
     let movie := {| s_index := df_columns movies_df; s_cells := row |} in
     get_movie_details movies_df movie_title
     = Returned (Some (movie_details movie movie_title))
     ∧ d_title (movie_details movie movie_title) = cell row "title")
  ∧ (∀ movies_df t1 t2,
       lower t1 = lower t2 →
       find_matches movies_df t1 = find_matches movies_df t2)
  ∧ (∀ movies_df movie_title,
       "title" ∈ df_columns movies_df →
       (∀ r, r ∈ df_rows movies_df → ¬ title_matches movie_title r) →
       find_matches movies_df movie_title
       = if str_accessor (title_column movies_df) then
           match str_contains (lower movie_title) with
           | Raised e => Raised e
           | Returned found =>
               Returned (containing_rows found (df_rows movies_df))
           end
         else Raised (AttributeError "str"))
  ∧ (∀ t, t ∈ ["Heat"; "heat"; "HEAT"] →
       ∃ d, get_movie_details heat_catalog t = Returned (Some d)
            ∧ d_title d = VStr "Heat").
Proof.
  split; [|split; [|split]].
  - intros movies_df movie_title before row after Hcol Hrows Hrow Hbefore movie.
    assert (find_matches movies_df movie_title
            = Returned (row :: exact_rows (lower movie_title) after)) as Hfind.
    { unfold find_matches. rewrite bool_decide_eq_true_2 by done.
      rewrite (title_column_has_str movies_df movie_title row);
        [|rewrite Hrows; apply elem_of_app; right; left|done].
      by rewrite Hrows, exact_rows_first. }
    split.
    + unfold get_movie_details. by rewrite Hfind.
    + unfold title_matches in Hrow. simpl. rewrite safe_get_present; [done|].
      unfold is_missing. simpl. rewrite bool_decide_eq_true_2 by done.
      by destruct (cell row "title").
  - intros movies_df t1 t2 Heq. unfold find_matches. by rewrite Heq.
  - intros movies_df movie_title Hcol Hno. unfold find_matches.
    rewrite bool_decide_eq_true_2 by done.
    destruct (str_accessor (title_column movies_df)); [|done].
    by rewrite exact_rows_none.
  - intros t Ht.
    assert (str_accessor (title_column heat_catalog) = true) as Hacc
      by (by apply str_accessor_of_str).
    repeat (apply elem_of_cons in Ht as [->|Ht]);
      try (eexists; split;
           [unfold get_movie_details, find_matches; rewrite Hacc|];
           reflexivity).
    by apply elem_of_nil in Ht.
Qed.

Lemma C4_exact_match_precedes_witness :
  @get_movie_details literal_pandas heat_catalog "heat"
  = Returned (Some (movie_details
                      {| s_index := catalog_columns; s_cells := heat_row |}
                      "heat")).
Proof.
  destruct (@C4_exact_match_precedes literal_pandas) as (Hexact & _).
  apply (Hexact heat_catalog "heat" [untitled_row; heat_wave_row] heat_row []).
  - simpl. constructor.
  - reflexivity.
  - reflexivity.
  - intros r Hr Hm.
    repeat (apply elem_of_cons in Hr as [->|Hr]); try discriminate Hm.
    by apply elem_of_nil in Hr.
Defined.

(** C5.  In the record of a resolved movie, each of the nine fields whose
    catalog value is missing, [None], a NaN of Python's type [float] or an
    empty list or tuple holds its default (['N/A'] for scalars, the empty
    sequence for list-valued fields, ['No overview available.'] for the
    overview); each other field holds the catalog's value as it is; no
    field is [None] or a NaN of type [float]; and a field is a NaN only
    where the catalog holds a NaN of another floating-point type. *)
Theorem C5_defaults_for_missing `{Pandas}
    (movies_df : DataFrame) (movie_title : string) (d : MovieDetails) :
  get_movie_details movies_df movie_title = Returned (Some d) →
  ∃ first rest,
    find_matches movies_df movie_title = Returned (first :: rest)
    ∧ let movie := {| s_index := df_columns movies_df; s_cells := first |} in
      ∀ key proj dflt, (key, proj, dflt) ∈ detail_fields →
        (is_missing movie key = true → proj d = dflt)
        ∧ (is_missing movie key = false → proj d = cell first key)
        ∧ none_or_float_nan (proj d) = false
        ∧ (floating_nan (proj d) = true →
           ∃ f, cell first key = VOther (Float32 f) ∧ proj d = cell first key).
Proof.
  unfold get_movie_details. intros Hd.
  destruct (find_matches movies_df movie_title) as [e|[|first rest]] eqn:Hfind;
    try done.
  simpl in Hd. injection Hd as <-. exists first, rest. split; [done|].
  destruct (find_matches_titled _ _ _ first Hfind) as (Hcol & s & Hs); [left|].
  assert (is_missing {| s_index := df_columns movies_df; s_cells := first |}
            "title" = false) as Htitle.
  { unfold is_missing. simpl. by rewrite bool_decide_eq_true_2, Hs. }
  intros key proj dflt Hin.
  repeat (apply elem_of_cons in Hin as [Hin|Hin]; [injection Hin as -> -> ->|]);
    [..|by apply elem_of_nil in Hin]; simpl.
  1: { rewrite Htitle. split; [done|]. split; [|split].
       - intros _. by apply safe_get_present.
       - by apply safe_get_clean.
       - intros Hf. rewrite safe_get_present in Hf by done. simpl in Hf.
         by rewrite Hs in Hf. }
  all: split; [apply safe_get_missing|];
    split; [apply safe_get_present|];
    split; [by apply safe_get_clean|by apply safe_get_floating_nan].
Qed.

Lemma C5_defaults_for_missing_witness :
  let d := movie_details {| s_index := catalog_columns; s_cells := heat_row |}
             "heat" in
  d_runtime d = VStr "N/A" ∧ d_overview d = VStr "No overview available."
  ∧ d_genres d = VList [] ∧ d_year d = VInt 1995
  ∧ ∃ first rest,
      @find_matches literal_pandas heat_catalog "heat" = Returned (first :: rest)
      ∧ let movie := {| s_index := catalog_columns; s_cells := first |} in
        ∀ key proj dflt, (key, proj, dflt) ∈ detail_fields →
          (is_missing movie key = true → proj d = dflt)
          ∧ (is_missing movie key = false → proj d = cell first key)
          ∧ none_or_float_nan (proj d) = false
          ∧ (floating_nan (proj d) = true →
             ∃ f, cell first key = VOther (Float32 f)
                  ∧ proj d = cell first key).
Proof.
  intros d. do 4 (split; [reflexivity|]).
  apply (@C5_defaults_for_missing literal_pandas heat_catalog "heat" d).
  reflexivity.
Defined.

(** C5, as the specification states it, fails where the catalog holds a
    NaN of type [numpy.float32]: the runtime of "Dune" is such a NaN, and
    the record [get_movie_details] returns for "Dune" holds it as its
    runtime, not ['N/A']. *)
Lemma C5_float32_nan_returned :
  floating_nan (cell dune_row "runtime") = true
  ∧ ∃ d, @get_movie_details literal_pandas dune_catalog "Dune"
         = Returned (Some d)
         ∧ d_runtime d = VOther (Float32 nan)
         ∧ d_runtime d ≠ VStr "N/A"
         ∧ floating_nan (d_runtime d) = true.
Proof.
  split; [reflexivity|]. eexists. split; [reflexivity|].
  split; [reflexivity|]. split; [discriminate|reflexivity].
Qed.

(* ===================================================================== *)
(** * The script monad: how pieces of a run compose *)
(* ===================================================================== *)

Lemma bind_run {A B} (m : script A) (k : A → script B) s shown :
  (m ≫= k) s shown
  = match m s shown with
    | (s', shown', inl st) => (s', shown', inl st)
    | (s', shown', inr a) => k a s' shown'
    end.
Proof. reflexivity. Qed.

Lemma lift_run {A} (o : outcome A) s shown :
  lift o s shown
  = (s, shown, match o with
               | Raised e => inl (Crashed e)
               | Returned a => inr a
               end).
Proof. by destruct o. Qed.

Lemma appends_ret {A} (P : ui → Prop) (a : A) : appends P (mret a : script A).
Proof. intros s shown. exists [], (inr a). by rewrite app_nil_r. Qed.

Lemma appends_lift {A} (P : ui → Prop) (o : outcome A) : appends P (lift o).
Proof.
  intros s shown. destruct o as [e|a]; simpl.
  - exists [], (inl (Crashed e)). by rewrite app_nil_r.
  - exists [], (inr a). by rewrite app_nil_r.
Qed.

Lemma appends_bind {A B} (P : ui → Prop) (m : script A) (k : A → script B) :
  appends P m → (∀ a, appends P (k a)) → appends P (m ≫= k).
Proof.
  intros Hm Hk s shown. rewrite bind_run.
  destruct (Hm s shown) as (more & ending & -> & Hmore).
  destruct ending as [st|a].
  - by exists more, (inl st).
  - destruct (Hk a s (shown ++ more)) as (more' & ending' & -> & Hmore').
    exists (more ++ more'), ending'. rewrite app_assoc.
    split; [done|]. by apply Forall_app.
Qed.

Lemma appends_for_each {A} (P : ui → Prop) (l : list A) (body : A → script ()) :
  (∀ x, appends P (body x)) → appends P (for_each l body).
Proof.
  intros Hbody. induction l as [|x l IH]; simpl.
  - apply appends_ret.
  - apply appends_bind; [apply Hbody|]. by intros _.
Qed.

Lemma appends_get P : appends P get_state.
Proof. intros s shown. exists [], (inr s). by rewrite app_nil_r. Qed.

Lemma appends_emit (P : ui → Prop) u : P u → appends P (emit u).
Proof. intros Hu s shown. exists [u], (inr ()). split; [done|]. by constructor. Qed.

Lemma appends_when P b (m : script ()) : appends P m → appends P (when b m).
Proof. intros Hm. destruct b; [done|]. apply appends_ret. Qed.

Create HintDb script discriminated.
#[local] Hint Resolve appends_ret appends_lift appends_get appends_emit
  appends_when appends_for_each : script.

Lemma emit_all_run (f : Z * MovieRecommendation → ui)
    (rows : list (Z * MovieRecommendation)) s shown :
  for_each rows (λ r, emit (f r)) s shown = (s, shown ++ map f rows, inr ()).
Proof.
  revert shown. induction rows as [|r rows IH]; intros shown; simpl.
  - by rewrite app_nil_r.
  - rewrite bind_run. simpl. rewrite IH. by rewrite <- app_assoc.
Qed.

Lemma show_rows_run col rows s shown :
  show_rows col rows s shown
  = (s, shown ++ map (λ r, UiRow col r.1 r.2) rows, inr ()).
Proof. apply emit_all_run. Qed.

Lemma rows_of_app shown more : rows_of (shown ++ more) = rows_of shown ++ rows_of more.
Proof. apply omap_app. Qed.

Lemma rows_of_cons u shown :
  rows_of (u :: shown)
  = match u with
    | UiRow col i m => (col, i, m) :: rows_of shown
    | _ => rows_of shown
    end.
Proof. by destruct u. Qed.

Lemma rows_of_none shown : Forall (λ u, ¬ is_row u) shown → rows_of shown = [].
Proof.
  induction 1 as [|u shown Hu _ IH]; [done|].
  rewrite rows_of_cons, IH. by destruct u.
Qed.

Lemma rows_of_rows col (l : list MovieRecommendation) start :
  rows_of (map (λ r, UiRow col r.1 r.2) (enumerate l start))
  = track_rows col l start.
Proof.
  unfold track_rows. induction (enumerate l start) as [|r rows IH]; [done|].
  by rewrite !map_cons, rows_of_cons, IH.
Qed.

(* ===================================================================== *)
(** * The display pass: properties *)
(* ===================================================================== *)

Lemma emit_run u s shown : emit u s shown = (s, shown ++ [u], inr ()).
Proof. reflexivity. Qed.

Lemma attr_slice_has {A} name (l : list A) n :
  attr_slice name (Has l) n = Returned (slice_to l n).
Proof. reflexivity. Qed.

(** One step of a run whose first piece is known. *)
Ltac run_step :=
  rewrite bind_run;
  first [ rewrite emit_run | rewrite show_rows_run ];
  cbv beta iota.

Lemma appends_weaken {A} (P Q : ui → Prop) (m : script A) :
  (∀ u, P u → Q u) → appends P m → appends Q m.
Proof.
  intros HPQ Hm s shown. destruct (Hm s shown) as (more & ending & -> & Hmore).
  exists more, ending. split; [done|]. by eapply Forall_impl.
Qed.

Lemma heading_outside u l :
  is_panel_heading u → Forall outside_panel l → u ∉ l.
Proof.
  intros Hu Hl Hin. rewrite Forall_forall in Hl.
  by destruct (Hl u Hin) as [_ Hno].
Qed.

Lemma heading_not_a_row u col (rows : list (Z * MovieRecommendation)) :
  is_panel_heading u → u ∉ map (λ r, UiRow col r.1 r.2) rows.
Proof.
  intros Hu Hin. apply list_elem_of_In, in_map_iff in Hin as (r & <- & _).
  done.
Qed.

Section DisplayFacts.
Context `{Pandas}.
Variable recommender : Recommender.
Variable inp : Inputs.

Lemma show_interpretation_plain result s shown :
  ∃ more, show_interpretation result s shown = (s, shown ++ more, inr ())
          ∧ Forall outside_panel more.
Proof.
  unfold show_interpretation. destruct (parsed_query result) as [| |pq].
  - exists []. by rewrite app_nil_r.
  - exists []. by rewrite app_nil_r.
  - eexists [_]. split; [reflexivity|].
    constructor; [|done]. by split; intros [].
Qed.

Lemma show_interpretation_run result s shown :
  ∃ more, show_interpretation result s shown = (s, shown ++ more, inr ())
          ∧ Forall (λ u, ¬ is_row u) more.
Proof.
  destruct (show_interpretation_plain result s shown) as (more & Hrun & Hmore).
  exists more. split; [done|]. eapply Forall_impl; [done|]. by intros u [].
Qed.

Lemma show_details_plain : appends outside_panel (show_details recommender inp).
Proof.
  unfold show_details. apply appends_bind; [apply appends_get|intros s].
  apply appends_when, appends_bind;
    [by apply appends_emit; split; intros []|intros _].
  apply appends_when, appends_bind; [apply appends_lift|intros [d|]].
  - apply appends_bind; [|intros _; apply appends_lift].
    by apply appends_emit; split; intros [].
  - by apply appends_emit; split; intros [].
Qed.

Lemma show_details_appends :
  appends (λ u, ¬ is_row u) (show_details recommender inp).
Proof. eapply appends_weaken, show_details_plain. by intros u []. Qed.

(** The panel of a stored result with recommendations, and what is shown
    around it. *)
Lemma display_parts search_clicked s result l shown :
  search_results s = Some result →
  recommendations result = Has l → l ≠ [] →
  let n := default 10%Z (top_n s) in
  ∃ before panel after ending,
    display_results recommender inp search_clicked s shown
    = (s, shown ++ before ++ panel ++ after, ending)
    ∧ Forall outside_panel before ∧ Forall outside_panel after
    ∧ (is_dual result = false →
       panel = UiTopHeading (Z.min n (Z.of_nat (length l)))
               :: map (λ r, UiRow MainColumn r.1 r.2)
                    (enumerate (slice_to l n) 1))
    ∧ (is_dual result = true → ∃ e m,
       entity_track result = Has e ∧ mood_track result = Has m
       ∧ panel = UiDualTrackHeading
                 :: map (λ r, UiRow EntityColumn r.1 r.2)
                      (enumerate (slice_to e n) 1)
                 ++ map (λ r, UiRow MoodColumn r.1 r.2)
                      (enumerate (slice_to m n)
                         (Z.of_nat (length (slice_to e n)) + 1))).
Proof.
  intros Hs Hl Hne n. destruct l as [|r rs]; [done|].
  unfold display_results. rewrite bind_run. unfold get_state at 1.
  cbv beta iota. rewrite Hs, bind_run, Hl. cbn [getattr lift].
  fold n. run_step. rewrite bind_run.
  destruct (show_interpretation_plain result s
              (shown ++ [UiSuccess (default 0%float (search_time s)) (last_query s)]))
    as (interp & -> & Hinterp).
  cbv beta iota. rewrite bind_run.
  exists ([UiSuccess (default 0%float (search_time s)) (last_query s)] ++ interp).
  assert (Forall outside_panel
            ([UiSuccess (default 0%float (search_time s)) (last_query s)]
             ++ interp)) as Hbefore.
  { apply Forall_app. split; [|done]. constructor; [|done]. by split; intros []. }
  destruct (is_dual result) eqn:Hd.
  - pose proof Hd as Hspec.
    apply is_dual_spec in Hspec as (_ & (e & He & _) & (m & Hm & _)).
    run_step. rewrite bind_run, He, attr_slice_has. cbn [lift].
    run_step. rewrite bind_run. cbn [lift]. rewrite bind_run, Hm, attr_slice_has.
    cbn [lift]. rewrite show_rows_run.
    destruct (show_details_plain s
      ((((((shown ++ [UiSuccess (default 0%float (search_time s)) (last_query s)])
           ++ interp) ++ [UiDualTrackHeading])
          ++ map (λ r, UiRow EntityColumn r.1 r.2) (enumerate (slice_to e n) 1))
         ++ map (λ r, UiRow MoodColumn r.1 r.2)
              (enumerate (slice_to m n) (Z.of_nat (length (slice_to e n)) + 1)))))
      as (more & ending & -> & Hmore).
    exists (UiDualTrackHeading
            :: map (λ r, UiRow EntityColumn r.1 r.2) (enumerate (slice_to e n) 1)
            ++ map (λ r, UiRow MoodColumn r.1 r.2)
                 (enumerate (slice_to m n)
                    (Z.of_nat (length (slice_to e n)) + 1))),
      more, ending.
    split; [|split; [done|split; [done|]]].
    2: { split; [done|]. intros _. by exists e, m. }
    rewrite <- !app_assoc. cbn [app]. by rewrite <- ?app_assoc.
  - run_step. rewrite show_rows_run.
    destruct (show_details_plain s
      ((((shown ++ [UiSuccess (default 0%float (search_time s)) (last_query s)])
           ++ interp)
          ++ [UiTopHeading (Z.min n (Z.of_nat (length (r :: rs))))])
         ++ map (λ r, UiRow MainColumn r.1 r.2)
              (enumerate (slice_to (r :: rs) n) 1)))
      as (more & ending & -> & Hmore).
    exists (UiTopHeading (Z.min n (Z.of_nat (length (r :: rs))))
            :: map (λ r, UiRow MainColumn r.1 r.2)
                 (enumerate (slice_to (r :: rs) n) 1)),
      more, ending.
    split; [|split; [done|split; [done|]]].
    2: { by split. }
    rewrite <- !app_assoc. cbn [app]. by rewrite <- ?app_assoc.
Qed.

(** The display of a stored result without recommendations. *)
Lemma display_nothing search_clicked s result shown :
  search_results s = Some result → ¬ has_recommendations result →
  ∃ more ending,
    display_results recommender inp search_clicked s shown
    = (s, shown ++ more, ending)
    ∧ Forall outside_panel more.
Proof.
  intros Hs Hno. unfold display_results. rewrite bind_run.
  unfold get_state at 1. cbv beta iota. rewrite Hs, bind_run.
  destruct (recommendations result) as [| |[|r rs]] eqn:Hl; cbn [getattr lift].
  - exists [], (inl (Crashed (AttributeError "recommendations"))).
    by rewrite app_nil_r.
  - eexists [_], _. split; [reflexivity|]. constructor; [|done]. by split; intros [].
  - eexists [_], _. split; [reflexivity|]. constructor; [|done]. by split; intros [].
  - destruct Hno. by exists (r :: rs).
Qed.

End DisplayFacts.

Section SearchPageFacts.
Context `{Pandas}.
Variable recommender : Recommender.
Variable inp : Inputs.

Lemma display_results_appends search_clicked :
  appends (λ _, True) (display_results recommender inp search_clicked).
Proof.
  unfold display_results. apply appends_bind; [apply appends_get|intros s].
  destruct (search_results s) as [result|];
    [|by apply appends_when, appends_emit].
  apply appends_bind; [apply appends_lift|intros [[|r rs]|]];
    try by apply appends_emit.
  apply appends_bind; [by apply appends_emit|intros _].
  apply appends_bind.
  { intros s' shown.
    destruct (show_interpretation_run result s' shown) as (more & -> & _).
    exists more, (inr ()). split; [done|]. by apply Forall_true. }
  intros _. apply appends_bind;
    [|intros _; eapply appends_weaken, show_details_appends; done].
  destruct (is_dual result).
  - apply appends_bind; [by apply appends_emit|intros _].
    apply appends_bind; [apply appends_lift|intros e].
    apply appends_bind; [by apply appends_for_each; intros; apply appends_emit|].
    intros _. apply appends_bind; [apply appends_lift|intros e'].
    apply appends_bind; [apply appends_lift|intros m].
    by apply appends_for_each; intros; apply appends_emit.
  - apply appends_bind; [by apply appends_emit|intros _].
    by apply appends_for_each; intros; apply appends_emit.
Qed.

(** The example buttons do nothing when none of them is pressed. *)
Lemma examples_not_pressed s shown :
  (∀ eq, pressed inp ≠ Some (BtnExample eq)) →
  for_each example_queries (λ eq,
    when (st_button inp (BtnExample eq))
      (modify (set_query_input eq);;
       modify (set_search_results None);;
       modify (set_all_movies_list []))) s shown
  = (s, shown, inr ()).
Proof.
  intros Hno. unfold example_queries, st_button. cbn [for_each].
  rewrite !bind_run. by rewrite !bool_decide_eq_false_2 by apply Hno.
Qed.

End SearchPageFacts.

Section RunFacts.
Context `{Pandas}.
Variable recommender : Recommender.
Variable inp : Inputs.

Lemma run_search_page s :
  page s = "search" → run recommender inp s = page_search recommender inp s [].
Proof.
  intros Hpage. unfold run, main. rewrite bind_run. unfold get_state at 1.
  cbv beta iota zeta. by rewrite Hpage.
Qed.

Lemma sidebar_idle s shown :
  w_appearance inp = appearance s →
  (∀ eq, pressed inp ≠ Some (BtnExample eq)) →
  pressed inp ≠ Some BtnLogOut →
  sidebar inp s shown = (s, shown, inr ()).
Proof.
  intros Happ Hex Hout. unfold sidebar. rewrite bind_run. unfold get_state at 1.
  cbv beta iota. rewrite Happ, String.eqb_refl. cbn [negb when].
  rewrite bind_run. cbn [mret script_ret]. cbv beta iota.
  rewrite bind_run, examples_not_pressed by done.
  unfold st_button. by rewrite bool_decide_eq_false_2.
Qed.

Lemma random_button_idle s shown :
  pressed inp ≠ Some BtnRandom →
  random_button inp s shown = (s, shown, inr ()).
Proof.
  intros Hno. unfold random_button, st_button.
  by rewrite bool_decide_eq_false_2.
Qed.

(** Log Out on the search page: the results are dropped, the movie list
    stays. *)
Lemma logout_run s :
  page s = "search" → w_appearance inp = appearance s →
  pressed inp = Some BtnLogOut →
  run recommender inp s
  = (set_search_results None
       (set_page "welcome" (set_user_info ∅ (set_logged_in false s))),
     [], inl Rerun).
Proof.
  intros Hpage Happ Hout. rewrite run_search_page by done.
  unfold page_search. rewrite bind_run. unfold sidebar. rewrite bind_run.
  unfold get_state at 1. cbv beta iota.
  rewrite Happ, String.eqb_refl. cbn [negb when].
  rewrite bind_run. cbn [mret script_ret]. cbv beta iota.
  rewrite bind_run, examples_not_pressed by (by rewrite Hout).
  unfold st_button. by rewrite Hout, bool_decide_eq_true_2.
Qed.

(** A search the engine fails: nothing is stored, the error is shown and
    the display pass goes on with the state as it was. *)
Lemma failed_search_run s e :
  page s = "search" → w_appearance inp = appearance s →
  pressed inp = Some BtnSearch → w_query inp ≠ "" →
  recommend recommender (w_query inp) (w_preference_mode inp) (w_top_n inp)
  = Raised e →
  run recommender inp s
  = display_results recommender inp true s [UiException e; UiTraceback e].
Proof.
  intros Hpage Happ Hpressed Hquery Hraise. rewrite run_search_page by done.
  unfold page_search. rewrite bind_run, sidebar_idle by (by rewrite ?Hpressed).
  rewrite bind_run, random_button_idle by (by rewrite Hpressed).
  rewrite bind_run. unfold run_search, st_button.
  rewrite Hpressed, bool_decide_eq_true_2, truthy_str_true by done.
  cbn [andb when]. unfold try_except. rewrite bind_run, Hraise. done.
Qed.

(** A search the engine answers with [None]: [None] is stored as the
    results, the movie list is not built and stays, and the attribute
    error is shown. *)
Lemma unanswered_search_run s :
  page s = "search" → w_appearance inp = appearance s →
  pressed inp = Some BtnSearch → w_query inp ≠ "" →
  recommend recommender (w_query inp) (w_preference_mode inp) (w_top_n inp)
  = Returned None →
  run recommender inp s
  = (set_top_n (w_top_n inp)
       (set_search_time (clock_elapsed inp)
          (set_last_query (w_query inp) (set_search_results None s))),
     [UiException (AttributeError "recommendations");
      UiTraceback (AttributeError "recommendations")],
     inr ()).
Proof.
  intros Hpage Happ Hpressed Hquery Hnone. rewrite run_search_page by done.
  unfold page_search. rewrite bind_run, sidebar_idle by (by rewrite ?Hpressed).
  rewrite bind_run, random_button_idle by (by rewrite Hpressed).
  rewrite bind_run. unfold run_search, st_button.
  rewrite Hpressed, bool_decide_eq_true_2, truthy_str_true by done.
  cbn [andb when]. unfold try_except. rewrite bind_run, Hnone. done.
Qed.

End RunFacts.

(* ===================================================================== *)
(** * The variant of a result *)
(* ===================================================================== *)

(** C2.  A result is dual-track exactly when [dual_track_mode] is there
    and true and both [entity_track] and [mood_track] are there and
    non-empty; with the flag set and one track empty it is not.  The movie
    list is built from the two tracks of a dual-track result and from
    [recommendations] of every other.  The display of a stored result
    shows the dual-track panel exactly when the result is dual-track and
    has recommendations, with the rows of the two tracks; it shows the
    single list exactly when the result is not dual-track and has
    recommendations, with the rows of [recommendations]; and it shows no
    panel and no row when the result has no recommendations. *)
Theorem C2_dual_iff_flag_and_both_tracks `{Pandas} :
  (∀ result,
     is_dual result = true ↔
     dual_track_mode result = Has true
     ∧ (∃ e, entity_track result = Has e ∧ e ≠ [])
     ∧ (∃ m, mood_track result = Has m ∧ m ≠ []))
  ∧ (∀ result,
       dual_track_mode result = Has true →
       entity_track result = Has [] ∨ mood_track result = Has [] →
       is_dual result = false)
  ∧ (∀ result top_n,
       (is_dual result = true → ∃ e m,
          entity_track result = Has e ∧ mood_track result = Has m
          ∧ build_all_movies result top_n
            = Returned (entries (slice_to e top_n) 1
                        ++ entries (slice_to m top_n)
                             (Z.of_nat (length (slice_to e top_n)) + 1)))
       ∧ (is_dual result = false →
          build_all_movies result top_n
          = match recommendations result with
            | Absent => Raised (AttributeError "recommendations")
            | IsNone => Raised (TypeError "'NoneType' object is not subscriptable")
            | Has l => Returned (entries (slice_to l top_n) 1)
            end))
  ∧ (∀ recommender inp search_clicked s result shown,
       search_results s = Some result →
       let n := default 10%Z (top_n s) in
       ∃ more ending,
         display_results recommender inp search_clicked s shown
         = (s, shown ++ more, ending)
         ∧ (UiDualTrackHeading ∈ more
            ↔ is_dual result = true ∧ has_recommendations result)
         ∧ ((∃ k, UiTopHeading k ∈ more)
            ↔ is_dual result = false ∧ has_recommendations result)
         ∧ (is_dual result = true → has_recommendations result → ∃ e m,
            entity_track result = Has e ∧ mood_track result = Has m
            ∧ rows_of more
              = track_rows EntityColumn (slice_to e n) 1
                ++ track_rows MoodColumn (slice_to m n)
                     (Z.of_nat (length (slice_to e n)) + 1))
         ∧ (is_dual result = false →
            ∀ l, recommendations result = Has l → l ≠ [] →
            rows_of more = track_rows MainColumn (slice_to l n) 1)
         ∧ (¬ has_recommendations result → rows_of more = [])).
Proof.
  split; [apply is_dual_spec|]. split; [|split].
  - intros result Hflag Hempty. destruct (is_dual result) eqn:Hd; [|done].
    apply is_dual_spec in Hd as (_ & (e & He & Hne) & (m & Hm & Hnm)).
    destruct Hempty as [Hempty|Hempty]; congruence.
  - intros result top_n. split; [|apply build_single].
    intros Hd. pose proof Hd as Hspec.
    apply is_dual_spec in Hspec as (_ & (e & He & _) & (m & Hm & _)).
    exists e, m. do 2 (split; [done|]). by apply build_dual.
  - intros recommender inp search_clicked s result shown Hs n.
    destruct (recommendations result) as [| |[|r rs]] eqn:Hl.
    1-3: assert (¬ has_recommendations result) as Hno
           by (intros (l & Hl' & Hne); congruence);
         destruct (display_nothing recommender inp search_clicked s result
                     shown Hs Hno) as (more & ending & Hrun & Hmore);
         exists more, ending; split; [done|];
         split; [split; [intros Hin; by eapply heading_outside in Hin
                        |by intros [_ Hhas]]|];
         split; [split; [intros [k Hin]; by eapply heading_outside in Hin
                        |by intros [_ Hhas]]|];
         split; [done|]; split; [intros _ l Hl'; congruence|];
         intros _; apply rows_of_none; eapply Forall_impl; [done|];
         by intros u [].
    assert (has_recommendations result) as Hhas by (by exists (r :: rs)).
    destruct (display_parts recommender inp search_clicked s result (r :: rs)
                shown Hs Hl) as
      (before & panel & after & ending & Hrun & Hbefore & Hafter & Hsingle & Hdual);
      [done|].
    assert (rows_of before = []) as Hrb
      by (apply rows_of_none; eapply Forall_impl; [done|]; by intros u []).
    assert (rows_of after = []) as Hra
      by (apply rows_of_none; eapply Forall_impl; [done|]; by intros u []).
    exists (before ++ panel ++ after), ending. split; [done|].
    destruct (is_dual result) eqn:Hd.
    + destruct Hdual as (e & m & He & Hm & ->); [done|].
      split; [split; [done|intros _]|].
      { apply elem_of_app. right. apply elem_of_app. left. left. }
      split; [split; [|by intros []]|].
      { intros [k Hin]. exfalso.
        apply elem_of_app in Hin as [Hin|Hin];
          [by eapply heading_outside in Hin|].
        apply elem_of_app in Hin as [Hin|Hin];
          [|by eapply heading_outside in Hin].
        apply elem_of_cons in Hin as [Hin|Hin]; [done|].
        apply elem_of_app in Hin as [Hin|Hin];
          by eapply heading_not_a_row in Hin. }
      split; [|split; [done|by intros []]].
      intros _ _. exists e, m. do 2 (split; [done|]).
      rewrite !rows_of_app, rows_of_cons, !rows_of_app, !rows_of_rows, Hrb, Hra.
      by rewrite app_nil_r.
    + rewrite Hsingle by done.
      split; [split; [|by intros []]|].
      { intros Hin. exfalso.
        apply elem_of_app in Hin as [Hin|Hin];
          [by eapply heading_outside in Hin|].
        apply elem_of_app in Hin as [Hin|Hin];
          [|by eapply heading_outside in Hin].
        apply elem_of_cons in Hin as [Hin|Hin]; [done|].
        by eapply heading_not_a_row in Hin. }
      split; [split; [intros _; done|intros _]|].
      { eexists. apply elem_of_app. right. apply elem_of_app. left. left. }
      split; [done|]. split; [|by intros []].
      intros _ l Hl' _. injection Hl' as <-.
      rewrite !rows_of_app, rows_of_cons, !rows_of_rows, Hrb, Hra.
      by rewrite app_nil_r.
Qed.

Lemma C2_dual_iff_flag_and_both_tracks_witness :
  is_dual flagged_single_result = false
  ∧ build_all_movies flagged_single_result 10 = Returned (entries two_movies 1)
  ∧ ∃ e m, entity_track dual_result = Has e ∧ mood_track dual_result = Has m
           ∧ build_all_movies dual_result 5
             = Returned (entries (slice_to e 5) 1
                         ++ entries (slice_to m 5)
                              (Z.of_nat (length (slice_to e 5)) + 1)).
Proof.
  destruct (@C2_dual_iff_flag_and_both_tracks literal_pandas)
    as (_ & Hone_empty & Hbuild & _).
  assert (is_dual flagged_single_result = false) as Hd.
  { apply Hone_empty; [reflexivity|]. by right. }
  split; [exact Hd|]. split.
  - destruct (Hbuild flagged_single_result 10%Z) as [_ Hsingle].
    by rewrite Hsingle.
  - destruct (Hbuild dual_result 5%Z) as [Hdual _]. by apply Hdual.
Defined.

(** C2, as the specification states it, fails for the display of a result
    whose flag is set and whose two tracks are non-empty when its
    [recommendations] are empty: the movie list is built from the two
    tracks, and the display shows the warning and neither panel nor
    rows. *)
Lemma C2_dual_result_not_displayed_as_dual :
  dual_track_mode dual_without_recommendations = Has true
  ∧ entity_track dual_without_recommendations = Has seven_movies
  ∧ mood_track dual_without_recommendations = Has two_movies
  ∧ seven_movies ≠ [] ∧ two_movies ≠ []
  ∧ build_all_movies dual_without_recommendations 10
    = Returned (entries seven_movies 1 ++ entries two_movies 8)
  ∧ @display_results literal_pandas sample_recommender idle false
      (set_search_results (Some dual_without_recommendations) searched_state) []
    = (set_search_results (Some dual_without_recommendations) searched_state,
       [UiWarning msg_no_movies], inr ()).
Proof. repeat split; (reflexivity || discriminate). Qed.

(* ===================================================================== *)
(** * The search action and the session state *)
(* ===================================================================== *)

(** ** Which runs keep the session invariant *)

Lemma keeps_ret {A} (a : A) : keeps_results (mret a : script A).
Proof. by intros s shown. Qed.

Lemma keeps_emit u : keeps_results (emit u).
Proof. by intros s shown. Qed.

Lemma keeps_rerun : keeps_results st_rerun.
Proof. by intros s shown. Qed.

Lemma keeps_modify (f : SessionState → SessionState) :
  (∀ s, search_results (f s) = search_results s
        ∧ all_movies_list (f s) = all_movies_list s) →
  keeps_results (modify f).
Proof. intros Hf s shown. apply Hf. Qed.

Lemma keeps_bind {A B} (m : script A) (k : A → script B) :
  keeps_results m → (∀ a, keeps_results (k a)) → keeps_results (m ≫= k).
Proof.
  intros Hm Hk s shown. rewrite bind_run. specialize (Hm s shown).
  destruct (m s shown) as [[s' shown'] [st|a]]; simpl in *; [done|].
  destruct Hm as [Hm1 Hm2], (Hk a s' shown') as [H1 H2]. split; congruence.
Qed.

Lemma keeps_when b (m : script ()) : keeps_results m → keeps_results (when b m).
Proof. intros Hm. destruct b; [done|]. apply keeps_ret. Qed.

Lemma keeps_navigate p : keeps_results (navigate_to p).
Proof.
  apply keeps_bind; [by apply keeps_modify|]. intros _. apply keeps_rerun.
Qed.

Lemma keeps_show_error_msg m : keeps_results (show_error_msg m).
Proof. destruct m; [apply keeps_when, keeps_emit|apply keeps_ret]. Qed.

#[local] Hint Resolve keeps_ret keeps_emit keeps_rerun keeps_when
  keeps_navigate keeps_show_error_msg : script.

Lemma keeps_preserves {A} (m : script A) :
  keeps_results m → preserves list_empty_without_results m.
Proof.
  intros Hm s shown Hinv. destruct (Hm s shown) as [H1 H2].
  unfold list_empty_without_results in *. rewrite H1, H2. done.
Qed.

Lemma appends_keeps {A} P (m : script A) : appends P m → keeps_results m.
Proof.
  intros Hm s shown. by destruct (Hm s shown) as (more & ending & -> & _).
Qed.

Lemma preserves_bind {A B} I (m : script A) (k : A → script B) :
  preserves I m → (∀ a, preserves I (k a)) → preserves I (m ≫= k).
Proof.
  intros Hm Hk s shown Hs. rewrite bind_run. specialize (Hm s shown Hs).
  destruct (m s shown) as [[s' shown'] [st|a]]; simpl in *; [done|].
  by apply Hk.
Qed.

Lemma preserves_for_each {A} I (l : list A) (body : A → script ()) :
  (∀ x, preserves I (body x)) → preserves I (for_each l body).
Proof.
  intros Hbody. induction l as [|x l IH]; simpl; [by intros s shown|].
  apply preserves_bind; [apply Hbody|]. by intros _.
Qed.

Section InvariantFacts.
Context `{Pandas}.
Variable recommender : Recommender.
Variable inp : Inputs.

Lemma keeps_before_search :
  keeps_results (page_welcome inp) ∧ keeps_results (page_auth_menu inp)
  ∧ keeps_results (page_signup inp) ∧ keeps_results (page_login inp)
  ∧ keeps_results (page_profile inp).
Proof.
  unfold page_welcome, page_auth_menu, page_signup, page_login, page_profile.
  repeat split;
    repeat first
      [ apply keeps_bind; [|intros _]
      | apply keeps_when
      | by apply keeps_modify
      | by auto with script ].
Qed.

(** An example button and the Random button clear both fields together. *)
Lemma example_loop_clears eq (l : list string) s shown :
  pressed inp = Some (BtnExample eq) →
  (search_results s = None ∧ all_movies_list s = []) ∨ eq ∈ l →
  ∃ s', for_each l (λ eq,
          when (st_button inp (BtnExample eq))
            (modify (set_query_input eq);;
             modify (set_search_results None);;
             modify (set_all_movies_list []))) s shown
        = (s', shown, inr ())
        ∧ search_results s' = None ∧ all_movies_list s' = [].
Proof.
  intros Hp. revert s. induction l as [|x l IH]; intros s Hs.
  - destruct Hs as [Hs|Hin]; [|by apply elem_of_nil in Hin].
    exists s. split; [reflexivity|exact Hs].
  - cbn [for_each]. rewrite bind_run. unfold st_button at 1. rewrite Hp.
    case_bool_decide as Hx.
    + apply (IH (set_all_movies_list []
                   (set_search_results None (set_query_input x s)))).
      by left.
    + apply IH. destruct Hs as [Hs|Hin]; [by left|right].
      apply elem_of_cons in Hin as [->|Hin]; done.
Qed.

Lemma example_button_clears eq s shown :
  eq ∈ example_queries → pressed inp = Some (BtnExample eq) →
  w_appearance inp = appearance s →
  ∃ s', sidebar inp s shown = (s', shown, inr ())
        ∧ search_results s' = None ∧ all_movies_list s' = [].
Proof.
  intros Hin Hp Happ. unfold sidebar. rewrite bind_run. unfold get_state at 1.
  cbv beta iota. rewrite Happ, String.eqb_refl. cbn [negb when].
  rewrite bind_run. cbn [mret script_ret]. cbv beta iota. rewrite bind_run.
  destruct (example_loop_clears eq example_queries s shown Hp) as (s' & -> & Hs');
    [by right|].
  unfold st_button. rewrite Hp, bool_decide_eq_false_2 by done.
  by exists s'.
Qed.

Lemma random_button_clears s shown :
  pressed inp = Some BtnRandom →
  ∃ s', random_button inp s shown = (s', shown, inl Rerun)
        ∧ search_results s' = None ∧ all_movies_list s' = [].
Proof.
  intros Hp. unfold random_button, st_button.
  rewrite Hp, bool_decide_eq_true_2 by done. by eexists.
Qed.

Lemma preserves_sidebar :
  pressed inp ≠ Some BtnLogOut →
  preserves list_empty_without_results (sidebar inp).
Proof.
  intros Hout. unfold sidebar.
  apply preserves_bind; [by apply keeps_preserves, (appends_keeps (λ _, True)),
                            appends_get|intros s0].
  apply preserves_bind.
  { apply keeps_preserves, keeps_when, keeps_bind; [by apply keeps_modify|].
    intros _. apply keeps_rerun. }
  intros _. apply preserves_bind.
  { apply preserves_for_each. intros eq s shown Hs.
    destruct (st_button inp (BtnExample eq)); [by intros _|done]. }
  intros _. unfold st_button. rewrite bool_decide_eq_false_2 by done.
  by intros s shown.
Qed.

Lemma preserves_random_button :
  preserves list_empty_without_results (random_button inp).
Proof.
  intros s shown Hs. unfold random_button.
  destruct (st_button inp BtnRandom); [by intros _|done].
Qed.

(** A search keeps the invariant when the engine raises or returns a
    result object. *)
Lemma preserves_run_search search_clicked query :
  recommend recommender query (w_preference_mode inp) (w_top_n inp)
  ≠ Returned None →
  preserves list_empty_without_results
    (run_search recommender inp search_clicked query).
Proof.
  intros Hanswer s shown Hs. unfold run_search.
  destruct (search_clicked && truthy_str query); [|done].
  unfold when, try_except. rewrite bind_run.
  destruct (recommend recommender query (w_preference_mode inp) (w_top_n inp))
    as [e|[result|]]; [done| |done].
  cbn [lift]. rewrite !bind_run. cbn [modify build_for].
  by destruct (build_all_movies result (w_top_n inp)).
Qed.

(** Every run in which Log Out is not pressed and the engine does not
    answer [None] keeps the invariant. *)
Lemma invariant_without_logout s :
  pressed inp ≠ Some BtnLogOut →
  recommend recommender (w_query inp) (w_preference_mode inp) (w_top_n inp)
  ≠ Returned None →
  list_empty_without_results s →
  list_empty_without_results (run recommender inp s).1.1.
Proof.
  intros Hout Hanswer.
  assert (preserves list_empty_without_results (main recommender inp)) as Hmain;
    [|by apply Hmain].
  unfold main. destruct keeps_before_search as (Hw & Ha & Hs & Hl & Hp).
  apply preserves_bind; [by apply keeps_preserves, (appends_keeps (λ _, True)),
                            appends_get|intros s0].
  repeat (case_match; [by apply keeps_preserves|]).
  case_match; [|by apply keeps_preserves].
  unfold page_search.
  apply preserves_bind; [by apply preserves_sidebar|intros _].
  apply preserves_bind; [apply preserves_random_button|intros _].
  apply preserves_bind; [by apply preserves_run_search|intros _].
  eapply keeps_preserves, appends_keeps, display_results_appends.
Qed.

End InvariantFacts.

(** C6.  When [recommend] raises during a search, the run leaves the
    session state as it was (so [search_results], [all_movies_list],
    [last_query] and [page] are unchanged), shows the error and its
    traceback first, and goes on to display the results stored before. *)
Theorem C6_engine_failure_keeps_state `{Pandas}
    (recommender : Recommender) (inp : Inputs) (s : SessionState) (e : exn) :
  page s = "search" → w_appearance inp = appearance s →
  pressed inp = Some BtnSearch → w_query inp ≠ "" →
  recommend recommender (w_query inp) (w_preference_mode inp) (w_top_n inp)
  = Raised e →
  ∃ rest ending,
    run recommender inp s = (s, UiException e :: UiTraceback e :: rest, ending)
    ∧ search_results (run recommender inp s).1.1 = search_results s
    ∧ all_movies_list (run recommender inp s).1.1 = all_movies_list s
    ∧ last_query (run recommender inp s).1.1 = last_query s
    ∧ page (run recommender inp s).1.1 = page s
    ∧ run recommender inp s
      = display_results recommender inp true s [UiException e; UiTraceback e].
Proof.
  intros Hpage Happ Hpressed Hquery Hraise.
  rewrite (failed_search_run recommender inp s e) by done.
  destruct (display_results_appends recommender inp true s
              [UiException e; UiTraceback e]) as (rest & ending & -> & _).
  by exists rest, ending.
Qed.

Lemma C6_engine_failure_keeps_state_witness :
  ∃ rest ending,
    @run literal_pandas failing_recommender
      (press BtnSearch (typing "" "" "heist movies" idle)) searched_state
    = (searched_state,
       UiException (EngineFailure "index not loaded")
       :: UiTraceback (EngineFailure "index not loaded") :: rest,
       ending).
Proof.
  destruct (@C6_engine_failure_keeps_state literal_pandas failing_recommender
              (press BtnSearch (typing "" "" "heist movies" idle))
              searched_state (EngineFailure "index not loaded"))
    as (rest & ending & Hrun & _); [reflexivity|reflexivity|reflexivity|done|reflexivity|].
  by exists rest, ending.
Defined.

Lemma reachable_run_all `{Pandas} recommender inps s :
  reachable recommender s → reachable recommender (run_all recommender inps s).
Proof.
  revert s. induction inps as [|inp inps IH]; intros s Hs; [done|].
  simpl. apply IH. by constructor.
Qed.

(** C7 fails on Log Out.  After a search with results, pressing Log Out
    leads to a reachable state with no search results and a movie list
    of nine entries: the list is not cleared with the results. *)
Theorem C7_logout_keeps_movie_list :
  let s := @run_all literal_pandas sample_recommender
             (visit_and_search ++ [press BtnLogOut idle]) init_session_state in
  @reachable literal_pandas sample_recommender s
  ∧ page s = "welcome"
  ∧ search_results s = None
  ∧ map movie_option (all_movies_list s)
    = [ "1. Alien"; "2. Brazil"; "3. Casablanca"; "4. Dune"; "5. Eraserhead";
        "6. Fargo"; "7. Gattaca"; "8. Heat"; "9. Ikiru" ]
  ∧ ¬ list_empty_without_results s.
Proof.
  intros s. split; [apply reachable_run_all, reachable_init|].
  split; [by vm_compute|]. split; [by vm_compute|]. split; [by vm_compute|].
  intros Hinv. assert (search_results s = None) as Hnone by by vm_compute.
  apply Hinv in Hnone. by vm_compute in Hnone.
Qed.

(** C10.  The display of a stored result looks at [recommendations]
    first: without the attribute it stops with an attribute error before
    it shows anything, and with an empty (or null) sequence it shows the
    'No movies found' warning and nothing else, also when the flag and
    both tracks of a dual-track result are there. *)
Theorem C10_display_gated_on_recommendations `{Pandas}
    (recommender : Recommender) (inp : Inputs) (search_clicked : bool)
    (s : SessionState) (result : RecommendationResult) (shown : list ui) :
  search_results s = Some result →
  (recommendations result = Absent →
     display_results recommender inp search_clicked s shown
     = (s, shown, inl (Crashed (AttributeError "recommendations"))))
  ∧ (recommendations result = Has [] ∨ recommendations result = IsNone →
     display_results recommender inp search_clicked s shown
     = (s, shown ++ [UiWarning msg_no_movies], inr ()))
  ∧ (is_dual result = true → recommendations result = Has [] →
     display_results recommender inp search_clicked s shown
     = (s, shown ++ [UiWarning msg_no_movies], inr ())
     ∧ rows_of [UiWarning msg_no_movies] = []).
Proof.
  intros Hs.
  assert (display_results recommender inp search_clicked s shown
          = match recommendations result with
            | Absent => (s, shown, inl (Crashed (AttributeError "recommendations")))
            | IsNone | Has [] => (s, shown ++ [UiWarning msg_no_movies], inr ())
            | Has (r :: rs) =>
                display_results recommender inp search_clicked s shown
            end) as Hcases.
  { destruct (recommendations result) as [| |[|r rs]] eqn:Ha; [..|done];
      unfold display_results; rewrite bind_run; unfold get_state at 1;
      cbv beta iota; by rewrite Hs, bind_run, Ha. }
  split; [|split].
  - intros Ha. by rewrite Hcases, Ha.
  - intros [Ha|Ha]; by rewrite Hcases, Ha.
  - intros _ Ha. by rewrite Hcases, Ha.
Qed.

Lemma C10_display_gated_on_recommendations_witness :
  is_dual dual_without_recommendations = true
  ∧ @display_results literal_pandas sample_recommender idle false
      (set_search_results (Some dual_without_recommendations) searched_state) []
    = (set_search_results (Some dual_without_recommendations) searched_state,
       [UiWarning msg_no_movies], inr ())
  ∧ @display_results literal_pandas sample_recommender idle false
      (set_search_results (Some result_without_attribute) searched_state) []
    = (set_search_results (Some result_without_attribute) searched_state,
       [], inl (Crashed (AttributeError "recommendations"))).
Proof.
  split; [reflexivity|]. split.
  - apply (@C10_display_gated_on_recommendations literal_pandas
             sample_recommender idle false _ dual_without_recommendations []);
      [reflexivity|reflexivity|reflexivity].
  - apply (@C10_display_gated_on_recommendations literal_pandas
             sample_recommender idle false _ result_without_attribute []);
      reflexivity.
Defined.


(* ===================================================================== *)
(** * The page flow: properties *)
(* ===================================================================== *)

Section Moves.
Context {R : SessionState → SessionState → Prop}.
Context `{!Reflexive R, !Transitive R}.

Lemma moves_ret {A} (a : A) : moves R (mret a : script A).
Proof. by intros s shown. Qed.

Lemma moves_emit u : moves R (emit u).
Proof. by intros s shown. Qed.

Lemma moves_rerun : moves R st_rerun.
Proof. by intros s shown. Qed.

Lemma moves_get : moves R get_state.
Proof. by intros s shown. Qed.

Lemma moves_lift {A} (o : outcome A) : moves R (lift o).
Proof. intros s shown. by destruct o. Qed.

Lemma moves_modify (f : SessionState → SessionState) :
  (∀ s, R s (f s)) → moves R (modify f).
Proof. intros Hf s shown. apply Hf. Qed.

Lemma moves_bind {A B} (m : script A) (k : A → script B) :
  moves R m → (∀ a, moves R (k a)) → moves R (m ≫= k).
Proof.
  intros Hm Hk s shown. rewrite bind_run. specialize (Hm s shown).
  destruct (m s shown) as [[s' shown'] [st|a]]; simpl in *; [done|].
  etrans; [exact Hm|apply Hk].
Qed.

Lemma moves_when b (m : script ()) : moves R m → moves R (when b m).
Proof. intros Hm. destruct b; [done|]. apply moves_ret. Qed.

Lemma moves_for_each {A} (l : list A) (body : A → script ()) :
  (∀ x, moves R (body x)) → moves R (for_each l body).
Proof.
  intros Hbody. induction l as [|x l IH]; simpl; [apply moves_ret|].
  apply moves_bind; [apply Hbody|]. by intros _.
Qed.

Lemma moves_try_except (body : script ()) (handler : exn → script ()) :
  moves R body → (∀ e, moves R (handler e)) → moves R (try_except body handler).
Proof.
  intros Hbody Hhandler s shown. unfold try_except. specialize (Hbody s shown).
  destruct (body s shown) as [[s' shown'] [[e|]|a]]; simpl in *; [|done..].
  etrans; [exact Hbody|apply Hhandler].
Qed.

Lemma moves_appends {A} P (m : script A) : appends P m → moves R m.
Proof.
  intros Hm s shown. by destruct (Hm s shown) as (more & ending & -> & _).
Qed.

End Moves.

#[global] Instance step_to_refl targets : Reflexive (step_to targets).
Proof. intros s. by left. Qed.

#[global] Instance step_to_trans targets : Transitive (step_to targets).
Proof.
  intros s1 s2 s3 [H12|H12] [H23|H23]; unfold step_to;
    [left; congruence|by right|right; congruence|by right].
Qed.

(** A piece of the script that writes [page] through [navigate_to] only. *)
Ltac solve_moves :=
  repeat first
    [ apply moves_bind; [|intros ?]
    | apply moves_when
    | apply moves_for_each; intros ?
    | apply moves_try_except; [|intros ?]
    | apply moves_get | apply moves_emit | apply moves_rerun
    | apply moves_lift | apply moves_ret
    | apply moves_modify; intros ?;
      first [by left | by (right; repeat constructor)] ].

Section FlowFacts.
Context `{Pandas}.
Variable recommender : Recommender.
Variable inp : Inputs.

Lemma show_error_msg_moves targets m : moves (step_to targets) (show_error_msg m).
Proof. destruct m; unfold show_error_msg; solve_moves. Qed.

Lemma page_welcome_moves : moves (step_to ["auth_menu"]) (page_welcome inp).
Proof. unfold page_welcome, navigate_to. solve_moves. Qed.

Lemma page_auth_menu_moves :
  moves (step_to ["login"; "signup"; "welcome"]) (page_auth_menu inp).
Proof. unfold page_auth_menu, navigate_to. solve_moves. Qed.

Lemma page_signup_moves :
  moves (step_to ["auth_menu"; "profile"]) (page_signup inp).
Proof.
  unfold page_signup, navigate_to.
  apply moves_bind; [apply show_error_msg_moves|intros _]. solve_moves.
Qed.

Lemma page_login_moves :
  moves (step_to ["auth_menu"; "profile"]) (page_login inp).
Proof.
  unfold page_login, navigate_to.
  apply moves_bind; [apply show_error_msg_moves|intros _]. solve_moves.
Qed.

Lemma page_profile_moves :
  moves (step_to ["auth_menu"; "search"]) (page_profile inp).
Proof. unfold page_profile, navigate_to. solve_moves. Qed.

Lemma page_search_moves :
  moves (step_to ["welcome"]) (page_search recommender inp).
Proof.
  unfold page_search.
  apply moves_bind; [unfold sidebar; solve_moves|intros _].
  apply moves_bind; [unfold random_button; solve_moves|intros _].
  apply moves_bind; [unfold run_search; solve_moves|intros _].
  eapply moves_appends, display_results_appends.
Qed.

End FlowFacts.

Lemma next_pages_known p q : q ∈ next_pages p → q ∈ known_pages.
Proof.
  unfold next_pages, known_pages. intros Hq.
  repeat match type of Hq with context [if ?b then _ else _] => destruct b end;
    repeat (apply elem_of_cons in Hq as [->|Hq]);
    try (by apply elem_of_nil in Hq); repeat constructor.
Qed.

Lemma run_page_flow `{Pandas} recommender inp s :
  step_to (next_pages (page s)) s (run recommender inp s).1.1.
Proof.
  unfold run, main. rewrite bind_run. unfold get_state at 1.
  cbv beta iota zeta. unfold next_pages.
  repeat case_match;
    first [ apply page_welcome_moves | apply page_auth_menu_moves
          | apply page_signup_moves | apply page_login_moves
          | apply page_profile_moves | apply page_search_moves ].
Qed.

(** X1.  One run changes the page only along the edges of the flow:
    welcome to auth_menu; auth_menu to login, signup or welcome; signup
    and login to auth_menu or profile; profile to auth_menu or search;
    search to welcome; and a page the router does not know to auth_menu,
    as from the welcome page. *)
Theorem X1_page_flow `{Pandas} (recommender : Recommender) (inp : Inputs)
    (s : SessionState) :
  page (run recommender inp s).1.1 = page s
  ∨ page (run recommender inp s).1.1 ∈ next_pages (page s).
Proof. apply run_page_flow. Qed.

(** X2.  Every state a session can reach is on one of the six pages of
    the flow: the fallback of the router for other pages is never used. *)
Theorem X2_reachable_pages_known `{Pandas} (recommender : Recommender)
    (s : SessionState) :
  reachable recommender s → page s ∈ known_pages.
Proof.
  induction 1 as [|inp s Hs IH]; [by constructor|].
  destruct (run_page_flow recommender inp s) as [->|Hnext]; [done|].
  by eapply next_pages_known.
Qed.

Lemma X2_reachable_pages_known_witness :
  page (@run_all literal_pandas sample_recommender visit_and_search
          init_session_state) ∈ known_pages.
Proof.
  apply (@X2_reachable_pages_known literal_pandas sample_recommender).
  apply reachable_run_all, reachable_init.
Defined.

(* ===================================================================== *)
(** * Signing up, logging in, and what stays behind the login *)
(* ===================================================================== *)

Lemma show_error_msg_run m s shown :
  ∃ more, show_error_msg m s shown = (s, shown ++ more, inr ()).
Proof.
  destruct m as [m|]; simpl; [|exists []; by rewrite app_nil_r].
  destruct (truthy_str m); [by exists [UiError m]|].
  exists []. by rewrite app_nil_r.
Qed.

(** The state the sign-up page leaves. *)
Lemma page_signup_state inp s shown :
  (page_signup inp s shown).1.1
  = if st_button inp BtnBack then set_page "auth_menu" s
    else if st_button inp BtnCreateAccount
            && can_create (w_email inp) (w_password inp) (w_verify_password inp)
    then set_page "profile"
           (set_logged_in true
              (set_user_info (<["email" := VStr (w_email inp)]> (user_info s)) s))
    else s.
Proof.
  unfold page_signup. rewrite bind_run.
  destruct (show_error_msg_run
              (signup_error_msg (w_email inp) (w_password inp)
                 (w_verify_password inp)) s shown) as (more & ->).
  cbv beta iota. rewrite bind_run.
  destruct (st_button inp BtnBack); [done|].
  by destruct (st_button inp BtnCreateAccount && can_create _ _ _).
Qed.

(** The state the login page leaves. *)
Lemma page_login_state inp s shown :
  (page_login inp s shown).1.1
  = if st_button inp BtnBack then set_page "auth_menu" s
    else if st_button inp BtnLogIn && can_login (w_email inp) (w_password inp)
    then set_page "profile"
           (set_logged_in true
              (set_user_info (<["email" := VStr (w_email inp)]> (user_info s)) s))
    else s.
Proof.
  unfold page_login. rewrite bind_run.
  destruct (show_error_msg_run (login_error_msg (w_email inp)) s shown)
    as (more & ->).
  cbv beta iota. rewrite bind_run.
  destruct (st_button inp BtnBack); [done|].
  by destruct (st_button inp BtnLogIn && can_login _ _).
Qed.

(** The state the profile page leaves. *)
Lemma page_profile_state inp s shown :
  (page_profile inp s shown).1.1
  = if st_button inp BtnBack then set_page "auth_menu" s
    else if st_button inp BtnNext
    then set_page "search" (set_user_info (w_profile inp ∪ user_info s) s)
    else s.
Proof.
  unfold page_profile. rewrite bind_run.
  destruct (st_button inp BtnBack); [done|].
  by destruct (st_button inp BtnNext).
Qed.

Lemma run_on_page `{Pandas} recommender inp s :
  run recommender inp s
  = (if String.eqb (page s) "welcome" then page_welcome inp
     else if String.eqb (page s) "auth_menu" then page_auth_menu inp
     else if String.eqb (page s) "signup" then page_signup inp
     else if String.eqb (page s) "login" then page_login inp
     else if String.eqb (page s) "profile" then page_profile inp
     else if String.eqb (page s) "search" then page_search recommender inp
     else page_welcome inp) s [].
Proof. reflexivity. Qed.

Lemma can_create_spec (email password verify_password : string) :
  can_create email password verify_password = true ↔
  validate_email email = true ∧ password = verify_password
  ∧ 6 ≤ String.length password.
Proof.
  unfold can_create, signup_error_msg, len_str, truthy_str. split.
  - intros Hc. repeat (apply andb_true_iff in Hc as [Hc ?]).
    destruct (String.eqb_spec email ""); [done|].
    destruct (String.eqb_spec password ""); [done|].
    destruct (String.eqb_spec verify_password ""); [done|].
    destruct (validate_email email); [|done].
    destruct (String.eqb_spec password verify_password); [|done].
    destruct (Z.ltb_spec (Z.of_nat (String.length password)) 6); [done|].
    repeat split; [done|lia].
  - intros (Hv & <- & Hlen). rewrite Hv, String.eqb_refl.
    destruct (String.eqb_spec email "") as [->|]; [done|].
    destruct (String.eqb_spec password "") as [->|]; [simpl in Hlen; lia|].
    destruct (Z.ltb_spec (Z.of_nat (String.length password)) 6); [lia|done].
Qed.

Lemma can_login_spec (email password : string) :
  can_login email password = true ↔
  validate_email email = true ∧ password ≠ "".
Proof.
  unfold can_login, login_error_msg, truthy_str. split.
  - intros Hc. repeat (apply andb_true_iff in Hc as [Hc ?]).
    destruct (String.eqb_spec email ""); [done|].
    destruct (String.eqb_spec password ""); [done|].
    by destruct (validate_email email).
  - intros (Hv & Hp). rewrite Hv.
    destruct (String.eqb_spec email "") as [->|]; [done|].
    by destruct (String.eqb_spec password "").
Qed.

(** X3.  The Create Account button leads from the sign-up page to the
    profile page exactly when the e-mail address is valid and the password
    has at least six characters and equals its confirmation; the run then
    logs the user in and stores the address.  In every other case the
    user stays logged in or out as before. *)
Theorem X3_signup_gate `{Pandas} (recommender : Recommender) (inp : Inputs)
    (s : SessionState) :
  page s = "signup" →
  let s' := (run recommender inp s).1.1 in
  (page s' = "profile" ↔
     pressed inp = Some BtnCreateAccount
     ∧ validate_email (w_email inp) = true
     ∧ w_password inp = w_verify_password inp
     ∧ 6 ≤ String.length (w_password inp))
  ∧ (page s' = "profile" →
     logged_in s' = true
     ∧ user_info s' !! "email" = Some (VStr (w_email inp)))
  ∧ (page s' ≠ "profile" →
     logged_in s' = logged_in s ∧ user_info s' = user_info s).
Proof.
  intros Hpage s'. subst s'. rewrite run_on_page, Hpage. cbn [String.eqb Ascii.eqb Bool.eqb].
  rewrite page_signup_state. unfold st_button.
  pose proof (can_create_spec (w_email inp) (w_password inp)
                (w_verify_password inp)) as Hspec.
  case_bool_decide as Hback; [rewrite Hback|].
  { simpl. split; [split; [done|by intros [[=] _]]|]. by split. }
  case_bool_decide as Hcreate; simpl.
  - destruct (can_create _ _ _); simpl.
    + split; [split; [intros _; split; [done|by apply Hspec]|done]|].
      split; [|done]. intros _. split; [done|]. by rewrite lookup_insert_eq.
    + rewrite Hpage. split; [split; [done|]|by split].
      intros (_ & Hc). by apply Hspec in Hc.
  - rewrite Hpage. split; [split; [done|by intros [? _]]|by split].
Qed.

Lemma X3_signup_gate_witness :
  let s' := (@run literal_pandas sample_recommender signup_form
               (set_page "signup" init_session_state)).1.1 in
  page s' = "profile" ∧ logged_in s' = true
  ∧ user_info s' !! "email" = Some (VStr "ann@example.org").
Proof.
  intros s'.
  destruct (@X3_signup_gate literal_pandas sample_recommender signup_form
              (set_page "signup" init_session_state))
    as (Hiff & Hprofile & _); [reflexivity|].
  assert (page s' = "profile") as Hp.
  { apply Hiff. repeat split; [reflexivity..|simpl; lia]. }
  split; [exact Hp|]. by apply Hprofile.
Defined.

(** X4.  The Log In button leads from the login page to the profile page
    exactly when the e-mail address is valid and some password is
    entered, whatever the password is; the run then logs the user in and
    stores the address. *)
Theorem X4_login_gate `{Pandas} (recommender : Recommender) (inp : Inputs)
    (s : SessionState) :
  page s = "login" →
  let s' := (run recommender inp s).1.1 in
  (page s' = "profile" ↔
     pressed inp = Some BtnLogIn
     ∧ validate_email (w_email inp) = true
     ∧ w_password inp ≠ "")
  ∧ (page s' = "profile" →
     logged_in s' = true
     ∧ user_info s' !! "email" = Some (VStr (w_email inp)))
  ∧ (page s' ≠ "profile" →
     logged_in s' = logged_in s ∧ user_info s' = user_info s).
Proof.
  intros Hpage s'. subst s'. rewrite run_on_page, Hpage.
  cbn [String.eqb Ascii.eqb Bool.eqb].
  rewrite page_login_state. unfold st_button.
  pose proof (can_login_spec (w_email inp) (w_password inp)) as Hspec.
  case_bool_decide as Hback; [rewrite Hback|].
  { simpl. split; [split; [done|by intros [[=] _]]|]. by split. }
  case_bool_decide as Hlogin; simpl.
  - destruct (can_login _ _); simpl.
    + split; [split; [intros _; split; [done|by apply Hspec]|done]|].
      split; [|done]. intros _. split; [done|]. by rewrite lookup_insert_eq.
    + rewrite Hpage. split; [split; [done|]|by split].
      intros (_ & Hc). by apply Hspec in Hc.
  - rewrite Hpage. split; [split; [done|by intros [? _]]|by split].
Qed.

Lemma X4_login_gate_witness :
  let s' := (@run literal_pandas sample_recommender
               (press BtnLogIn (typing "ann@example.org" "x" "" idle))
               (set_page "login" init_session_state)).1.1 in
  page s' = "profile" ∧ logged_in s' = true
  ∧ user_info s' !! "email" = Some (VStr "ann@example.org").
Proof.
  intros s'.
  destruct (@X4_login_gate literal_pandas sample_recommender
              (press BtnLogIn (typing "ann@example.org" "x" "" idle))
              (set_page "login" init_session_state))
    as (Hiff & Hprofile & _); [reflexivity|].
  assert (page s' = "profile") as Hp.
  { apply Hiff. repeat split; [reflexivity..|done]. }
  split; [exact Hp|]. by apply Hprofile.
Defined.

#[global] Instance account_kept_refl : Reflexive account_kept.
Proof. intros s. by left. Qed.

#[global] Instance account_kept_trans : Transitive account_kept.
Proof.
  intros s1 s2 s3 [(Hp & Hl & Hu)|H12] [(Hp' & Hl' & Hu')|H23];
    unfold account_kept;
    [left; repeat split; congruence|by right|right; congruence|by right].
Qed.

Lemma account_kept_ok s s' : account_ok s → account_kept s s' → account_ok s'.
Proof.
  unfold account_ok, signed_in.
  intros Hok [(Hp & Hl & Hu)|Hw]; [rewrite Hp, Hl, Hu; exact Hok|].
  rewrite Hw. by intros [|].
Qed.

(** A step to pages before the login keeps the account in order. *)
Lemma step_to_ok targets s s' :
  step_to targets s s' →
  page s ≠ "profile" → page s ≠ "search" →
  "profile" ∉ targets → "search" ∉ targets →
  account_ok s'.
Proof.
  intros [Hsame|Hin] Hp Hs Htp Hts [Hpage|Hpage]; congruence.
Qed.

(** A string literal is not in a list of other literals. *)
Ltac not_in_list :=
  let Hin := fresh in
  intros Hin;
  repeat (apply elem_of_cons in Hin as [Hin|Hin]; [discriminate Hin|]);
  by apply elem_of_nil in Hin.

Lemma page_search_account `{Pandas} recommender inp :
  moves account_kept (page_search recommender inp).
Proof.
  unfold page_search. apply moves_bind; [|intros _].
  { unfold sidebar. apply moves_bind; [apply moves_get|intros s0].
    apply moves_bind; [solve_moves|intros _].
    apply moves_bind; [solve_moves|intros _].
    apply moves_when. intros s shown. by right. }
  apply moves_bind; [unfold random_button; solve_moves|intros _].
  apply moves_bind; [unfold run_search; solve_moves|intros _].
  eapply moves_appends, display_results_appends.
Qed.

Lemma run_account_ok `{Pandas} recommender inp s :
  account_ok s → account_ok (run recommender inp s).1.1.
Proof.
  intros Hok. rewrite run_on_page.
  destruct (String.eqb_spec (page s) "welcome") as [Hw|Hw].
  { eapply step_to_ok; [apply page_welcome_moves|..]; rewrite ?Hw;
      first [done | not_in_list]. }
  destruct (String.eqb_spec (page s) "auth_menu") as [Ha|Ha].
  { eapply step_to_ok; [apply page_auth_menu_moves|..]; rewrite ?Ha;
      first [done | not_in_list]. }
  destruct (String.eqb_spec (page s) "signup") as [Hs|Hs].
  { rewrite page_signup_state.
    destruct (st_button inp BtnBack); [by intros [|]|].
    destruct (_ && _); [|done].
    intros _. split; [done|]. simpl. by rewrite lookup_insert_eq. }
  destruct (String.eqb_spec (page s) "login") as [Hl|Hl].
  { rewrite page_login_state.
    destruct (st_button inp BtnBack); [by intros [|]|].
    destruct (_ && _); [|done].
    intros _. split; [done|]. simpl. by rewrite lookup_insert_eq. }
  destruct (String.eqb_spec (page s) "profile") as [Hp|Hp].
  { rewrite page_profile_state. destruct Hok as [Hlog Hmail]; [by left|].
    destruct (st_button inp BtnBack); [by intros [|]|].
    destruct (st_button inp BtnNext); [|by intros _].
    intros _. split; [done|]. simpl.
    apply lookup_union_is_Some. by right. }
  destruct (String.eqb_spec (page s) "search") as [Hse|Hse].
  { eapply account_kept_ok; [done|]. apply page_search_account. }
  eapply step_to_ok; [apply page_welcome_moves|..];
    first [done | not_in_list].
Qed.

(** X5.  In every state a session can reach the profile page and the
    search page are shown to a logged-in user with a stored e-mail
    address only. *)
Theorem X5_behind_login `{Pandas} (recommender : Recommender)
    (s : SessionState) :
  reachable recommender s →
  page s = "profile" ∨ page s = "search" →
  logged_in s = true ∧ is_Some (user_info s !! "email").
Proof.
  induction 1 as [|inp s Hs IH]; [by intros [|]|].
  by apply run_account_ok.
Qed.

Lemma X5_behind_login_witness :
  let s := @run_all literal_pandas sample_recommender visit_and_search
             init_session_state in
  logged_in s = true ∧ is_Some (user_info s !! "email").
Proof.
  intros s.
  apply (@X5_behind_login literal_pandas sample_recommender s).
  - apply reachable_run_all, reachable_init.
  - by right.
Defined.

(* ===================================================================== *)
(** * The search page: what a run stores and shows *)
(* ===================================================================== *)

Section SearchRunFacts.
Context `{Pandas}.
Variable recommender : Recommender.
Variable inp : Inputs.

(** A search the engine answers: the result, the query, the time and
    [top_n] are stored before the movie list is built. *)
Lemma answered_search_run s result :
  page s = "search" → w_appearance inp = appearance s →
  pressed inp = Some BtnSearch → w_query inp ≠ "" →
  recommend recommender (w_query inp) (w_preference_mode inp) (w_top_n inp)
  = Returned (Some result) →
  run recommender inp s
  = match build_all_movies result (w_top_n inp) with
    | Returned all =>
        display_results recommender inp true (stored_search inp result all s) []
    | Raised e =>
        display_results recommender inp true (stored_result inp result s)
          [UiException e; UiTraceback e]
    end.
Proof.
  intros Hpage Happ Hpressed Hquery Hanswer. rewrite run_search_page by done.
  unfold page_search. rewrite bind_run, sidebar_idle by (by rewrite ?Hpressed).
  rewrite bind_run, random_button_idle by (by rewrite Hpressed).
  rewrite bind_run. unfold run_search, st_button.
  rewrite Hpressed, bool_decide_eq_true_2, truthy_str_true by done.
  cbn [andb when]. unfold try_except. rewrite bind_run, Hanswer.
  cbn [lift]. rewrite !bind_run. cbn [modify build_for].
  by destruct (build_all_movies result (w_top_n inp)).
Qed.

(** What the section "Learn More About a Movie" adds does not depend on
    what is shown before it. *)
Lemma show_details_run s :
  ∃ details ending,
    rows_of details = []
    ∧ (∀ before,
         show_details recommender inp s before = (s, before ++ details, ending))
    ∧ (all_movies_list s ≠ [] →
       ∃ rest, details
               = UiSelect (select_placeholder
                           :: map movie_option (all_movies_list s)) :: rest).
Proof.
  unfold show_details.
  destruct (truthy_list (all_movies_list s)) eqn:Ht.
  - destruct (negb (String.eqb
        (nth (w_movie_detail_select inp)
           (select_placeholder :: map movie_option (all_movies_list s))
           select_placeholder) select_placeholder)) eqn:Hsel.
    + destruct (get_movie_details (movies recommender)
                  (selected_title
                     (nth (w_movie_detail_select inp)
                        (select_placeholder :: map movie_option (all_movies_list s))
                        select_placeholder))) as [ex|[d0|]] eqn:Hget.
      * eexists [UiSelect _], _. split; [reflexivity|]. split; [intros before|by eexists].
        rewrite bind_run. unfold get_state.
        cbv beta iota zeta. rewrite Ht. cbn [when]. rewrite bind_run, emit_run.
        cbv beta iota. rewrite Hsel. cbn [when]. rewrite bind_run, Hget.
        reflexivity.
      * eexists [UiSelect _; UiDetails d0], _. split; [reflexivity|]. split; [intros before|by eexists].
        rewrite bind_run. unfold get_state.
        cbv beta iota zeta. rewrite Ht. cbn [when]. rewrite bind_run, emit_run.
        cbv beta iota. rewrite Hsel. cbn [when]. rewrite bind_run, Hget.
        cbn [lift]. rewrite bind_run, emit_run. cbv beta iota.
        rewrite <- app_assoc, lift_run. reflexivity.
      * eexists [UiSelect _; UiWarning _], _. split; [reflexivity|]. split; [intros before|by eexists].
        rewrite bind_run. unfold get_state.
        cbv beta iota zeta. rewrite Ht. cbn [when]. rewrite bind_run, emit_run.
        cbv beta iota. rewrite Hsel. cbn [when]. rewrite bind_run, Hget.
        cbn [lift]. rewrite emit_run. by rewrite <- app_assoc.
    + eexists [UiSelect _], _. split; [reflexivity|]. split; [intros before|by eexists].
      rewrite bind_run. unfold get_state.
      cbv beta iota zeta. rewrite Ht. cbn [when]. rewrite bind_run, emit_run.
      cbv beta iota. rewrite Hsel. reflexivity.
  - exists [], (inr ()). split; [done|]. split.
    + intros before.
      rewrite bind_run. unfold get_state. cbv beta iota zeta. rewrite Ht.
      cbn [when mret script_ret]. by rewrite app_nil_r.
    + by destruct (all_movies_list s).
Qed.

(** The layout of the display of a result with recommendations. *)
Lemma display_layout search_clicked s result l shown :
  search_results s = Some result →
  recommendations result = Has l → l ≠ [] →
  let n := default 10%Z (top_n s) in
  ∃ interp panel details ending,
    display_results recommender inp search_clicked s shown
    = (s, shown ++ interp ++ panel ++ details, ending)
    ∧ rows_of interp = []
    ∧ (∀ before, show_details recommender inp s before
                 = (s, before ++ details, ending))
    ∧ rows_of details = []
    ∧ (is_dual result = false →
       rows_of panel = track_rows MainColumn (slice_to l n) 1)
    ∧ (is_dual result = true → ∃ e m,
       entity_track result = Has e ∧ mood_track result = Has m
       ∧ rows_of panel
         = track_rows EntityColumn (slice_to e n) 1
           ++ track_rows MoodColumn (slice_to m n)
                (Z.of_nat (length (slice_to e n)) + 1)).
Proof.
  intros Hs Hl Hne n. destruct l as [|r rs]; [done|].
  destruct (show_details_run s) as (details & ending & Hrows & Hdetails & _).
  unfold display_results. rewrite bind_run. unfold get_state at 1.
  cbv beta iota. rewrite Hs, bind_run, Hl. cbn [getattr lift].
  fold n. run_step. rewrite bind_run.
  destruct (show_interpretation_run result s
              (shown ++ [UiSuccess (default 0%float (search_time s)) (last_query s)]))
    as (interp & -> & Hinterp).
  cbv beta iota. rewrite bind_run.
  exists ([UiSuccess (default 0%float (search_time s)) (last_query s)] ++ interp).
  destruct (is_dual result) eqn:Hd.
  - pose proof Hd as Hspec.
    apply is_dual_spec in Hspec as (_ & (e & He & _) & (m & Hm & _)).
    run_step. rewrite bind_run, He, attr_slice_has. cbn [lift].
    run_step. rewrite bind_run. cbn [lift]. rewrite bind_run, Hm, attr_slice_has.
    cbn [lift]. rewrite show_rows_run.
    exists ([UiDualTrackHeading]
            ++ map (λ r, UiRow EntityColumn r.1 r.2) (enumerate (slice_to e n) 1)
            ++ map (λ r, UiRow MoodColumn r.1 r.2)
                 (enumerate (slice_to m n)
                    (Z.of_nat (length (slice_to e n)) + 1))),
      details, ending.
    rewrite Hdetails.
    split; [by rewrite <- !app_assoc|].
    split; [by rewrite rows_of_app, (rows_of_none interp)|].
    split; [intros before; apply Hdetails|].
    split; [done|]. split; [done|].
    intros _. exists e, m. do 2 (split; [done|]).
    by rewrite !rows_of_app, !rows_of_rows.
  - run_step. rewrite show_rows_run.
    exists ([UiTopHeading (Z.min n (Z.of_nat (length (r :: rs))))]
            ++ map (λ r, UiRow MainColumn r.1 r.2)
                 (enumerate (slice_to (r :: rs) n) 1)),
      details, ending.
    rewrite Hdetails.
    split; [by rewrite <- !app_assoc|].
    split; [by rewrite rows_of_app, (rows_of_none interp)|].
    split; [intros before; apply Hdetails|].
    split; [done|]. split; [|done].
    intros _. by rewrite rows_of_app, rows_of_rows.
Qed.

End SearchRunFacts.

Lemma rank_and_movie_rows col (l : list MovieRecommendation) start :
  map rank_and_movie (track_rows col l start) = enumerate l start.
Proof.
  unfold track_rows. rewrite map_map.
  trans (map id (enumerate l start)); [|apply map_id].
  apply map_ext. by intros [i m].
Qed.

Lemma rank_and_record_entries (l : list MovieRecommendation) start :
  map (λ e, (rank e, record e)) (entries l start) = enumerate l start.
Proof.
  unfold entries. rewrite map_map.
  trans (map id (enumerate l start)); [|apply map_id].
  apply map_ext. by intros [i m].
Qed.

(** The display of a stored result without recommendations to show. *)
Lemma display_without_recommendations `{Pandas} recommender inp search_clicked
    s result shown :
  search_results s = Some result →
  (recommendations result = Absent →
   display_results recommender inp search_clicked s shown
   = (s, shown, inl (Crashed (AttributeError "recommendations"))))
  ∧ (recommendations result = IsNone ∨ recommendations result = Has [] →
     display_results recommender inp search_clicked s shown
     = (s, shown ++ [UiWarning msg_no_movies], inr ())).
Proof.
  intros Hs. split.
  - intros Ha. unfold display_results. rewrite bind_run. unfold get_state at 1.
    cbv beta iota. by rewrite Hs, bind_run, Ha.
  - intros [Ha|Ha]; unfold display_results; rewrite bind_run;
      unfold get_state at 1; cbv beta iota; by rewrite Hs, bind_run, Ha.
Qed.

(** X6.  A run in which Log Out is not pressed keeps the session
    invariant (when no search results are stored, the movie list is
    empty) if the engine, asked with the inputs of the run, raises or
    returns a result object.  If the engine answers a search with [None],
    [None] is stored as the results and the movie list stays as it was,
    so a list of an earlier search breaks the invariant. *)
Theorem X6_list_empty_kept_without_logout `{Pandas}
    (recommender : Recommender) (inp : Inputs) (s : SessionState) :
  pressed inp ≠ Some BtnLogOut →
  (search_results s = None → all_movies_list s = []) →
  (recommend recommender (w_query inp) (w_preference_mode inp) (w_top_n inp)
   ≠ Returned None →
   search_results (run recommender inp s).1.1 = None →
   all_movies_list (run recommender inp s).1.1 = [])
  ∧ (page s = "search" → w_appearance inp = appearance s →
     pressed inp = Some BtnSearch → w_query inp ≠ "" →
     recommend recommender (w_query inp) (w_preference_mode inp) (w_top_n inp)
     = Returned None →
     search_results (run recommender inp s).1.1 = None
     ∧ all_movies_list (run recommender inp s).1.1 = all_movies_list s).
Proof.
  intros Hout Hinv. split.
  - intros Hanswer. by apply invariant_without_logout.
  - intros Hpage Happ Hpressed Hquery Hnone.
    by rewrite unanswered_search_run.
Qed.

Lemma X6_list_empty_kept_without_logout_witness :
  all_movies_list
    (@run literal_pandas sample_recommender
       (press (BtnExample "Epic war movies set in ancient times") idle)
       searched_state).1.1 = []
  ∧ all_movies_list
      (@run literal_pandas silent_recommender
         (press BtnSearch (typing "" "" "heist movies" idle))
         searched_state).1.1
    = all_movies_list searched_state.
Proof.
  split.
  - apply (@X6_list_empty_kept_without_logout literal_pandas sample_recommender
             (press (BtnExample "Epic war movies set in ancient times") idle)
             searched_state); [done|done|done|reflexivity].
  - apply (@X6_list_empty_kept_without_logout literal_pandas silent_recommender
             (press BtnSearch (typing "" "" "heist movies" idle))
             searched_state); [done|done|reflexivity..|done|reflexivity].
Defined.

(** X7.  The engine is asked only when Search is pressed with a non-empty
    query: in every other run the state, what is shown and how the run
    ends do not depend on [recommend]. *)
Theorem X7_engine_asked_on_search_only `{Pandas}
    (recommender : Recommender) (inp : Inputs) (s : SessionState)
    (f : string → string → Z → outcome (option RecommendationResult)) :
  pressed inp ≠ Some BtnSearch ∨ w_query inp = "" →
  run (with_recommend f recommender) inp s = run recommender inp s.
Proof.
  intros Hcond. rewrite !run_on_page.
  repeat match goal with |- context [if ?b then _ else _] => destruct b end;
    try reflexivity.
  unfold page_search, run_search.
  assert (st_button inp BtnSearch && truthy_str (w_query inp) = false) as ->;
    [|reflexivity].
  destruct Hcond as [Hp| ->]; [|apply andb_false_r].
  unfold st_button. by rewrite bool_decide_eq_false_2.
Qed.

Lemma X7_engine_asked_on_search_only_witness :
  @run literal_pandas (with_recommend (recommend failing_recommender)
                         sample_recommender)
    (press BtnSearch idle) searched_state
  = @run literal_pandas sample_recommender (press BtnSearch idle) searched_state.
Proof.
  apply (@X7_engine_asked_on_search_only literal_pandas). by right.
Defined.

(** X8.  A search the engine answers with a result that has
    recommendations stores the result, the query, the time, [top_n] and
    the movie list, and the rows it shows carry, in order, exactly the
    ranks and movies of the stored list, which the dropdown offers. *)
Theorem X8_shown_rows_are_the_stored_list `{Pandas}
    (recommender : Recommender) (inp : Inputs) (s : SessionState)
    (result : RecommendationResult) (l : list MovieRecommendation) :
  page s = "search" → w_appearance inp = appearance s →
  pressed inp = Some BtnSearch → w_query inp ≠ "" →
  recommend recommender (w_query inp) (w_preference_mode inp) (w_top_n inp)
  = Returned (Some result) →
  recommendations result = Has l → l ≠ [] →
  ∃ all shown ending,
    build_all_movies result (w_top_n inp) = Returned all
    ∧ run recommender inp s = (stored_search inp result all s, shown, ending)
    ∧ map rank_and_movie (rows_of shown) = map (λ e, (rank e, record e)) all
    ∧ (all ≠ [] →
       UiSelect (select_placeholder :: map movie_option all) ∈ shown).
Proof.
  intros Hpage Happ Hpressed Hquery Hanswer Hl Hne.
  rewrite (answered_search_run recommender inp s result) by done.
  assert (∃ all, build_all_movies result (w_top_n inp) = Returned all
                 ∧ (is_dual result = false →
                    all = entries (slice_to l (w_top_n inp)) 1)
                 ∧ (is_dual result = true → ∀ e m,
                    entity_track result = Has e → mood_track result = Has m →
                    all = entries (slice_to e (w_top_n inp)) 1
                          ++ entries (slice_to m (w_top_n inp))
                               (Z.of_nat (length (slice_to e (w_top_n inp))) + 1)))
    as (all & Hbuild & Hsingle & Hdual).
  { destruct (is_dual result) eqn:Hd.
    - pose proof Hd as Hspec.
      apply is_dual_spec in Hspec as (_ & (e & He & _) & (m & Hm & _)).
      eexists. split; [by apply build_dual|]. split; [done|].
      intros _ e' m' He' Hm'. congruence.
    - eexists. split; [by rewrite build_single, Hl|]. by split. }
  rewrite Hbuild. exists all.
  destruct (display_layout recommender inp true
              (stored_search inp result all s) result l [] eq_refl Hl Hne)
    as (interp & panel & details & ending & -> & Hinterp & Hdetails & Hrows
        & Hmain & Htracks).
  simpl in Hmain, Htracks.
  exists (interp ++ panel ++ details), ending.
  split; [done|]. split; [done|]. split.
  - rewrite !rows_of_app, Hinterp, Hrows, app_nil_r. simpl.
    destruct (is_dual result) eqn:Hd.
    + destruct Htracks as (e & m & He & Hm & ->); [done|].
      rewrite (Hdual eq_refl e m He Hm), !map_app, !rank_and_movie_rows.
      by rewrite !rank_and_record_entries.
    + rewrite Hmain, Hsingle by done.
      by rewrite rank_and_movie_rows, rank_and_record_entries.
  - intros Hall.
    destruct (show_details_run recommender inp (stored_search inp result all s))
      as (details' & ending' & _ & Hdetails' & Hselect).
    specialize (Hdetails []). rewrite Hdetails' in Hdetails.
    injection Hdetails as -> _.
    destruct (Hselect Hall) as (rest & ->).
    rewrite !elem_of_app. right. right. by left.
Qed.

Lemma X8_shown_rows_are_the_stored_list_witness :
  ∃ all shown ending,
    build_all_movies single_result 10 = Returned all
    ∧ @run literal_pandas single_recommender
        (press BtnSearch (typing "" "" "heist movies" idle)) fresh_search_state
      = (stored_search (press BtnSearch (typing "" "" "heist movies" idle))
           single_result all fresh_search_state, shown, ending)
    ∧ map rank_and_movie (rows_of shown) = map (λ e, (rank e, record e)) all
    ∧ (all ≠ [] →
       UiSelect (select_placeholder :: map movie_option all) ∈ shown).
Proof.
  apply (@X8_shown_rows_are_the_stored_list literal_pandas single_recommender
           (press BtnSearch (typing "" "" "heist movies" idle))
           fresh_search_state single_result two_movies); done.
Defined.

(** X9.  When the engine answers with a result that is not dual-track and
    has no usable [recommendations], the search has already stored the
    result, the query, the time and [top_n] but keeps the movie list of
    the search before.  Without the attribute the run shows the
    attribute error and then ends in the same error, uncaught, in the
    display pass; with [None] it shows the type error and the 'No movies
    found' warning. *)
Theorem X9_list_stale_when_not_built `{Pandas}
    (recommender : Recommender) (inp : Inputs) (s : SessionState)
    (result : RecommendationResult) :
  page s = "search" → w_appearance inp = appearance s →
  pressed inp = Some BtnSearch → w_query inp ≠ "" →
  recommend recommender (w_query inp) (w_preference_mode inp) (w_top_n inp)
  = Returned (Some result) →
  is_dual result = false →
  search_results (stored_result inp result s) = Some result
  ∧ all_movies_list (stored_result inp result s) = all_movies_list s
  ∧ (recommendations result = Absent →
     run recommender inp s
     = (stored_result inp result s,
        [UiException (AttributeError "recommendations");
         UiTraceback (AttributeError "recommendations")],
        inl (Crashed (AttributeError "recommendations"))))
  ∧ (recommendations result = IsNone →
     run recommender inp s
     = (stored_result inp result s,
        [UiException (TypeError "'NoneType' object is not subscriptable");
         UiTraceback (TypeError "'NoneType' object is not subscriptable");
         UiWarning msg_no_movies],
        inr ())).
Proof.
  intros Hpage Happ Hpressed Hquery Hanswer Hd.
  split; [done|]. split; [done|].
  rewrite (answered_search_run recommender inp s result) by done.
  rewrite build_single by done.
  split; intros Ha; rewrite Ha.
  - by apply (display_without_recommendations recommender inp true
                (stored_result inp result s) result).
  - apply (display_without_recommendations recommender inp true
             (stored_result inp result s) result
             [UiException _; UiTraceback _]); [done|by left].
Qed.

Lemma X9_list_stale_when_not_built_witness :
  @run literal_pandas bare_recommender
    (press BtnSearch (typing "" "" "heist movies" idle)) searched_state
  = (stored_result (press BtnSearch (typing "" "" "heist movies" idle))
       bare_result searched_state,
     [UiException (AttributeError "recommendations");
      UiTraceback (AttributeError "recommendations")],
     inl (Crashed (AttributeError "recommendations")))
  ∧ all_movies_list
      (stored_result (press BtnSearch (typing "" "" "heist movies" idle))
         bare_result searched_state)
    = entries seven_movies 1 ++ entries two_movies 8.
Proof.
  destruct (@X9_list_stale_when_not_built literal_pandas bare_recommender
              (press BtnSearch (typing "" "" "heist movies" idle))
              searched_state bare_result)
    as (_ & Hlist & Habsent & _); [done..|].
  split; [by apply Habsent|exact Hlist].
Defined.

Section ButtonFacts.
Context `{Pandas}.
Variable recommender : Recommender.
Variable inp : Inputs.

Lemma display_keeps_state search_clicked s shown :
  (display_results recommender inp search_clicked s shown).1.1 = s.
Proof.
  by destruct (display_results_appends recommender inp search_clicked s shown)
    as (more & ending & -> & _).
Qed.

Lemma idle_run s :
  pressed inp = None →
  (page s = "search" → w_appearance inp = appearance s) →
  (run recommender inp s).1.1 = s.
Proof.
  intros Hp Happ. rewrite run_on_page.
  assert (∀ b, st_button inp b = false) as Hb.
  { intros b. unfold st_button. by rewrite Hp, bool_decide_eq_false_2. }
  assert ((page_welcome inp s []).1.1 = s) as Hwelcome.
  { unfold page_welcome. by rewrite Hb. }
  destruct (String.eqb (page s) "welcome"); [done|].
  destruct (String.eqb (page s) "auth_menu").
  { unfold page_auth_menu. by rewrite !Hb. }
  destruct (String.eqb (page s) "signup").
  { by rewrite page_signup_state, !Hb. }
  destruct (String.eqb (page s) "login").
  { by rewrite page_login_state, !Hb. }
  destruct (String.eqb (page s) "profile").
  { by rewrite page_profile_state, !Hb. }
  destruct (String.eqb_spec (page s) "search") as [Hsearch|]; [|done].
  unfold page_search. rewrite bind_run, sidebar_idle by (by rewrite ?Hp; auto).
  rewrite bind_run, random_button_idle by (by rewrite Hp).
  rewrite bind_run. unfold run_search. rewrite Hb. cbn [andb when mret script_ret].
  apply display_keeps_state.
Qed.

(** Pressing an example button: the loop over the example buttons stores
    the query of the pressed one and clears results and list. *)
Lemma example_loop_sets eq (l : list string) s shown :
  pressed inp = Some (BtnExample eq) →
  (query_input s = Some eq ∧ search_results s = None ∧ all_movies_list s = [])
  ∨ eq ∈ l →
  ∃ s', for_each l (λ eq,
          when (st_button inp (BtnExample eq))
            (modify (set_query_input eq);;
             modify (set_search_results None);;
             modify (set_all_movies_list []))) s shown
        = (s', shown, inr ())
        ∧ query_input s' = Some eq
        ∧ search_results s' = None ∧ all_movies_list s' = []
        ∧ page s' = page s ∧ logged_in s' = logged_in s
        ∧ user_info s' = user_info s ∧ last_query s' = last_query s.
Proof.
  intros Hp. revert s. induction l as [|x l IH]; intros s Hs.
  - destruct Hs as [Hs|Hin]; [|by apply elem_of_nil in Hin].
    exists s. by destruct Hs as (? & ? & ?).
  - cbn [for_each]. rewrite bind_run. unfold st_button at 1. rewrite Hp.
    case_bool_decide as Hx.
    + injection Hx as ->.
      destruct (IH (set_all_movies_list []
                      (set_search_results None (set_query_input x s))))
        as (s' & Hrun & Hs'); [by left|].
      exists s'. split; [exact Hrun|exact Hs'].
    + apply IH. destruct Hs as [Hs|Hin]; [by left|right].
      apply elem_of_cons in Hin as [->|Hin]; done.
Qed.

Lemma random_choice_example : random_choice inp ∈ example_queries.
Proof.
  unfold random_choice. apply list_elem_of_In, nth_In.
  apply Nat.mod_upper_bound. done.
Qed.

End ButtonFacts.

(** X10.  A run in which no button is pressed and the appearance is not
    changed leaves the page, the login, the user data, the search
    results, the movie list and the stored search parameters as they
    are, on every page: typing in a field, moving the slider or choosing
    in the dropdown writes none of them. *)
Theorem X10_idle_run_stores_nothing `{Pandas}
    (recommender : Recommender) (inp : Inputs) (s : SessionState) :
  pressed inp = None →
  (page s = "search" → w_appearance inp = appearance s) →
  (run recommender inp s).1.1 = s.
Proof. apply idle_run. Qed.

Lemma X10_idle_run_stores_nothing_witness :
  (@run literal_pandas sample_recommender
     (select 3 (typing "" "" "heist movies" idle)) searched_state).1.1
  = searched_state.
Proof.
  by apply (@X10_idle_run_stores_nothing literal_pandas sample_recommender).
Defined.

(** X11.  On the search page an example button stores its query in
    [query_input], clears the search results and the movie list together,
    and the run shows the prompt to enter a query; the Random button
    stores one of the six example queries, clears both and asks for a
    rerun.  Neither changes the page, the login or the last query. *)
Theorem X11_example_and_random_buttons `{Pandas}
    (recommender : Recommender) (inp : Inputs) (s : SessionState) :
  page s = "search" → w_appearance inp = appearance s →
  (∀ eq, eq ∈ example_queries → pressed inp = Some (BtnExample eq) →
     ∃ s', run recommender inp s = (s', [UiInfo msg_enter_query], inr ())
           ∧ query_input s' = Some eq
           ∧ search_results s' = None ∧ all_movies_list s' = []
           ∧ page s' = page s ∧ logged_in s' = logged_in s
           ∧ user_info s' = user_info s ∧ last_query s' = last_query s)
  ∧ (pressed inp = Some BtnRandom →
     ∃ s', run recommender inp s = (s', [], inl Rerun)
           ∧ query_input s' = Some (random_choice inp)
           ∧ random_choice inp ∈ example_queries
           ∧ search_results s' = None ∧ all_movies_list s' = []
           ∧ page s' = page s ∧ logged_in s' = logged_in s
           ∧ user_info s' = user_info s ∧ last_query s' = last_query s).
Proof.
  intros Hpage Happ. split.
  - intros eq Hin Hp. rewrite run_search_page by done.
    unfold page_search. rewrite bind_run. unfold sidebar. rewrite bind_run.
    unfold get_state at 1. cbv beta iota.
    rewrite Happ, String.eqb_refl. cbn [negb when].
    rewrite bind_run. cbn [mret script_ret]. cbv beta iota. rewrite bind_run.
    destruct (example_loop_sets inp eq example_queries s [] Hp)
      as (s' & -> & Hq & Hr & Hl & Hrest); [by right|].
    cbv beta iota. unfold st_button at 1.
    rewrite Hp, bool_decide_eq_false_2 by done. cbn [when mret script_ret].
    rewrite bind_run, random_button_idle by (by rewrite Hp).
    rewrite bind_run. unfold run_search, st_button.
    rewrite Hp, bool_decide_eq_false_2 by done. cbn [andb when mret script_ret].
    exists s'. split; [|done].
    unfold display_results. rewrite bind_run. unfold get_state at 1.
    cbv beta iota. by rewrite Hr.
  - intros Hp. rewrite run_search_page by done.
    unfold page_search. rewrite bind_run, sidebar_idle by (by rewrite ?Hp).
    rewrite bind_run. unfold random_button, st_button.
    rewrite Hp, bool_decide_eq_true_2 by done.
    eexists. split; [reflexivity|]. split; [done|].
    split; [apply random_choice_example|done].
Qed.

Lemma X11_example_and_random_buttons_witness :
  ∃ s', @run literal_pandas sample_recommender
          (press (BtnExample "Epic war movies set in ancient times") idle)
          searched_state
        = (s', [UiInfo msg_enter_query], inr ())
        ∧ query_input s' = Some "Epic war movies set in ancient times"
        ∧ search_results s' = None ∧ all_movies_list s' = [].
Proof.
  destruct (@X11_example_and_random_buttons literal_pandas sample_recommender
              (press (BtnExample "Epic war movies set in ancient times") idle)
              searched_state) as [Hexample _]; [done..|].
  destruct (Hexample "Epic war movies set in ancient times")
    as (s' & Hrun & Hq & Hr & Hl & _); [repeat constructor|done|].
  by exists s'.
Defined.

(* ===================================================================== *)
(** * From the dropdown back to the movie *)
(* ===================================================================== *)

Lemma pretty_N_char_not_dot x : not_dot (pretty_N_char x) = true.
Proof. unfold pretty_N_char. by repeat case_match. Qed.

Lemma pretty_N_go_not_dot x : ∀ s,
  all_chars not_dot s = true → all_chars not_dot (pretty_N_go x s) = true.
Proof.
  induction (N.lt_wf_0 x) as [x _ IH]. intros s Hs.
  assert (x = 0 ∨ 0 < x)%N as [->|Hpos] by lia; [by rewrite pretty_N_go_0|].
  rewrite pretty_N_go_step by done. apply IH; [by apply N.div_lt|].
  unfold all_chars in *. simpl. by rewrite pretty_N_char_not_dot.
Qed.

Lemma pretty_Z_not_dot (z : Z) : all_chars not_dot (pretty z) = true.
Proof.
  assert (∀ n : N, all_chars not_dot (pretty n) = true) as HN.
  { intros n. unfold pretty, pretty_N. case_decide; [done|].
    by apply pretty_N_go_not_dot. }
  destruct z as [|p|p]; [done|apply HN|].
  unfold pretty, pretty_Z. unfold all_chars in *. rewrite list_ascii_app.
  rewrite forallb_app. simpl. apply HN.
Qed.

Lemma substring_all (s : string) : String.substring 0 (String.length s) s = s.
Proof. induction s as [|c s IH]; simpl; [done|]. by rewrite IH. Qed.

Lemma split_once_after_prefix (p t : string) :
  all_chars not_dot p = true →
  split_once ". " (p +:+ ". " +:+ t) = Some (p, t).
Proof.
  unfold all_chars. induction p as [|c p IH]; intros Hp.
  - change ("" +:+ ". " +:+ t) with (String "." (String " " t)).
    assert (String.prefix ". " (String "." (String " " t)) = true) as Hpre.
    { cbn [String.prefix]. destruct (ascii_dec "." "."); [|done].
      destruct (ascii_dec " " " "); [|done]. by destruct t. }
    cbn [split_once]. rewrite Hpre.
    cbn [String.length Nat.sub String.substring].
    by rewrite Nat.sub_0_r, substring_all.
  - simpl in Hp. apply andb_true_iff in Hp as [Hc Hp].
    change (String c p +:+ ". " +:+ t) with (String c (p +:+ ". " +:+ t)).
    cbn [split_once String.prefix].
    destruct (ascii_dec "." c) as [<-|Hne]; [done|].
    by rewrite (IH Hp).
Qed.

Lemma option_title_back (e : entry) : selected_title (movie_option e) = title e.
Proof.
  unfold selected_title, movie_option.
  by rewrite split_once_after_prefix by apply pretty_Z_not_dot.
Qed.

(** X12.  The title the detail lookup takes from a dropdown option is the
    title of the entry the option was made of, for every rank and every
    title, also one that contains a full stop followed by a space. *)
Theorem X12_option_gives_title_back (e : entry) :
  selected_title (movie_option e) = title e
  ∧ movie_option e ≠ select_placeholder.
Proof.
  split; [apply option_title_back|]. intros Heq.
  assert (split_once ". " (movie_option e) = Some (pretty (rank e), title e))
    as Hsplit by (by apply split_once_after_prefix, pretty_Z_not_dot).
  rewrite Heq in Hsplit. by vm_compute in Hsplit.
Qed.

Lemma movie_option_not_placeholder (e : entry) :
  movie_option e ≠ select_placeholder.
Proof.
  intros Heq.
  assert (split_once ". " (movie_option e) = Some (pretty (rank e), title e))
    as Hsplit by (by apply split_once_after_prefix, pretty_Z_not_dot).
  rewrite Heq in Hsplit. by vm_compute in Hsplit.
Qed.

(** X13.  Choosing the entry at position [i] of the movie list in the
    dropdown looks up the title of that entry in the catalog: the run
    shows its details when the catalog resolves the title (and ends in
    the exception that writing them raises, if it raises one), a warning
    when it does not, and ends in the exception when the lookup raises. *)
Theorem X13_choice_looks_up_entry `{Pandas}
    (recommender : Recommender) (inp : Inputs) (s : SessionState)
    (i : nat) (e : entry) (before : list ui) :
  all_movies_list s !! i = Some e →
  w_movie_detail_select inp = S i →
  let options := select_placeholder :: map movie_option (all_movies_list s) in
  show_details recommender inp s before
  = match get_movie_details (movies recommender) (title e) with
    | Raised ex => (s, before ++ [UiSelect options], inl (Crashed ex))
    | Returned (Some d) =>
        (s, before ++ [UiSelect options; UiDetails d],
         match ended (detail_columns d) with
         | Raised ex => inl (Crashed ex)
         | Returned _ => inr ()
         end)
    | Returned None =>
        (s, before ++ [UiSelect options;
                       UiWarning ("Could not find details for '"
                                  +:+ title e +:+ "'")], inr ())
    end.
Proof.
  intros He Hsel options. unfold show_details. rewrite bind_run.
  unfold get_state. cbv beta iota zeta. fold options.
  assert (truthy_list (all_movies_list s) = true) as ->.
  { by destruct (all_movies_list s). }
  cbn [when]. rewrite bind_run, emit_run. cbv beta iota.
  assert (nth (w_movie_detail_select inp) options select_placeholder
          = movie_option e) as ->.
  { rewrite Hsel. unfold options. cbn [nth].
    apply nth_lookup_Some. change (map movie_option (all_movies_list s))
      with (movie_option <$> all_movies_list s).
    by rewrite list_lookup_fmap, He. }
  destruct (String.eqb_spec (movie_option e) select_placeholder) as [Heq|_];
    [by apply movie_option_not_placeholder in Heq|].
  cbn [negb when]. rewrite bind_run, option_title_back.
  destruct (get_movie_details (movies recommender) (title e)) as [ex|[d|]];
    cbn [lift]; rewrite ?bind_run, ?emit_run, <- ?app_assoc; try reflexivity.
  cbv beta iota. by destruct (ended (detail_columns d)) as [ex|[]].
Qed.

Lemma X13_choice_looks_up_entry_witness :
  @show_details literal_pandas sample_recommender (select 8 idle)
    searched_state []
  = (searched_state,
     [UiSelect (select_placeholder
                :: map movie_option (all_movies_list searched_state));
      UiDetails (movie_details
                   {| s_index := catalog_columns; s_cells := heat_row |}
                   "Heat")],
     inr ()).
Proof.
  exact (@X13_choice_looks_up_entry literal_pandas sample_recommender
           (select 8 idle) searched_state 7
           (8%Z, "Heat", movie "Heat" 0.9375) [] eq_refl eq_refl).
Defined.

(* ===================================================================== *)
(** * MovieResolver: what is found, what is not, and what raises *)
(* ===================================================================== *)

Section ResolverOutcomes.
Context `{Pandas}.
Implicit Types (row : gmap string value) (rows : list (gmap string value)).

Lemma exact_rows_nil_inv (movie_title : string) rows :
  exact_rows (lower movie_title) rows = [] →
  ∀ r, r ∈ rows → ¬ title_matches movie_title r.
Proof.
  intros Hnil r Hin Hmatch. apply exact_test_spec in Hmatch.
  assert (In r (exact_rows (lower movie_title) rows)) as Hr.
  { apply filter_In. split; [by apply list_elem_of_In|done]. }
  by rewrite Hnil in Hr.
Qed.

Lemma truthy_list_false {A} (l : list A) : truthy_list l = false ↔ l = [].
Proof. by destruct l. Qed.

Lemma str_lower_inv (v : value) (t : string) :
  str_lower v = Some t → ∃ s, v = VStr s ∧ lower s = t.
Proof. destruct v; try done. intros [= <-]. eauto. Qed.

Lemma containing_rows_nil_inv found rows :
  containing_rows found rows = [] →
  ∀ r s, r ∈ rows → cell r "title" = VStr s → found (lower s) = false.
Proof.
  intros Hnil r s Hin Hs. destruct (found (lower s)) eqn:Hf; [|done].
  assert (In r (containing_rows found rows)) as Hr.
  { apply filter_In. split; [by apply list_elem_of_In|]. by rewrite Hs. }
  by rewrite Hnil in Hr.
Qed.

Lemma containing_rows_none found rows :
  (∀ r s, r ∈ rows → cell r "title" = VStr s → found (lower s) = false) →
  containing_rows found rows = [].
Proof.
  induction rows as [|r rows IH]; intros Hno; [done|]. simpl.
  destruct (str_lower (cell r "title")) as [t|] eqn:Ht.
  - apply str_lower_inv in Ht as (s & Hs & <-).
    rewrite (Hno r s) by (done || by left). apply IH.
    intros r' s' Hin. apply Hno. by right.
  - apply IH. intros r' s' Hin. apply Hno. by right.
Qed.

End ResolverOutcomes.

(** X14.  A resolved record is the record of a catalog row whose title is
    a string that either equals the input ignoring case or, when no title
    does, is one the fallback search accepts. *)
Theorem X14_resolved_title_matches `{Pandas}
    (movies_df : DataFrame) (movie_title : string) (d : MovieDetails) :
  get_movie_details movies_df movie_title = Returned (Some d) →
  ∃ row s,
    row ∈ df_rows movies_df
    ∧ cell row "title" = VStr s ∧ d_title d = VStr s
    ∧ d = movie_details
            {| s_index := df_columns movies_df; s_cells := row |} movie_title
    ∧ (lower s = lower movie_title
       ∨ ((∀ r, r ∈ df_rows movies_df → ¬ title_matches movie_title r)
          ∧ ∃ found, str_contains (lower movie_title) = Returned found
                     ∧ found (lower s) = true)).
Proof.
  unfold get_movie_details, find_matches. case_bool_decide as Hcol; [|done].
  destruct (str_accessor (title_column movies_df)); [|done].
  destruct (truthy_list (exact_rows (lower movie_title) (df_rows movies_df)))
    eqn:Hexact; simpl.
  - destruct (exact_rows _ _) as [|first rest] eqn:Hrows; [done|].
    intros [= <-].
    assert (In first (exact_rows (lower movie_title) (df_rows movies_df)))
      as Hin by (rewrite Hrows; by left).
    apply filter_In in Hin as [Hin Htest].
    destruct (str_lower (cell first "title")) as [t|] eqn:Ht; [|done].
    apply String.eqb_eq in Htest as ->.
    apply str_lower_inv in Ht as (s & Hs & Hlow).
    exists first, s. split; [by apply list_elem_of_In|]. split; [done|].
    split; [|split; [done|by left]].
    simpl. rewrite safe_get_present; [done|].
    unfold is_missing. simpl. by rewrite bool_decide_eq_true_2, Hs.
  - apply truthy_list_false in Hexact.
    destruct (str_contains (lower movie_title)) as [e|found] eqn:Hfound;
      [done|]. simpl.
    destruct (containing_rows found (df_rows movies_df)) as [|first rest]
      eqn:Hrows; [done|].
    intros [= <-].
    assert (In first (containing_rows found (df_rows movies_df)))
      as Hin by (rewrite Hrows; by left).
    apply filter_In in Hin as [Hin Htest].
    destruct (str_lower (cell first "title")) as [t|] eqn:Ht; [|done].
    apply str_lower_inv in Ht as (s & Hs & <-).
    exists first, s. split; [by apply list_elem_of_In|]. split; [done|].
    split; [|split; [done|right]].
    + simpl. rewrite safe_get_present; [done|].
      unfold is_missing. simpl. by rewrite bool_decide_eq_true_2, Hs.
    + split; [by apply exact_rows_nil_inv|]. by exists found.
Qed.

Lemma X14_resolved_title_matches_witness :
  ∃ row s,
    row ∈ df_rows heat_catalog
    ∧ cell row "title" = VStr s
    ∧ d_title (movie_details
                 {| s_index := catalog_columns; s_cells := heat_wave_row |}
                 "wave") = VStr s
    ∧ movie_details {| s_index := catalog_columns; s_cells := heat_wave_row |}
        "wave"
      = movie_details {| s_index := df_columns heat_catalog; s_cells := row |}
          "wave"
    ∧ (lower s = lower "wave"
       ∨ ((∀ r, r ∈ df_rows heat_catalog → ¬ title_matches "wave" r)
          ∧ ∃ found, @str_contains literal_pandas (lower "wave") = Returned found
                     ∧ found (lower s) = true)).
Proof.
  apply (@X14_resolved_title_matches literal_pandas heat_catalog "wave").
  reflexivity.
Defined.

(** X15.  The lookup raises a key error when the catalog has no title
    column, and an attribute error when the title column has no string
    accessor, which a column holding a string always has.  With the
    column and its accessor, it raises what the fallback search raises
    when no title equals the input, and it returns [None] exactly when no
    title equals the input ignoring case and the fallback search accepts
    no title.  Rows whose title is not a string are passed over. *)
Theorem X15_not_found_and_errors `{Pandas}
    (movies_df : DataFrame) (movie_title : string) :
  ("title" ∉ df_columns movies_df →
     get_movie_details movies_df movie_title = Raised (KeyError "title"))
  ∧ ("title" ∈ df_columns movies_df →
     str_accessor (title_column movies_df) = false →
     get_movie_details movies_df movie_title = Raised (AttributeError "str"))
  ∧ (∀ r s, r ∈ df_rows movies_df → cell r "title" = VStr s →
       str_accessor (title_column movies_df) = true)
  ∧ (∀ e, "title" ∈ df_columns movies_df →
       str_accessor (title_column movies_df) = true →
       (∀ r, r ∈ df_rows movies_df → ¬ title_matches movie_title r) →
       str_contains (lower movie_title) = Raised e →
       get_movie_details movies_df movie_title = Raised e)
  ∧ (get_movie_details movies_df movie_title = Returned None ↔
       "title" ∈ df_columns movies_df
       ∧ str_accessor (title_column movies_df) = true
       ∧ (∀ r, r ∈ df_rows movies_df → ¬ title_matches movie_title r)
       ∧ ∃ found, str_contains (lower movie_title) = Returned found
                  ∧ ∀ r s, r ∈ df_rows movies_df →
                      cell r "title" = VStr s → found (lower s) = false).
Proof.
  unfold get_movie_details, find_matches. split; [|split; [|split; [|split]]].
  - intros Hcol. by rewrite bool_decide_eq_false_2.
  - intros Hcol Hacc. by rewrite bool_decide_eq_true_2, Hacc.
  - intros r s Hin Hs. apply str_accessor_of_str, existsb_exists.
    exists (cell r "title"). split; [|by rewrite Hs].
    apply in_map_iff. exists r. split; [done|]. by apply list_elem_of_In.
  - intros e Hcol Hacc Hno He. rewrite bool_decide_eq_true_2, Hacc by done.
    by rewrite exact_rows_none, He.
  - split.
    + case_bool_decide as Hcol; [|done].
      destruct (str_accessor (title_column movies_df)); [|done].
      destruct (truthy_list (exact_rows _ _)) eqn:Hexact; simpl.
      { by destruct (exact_rows _ _). }
      apply truthy_list_false in Hexact.
      destruct (str_contains (lower movie_title)) as [e|found] eqn:Hfound;
        [done|]. simpl.
      destruct (containing_rows found (df_rows movies_df)) eqn:Hrows; [|done].
      intros _. split; [done|]. split; [done|].
      split; [by apply exact_rows_nil_inv|].
      exists found. split; [done|]. by apply containing_rows_nil_inv.
    + intros (Hcol & Hacc & Hno & found & Hfound & Hnone).
      rewrite bool_decide_eq_true_2, Hacc by done.
      rewrite exact_rows_none, Hfound by done. simpl.
      by rewrite containing_rows_none.
Qed.

(* ===================================================================== *)
(** * Rendering one movie: properties *)
(* ===================================================================== *)

Lemma str_slice_to_length (s : string) (n : nat) :
  String.length (str_slice_to s n) = n `min` String.length s.
Proof.
  unfold str_slice_to. revert n. induction s as [|c s IH]; intros [|n]; simpl;
    try done. by rewrite IH.
Qed.

Lemma str_slice_to_prefix (s : string) (n : nat) :
  String.prefix (str_slice_to s n) s = true.
Proof.
  unfold str_slice_to. revert n. induction s as [|c s IH]; intros [|n]; simpl;
    try done. destruct (ascii_dec c c); [apply IH|done].
Qed.

Lemma str_append_length (s t : string) :
  String.length (s +:+ t) = String.length s + String.length t.
Proof. induction s as [|c s IH]; simpl; [done|]. by rewrite IH. Qed.

(** The text [s if len(s) <= budget else s[:budget] + "..."] *)
Lemma cut_text_length (s : string) (budget : nat) :
  String.length
    (if (Z.of_nat budget <? len_str s)%Z then str_slice_to s budget +:+ "..."
     else s) ≤ budget + 3.
Proof.
  unfold len_str. destruct (Z.ltb_spec (Z.of_nat budget) (Z.of_nat (String.length s))).
  - rewrite str_append_length, str_slice_to_length.
    change (String.length "...") with 3. lia.
  - lia.
Qed.

(** X16.  A row has a caption exactly when its movie has a non-empty
    overview.  The caption is the overview itself when that has at most
    150 characters, and otherwise its first 150 characters followed by
    three full stops, so a caption never has more than 153 characters. *)
Theorem X16_row_caption (movie : MovieRecommendation) :
  match row_caption movie with
  | None => overview movie = None ∨ overview movie = Some ""
  | Some c =>
      ∃ o, overview movie = Some o ∧ o ≠ ""
           ∧ String.length c ≤ 153
           ∧ (String.length o ≤ 150 → c = o)
           ∧ (150 < String.length o →
              c = str_slice_to o 150 +:+ "..."
              ∧ String.length c = 153
              ∧ String.prefix (str_slice_to o 150) o = true)
  end.
Proof.
  unfold row_caption. destruct (overview movie) as [o|]; [|by left].
  unfold truthy_str. destruct (String.eqb_spec o "") as [->|Hne]; simpl;
    [by right|].
  exists o. split; [done|]. split; [done|].
  split; [apply (cut_text_length o 150)|].
  unfold len_str.
  destruct (Z.ltb_spec 150 (Z.of_nat (String.length o))); split; try lia; try done.
  intros _. split; [done|]. split; [|apply str_slice_to_prefix].
  rewrite str_append_length, str_slice_to_length.
  change (String.length "...") with 3. lia.
Qed.

(** ** The lines of the composed pieces *)


Lemma and_then_filter kind (r1 r2 : rendering) :
  List.filter kind r1.1 = [] → List.filter kind r2.1 = [] →
  List.filter kind (r1 +++ r2).1 = [].
Proof.
  destruct r1 as [lines [e|]]; simpl; intros H1 H2; [done|].
  by rewrite List.filter_app, H1, H2.
Qed.

Lemma write_if_filter kind test line :
  kind line = false → List.filter kind (write_if test line).1 = [].
Proof. intros Hk. destruct test as [e|[]]; simpl; by rewrite ?Hk. Qed.


Lemma names_or_raw_filter kind names raw n v :
  (∀ l, kind (names l) = false) → (∀ x, kind (raw x) = false) →
  List.filter kind (names_or_raw names raw n v).1 = [].
Proof.
  intros Hn Hr. unfold names_or_raw.
  destruct v as [|f|z|s|[|x l]|l|o]; try (by apply write_if_filter).
  simpl. by rewrite Hn.
Qed.

Lemma names_only_filter kind names v :
  (∀ l, kind (names l) = false) → List.filter kind (names_only names v).1 = [].
Proof.
  intros Hn. unfold names_only.
  destruct v as [|f|z|s|[|x l]|l|o]; simpl; by rewrite ?Hn.
Qed.

Lemma unless_NA_filter kind line v :
  (∀ x, kind (line x) = false) → List.filter kind (unless_NA line v).1 = [].
Proof. intros Hl. by apply write_if_filter. Qed.




Ltac no_such_line :=
  first [ reflexivity
        | by apply names_or_raw_filter
        | by apply names_only_filter
        | by apply unless_NA_filter ].

(** X17.  The detail view of a catalog row has no line for directors,
    cast, studio, genres, runtime or rating when the catalog value of
    that field is missing, [None], a NaN of Python's type [float] or an
    empty list or tuple. *)
Theorem X17_no_line_for_missing_field `{Builtins}
    (movie : Series) (movie_title key : string) (kind : detail_line → bool) :
  (key, kind) ∈ optional_lines →
  is_missing movie key = true →
  List.filter kind
    (display_movie_details (movie_details movie movie_title)).1 = [].
Proof.
  intros Hin Hmiss. unfold display_movie_details, detail_columns, movie_details.
  cbn [d_title d_year d_directors d_cast d_production_companies d_overview
       d_genres d_runtime d_vote_average].
  repeat (apply elem_of_cons in Hin as [Hin|Hin]; [injection Hin as -> ->|]);
    [..|by apply elem_of_nil in Hin];
    rewrite (safe_get_missing _ _ _ Hmiss);
    (apply and_then_filter; [|reflexivity]);
    repeat (apply and_then_filter; [no_such_line|]);
    no_such_line.
Qed.

Lemma X17_no_line_for_missing_field_witness :
  List.filter is_runtime
    (@display_movie_details sample_builtins
       (movie_details {| s_index := catalog_columns; s_cells := heat_row |}
          "heat")).1 = [].
Proof.
  apply (@X17_no_line_for_missing_field sample_builtins _ "heat" "runtime").
  - repeat constructor.
  - reflexivity.
Defined.



(* ===================================================================== *)
(** * More on the accepted e-mail addresses, and on logging out *)
(* ===================================================================== *)

Lemma count_char_app c (s t : string) :
  count_char c (s +:+ t) = count_char c s + count_char c t.
Proof.
  unfold count_char. by rewrite list_ascii_app, List.filter_app, length_app.
Qed.

Lemma count_char_none c p (s : string) :
  p c = false → all_chars p s = true → count_char c s = 0.
Proof.
  unfold count_char, all_chars. intros Hc.
  induction (list_ascii_of_string s) as [|x l IH]; [done|]. simpl.
  intros [Hx Hl]%andb_true_iff.
  destruct (Ascii.eqb_spec c x) as [->|_]; [congruence|by apply IH].
Qed.

(** X19.  An address [validate_email] accepts contains the character [@]
    exactly once and has at least six characters. *)
Theorem X19_accepted_address_has_one_at (s : string) :
  validate_email s = true →
  count_char "@" s = 1 ∧ 6 ≤ String.length s.
Proof.
  intros (loc & dom & tld & nl & -> & Hl1 & Hl2 & Hd1 & Hd2 & Ht1 & Ht2 & Hnl)
    %validate_email_shape.
  split.
  - rewrite !count_char_app.
    rewrite (count_char_none "@" local_char loc),
      (count_char_none "@" domain_char dom),
      (count_char_none "@" is_alpha tld) by done.
    by destruct Hnl as [-> | ->].
  - rewrite !str_append_length.
    destruct loc; [done|]. destruct dom; [done|]. simpl. lia.
Qed.

Lemma X19_accepted_address_has_one_at_witness :
  count_char "@" "ann@example.org" = 1 ∧ 6 ≤ String.length "ann@example.org".
Proof. by apply X19_accepted_address_has_one_at. Defined.

(** X20.  Log Out on the search page logs the user out, empties the
    stored user data, drops the search results and goes to the welcome
    page; the run shows nothing and asks for a rerun, and keeps the last
    query, the stored query input and the appearance. *)
Theorem X20_logout_forgets_the_user `{Pandas}
    (recommender : Recommender) (inp : Inputs) (s : SessionState) :
  page s = "search" → w_appearance inp = appearance s →
  pressed inp = Some BtnLogOut →
  ∃ s', run recommender inp s = (s', [], inl Rerun)
        ∧ page s' = "welcome" ∧ logged_in s' = false ∧ user_info s' = ∅
        ∧ search_results s' = None
        ∧ last_query s' = last_query s ∧ query_input s' = query_input s
        ∧ appearance s' = appearance s.
Proof.
  intros Hpage Happ Hout. rewrite (logout_run recommender inp s) by done.
  by eexists.
Qed.

Lemma X20_logout_forgets_the_user_witness :
  ∃ s', @run literal_pandas sample_recommender (press BtnLogOut idle)
          searched_state = (s', [], inl Rerun)
        ∧ page s' = "welcome" ∧ logged_in s' = false ∧ user_info s' = ∅
        ∧ search_results s' = None
        ∧ last_query s' = last_query searched_state
        ∧ query_input s' = query_input searched_state
        ∧ appearance s' = appearance searched_state.
Proof.
  by apply (@X20_logout_forgets_the_user literal_pandas sample_recommender).
Defined.
